(** * django-raster: the tile parser and the TMS view

    A shallow embedding of [raster/tiles/parser.py] (class
    [RasterLayerParser]) and [raster/views.py] (class [TmsView] and the
    view [legend]).

    Python objects become records, the parser instance together with the
    database rows it touches becomes an explicit [World] threaded through a
    state-and-exception monad, and the libraries the code calls (GDAL through
    Django, numpy, PIL, json, the file system) are interfaces: type classes
    whose methods the theorems quantify over.  Pixel values and scales are
    rationals: every finite float is one, and the code only compares, adds
    and halves them. *)

From Stdlib Require Import ZArith QArith Qabs String Ascii List Bool Lia.
From Stdlib Require Import DecimalString Lqa Sorted.
From stdpp Require Import base list.
Import ListNotations.

Close Scope Q_scope.
Local Open Scope string_scope.
Local Open Scope list_scope.
Local Open Scope Z_scope.

(** ** Python: exceptions and results *)

Inductive exn : Type :=
| RasterException (msg : string)
| GDALException
| BadZipfile
| IOError
| AttributeError
| IndexError
| KeyError
| ValueError
| TypeError
| Http404
| MultipleObjectsReturned.

(** What evaluating a Python expression gives: a value, or a raised
    exception. *)
Inductive outcome (A : Type) : Type :=
| Returned (a : A)
| Raised (e : exn).
Arguments Returned {A} a.
Arguments Raised {A} e.

Definition outcome_bind {A B} (o : outcome A) (k : A -> outcome B) : outcome B :=
  match o with
  | Returned a => k a
  | Raised e => Raised e
  end.

(** Statements: they change the state also when they end in an exception. *)
Definition Py (St A : Type) : Type := St -> outcome A * St.

Definition ret {St A} (a : A) : Py St A := fun s => (Returned a, s).

Definition raise {St A} (e : exn) : Py St A := fun s => (Raised e, s).

Definition bind {St A B} (m : Py St A) (k : A -> Py St B) : Py St B :=
  fun s =>
    match m s with
    | (Returned a, s') => k a s'
    | (Raised e, s') => (Raised e, s')
    end.

Definition read {St} : Py St St := fun s => (Returned s, s).

Definition modify {St} (f : St -> St) : Py St unit := fun s => (Returned tt, f s).

Definition lift {St A} (o : outcome A) : Py St A := fun s => (o, s).

Declare Scope py_scope.
Delimit Scope py_scope with py.
Notation "x <- m ;; k" := (bind m (fun x => k))
  (at level 100, m at next level, right associativity) : py_scope.
Notation "m ;;; k" := (bind m (fun _ => k))
  (at level 100, right associativity) : py_scope.
Notation "x <-! o ;; k" := (outcome_bind o (fun x => k))
  (at level 100, o at next level, right associativity) : py_scope.
Local Open Scope py_scope.

(** [for x in l: body] *)
Fixpoint for_each {St B} (l : list B) (body : B -> Py St unit) : Py St unit :=
  match l with
  | [] => ret tt
  | x :: rest => body x ;;; for_each rest body
  end.

(** [if c: body] *)
Definition when {St} (c : bool) (body : Py St unit) : Py St unit :=
  if c then body else ret tt.

(** [range(lo, hi + 1)] *)
Definition py_range_incl (lo hi : Z) : list Z :=
  map (fun i => lo + Z.of_nat i) (seq 0 (Z.to_nat (hi + 1 - lo))).

(** [enumerate(l)] *)
Definition enumerate {A} (l : list A) : list (nat * A) :=
  combine (seq 0 (length l)) l.

(** [l[i]] for a Python integer [i]: a negative index counts from the end. *)
Definition py_index {A} (l : list A) (i : Z) : option A :=
  let n := Z.of_nat (length l) in
  if (0 <=? i) && (i <? n) then l !! Z.to_nat i
  else if (- n <=? i) && (i <? 0) then l !! Z.to_nat (n + i)
  else None.

(** Python values as they reach the code from settings, model fields and
    query strings. *)
Inductive PyVal : Type :=
| PyNone
| PyBool (b : bool)
| PyInt (i : Z)
| PyFloat (x : Q)
| PyStr (s : string).

(** ** Python: strings and paths *)

Definition ascii_is (c d : ascii) : bool := Ascii.eqb c d.

Definition lower_ascii (c : ascii) : ascii :=
  let n := nat_of_ascii c in
  if (Nat.leb 65 n && Nat.leb n 90)%bool then ascii_of_nat (n + 32) else c.

Definition upper_ascii (c : ascii) : ascii :=
  let n := nat_of_ascii c in
  if (Nat.leb 97 n && Nat.leb n 122)%bool then ascii_of_nat (n - 32) else c.

(** [s.lower()], on the ASCII letters. *)
Fixpoint lower (s : string) : string :=
  match s with
  | EmptyString => EmptyString
  | String c r => String (lower_ascii c) (lower r)
  end.

Fixpoint upper (s : string) : string :=
  match s with
  | EmptyString => EmptyString
  | String c r => String (upper_ascii c) (upper r)
  end.

(** [os.path.basename(p)]: what follows the last slash. *)
Fixpoint basename_from (acc p : string) : string :=
  match p with
  | EmptyString => acc
  | String c r =>
      if ascii_is c "/" then basename_from EmptyString r
      else basename_from (acc ++ String c EmptyString) r
  end.

Definition basename (p : string) : string := basename_from EmptyString p.

Fixpoint ends_with_slash (p : string) : bool :=
  match p with
  | EmptyString => false
  | String c EmptyString => ascii_is c "/"
  | String _ r => ends_with_slash r
  end.

(** [os.path.join(a, b)] (posixpath). *)
Definition path_join (a b : string) : string :=
  match b with
  | String c _ =>
      if ascii_is c "/" then b
      else if String.eqb a EmptyString || ends_with_slash a then a ++ b
      else a ++ "/" ++ b
  | EmptyString =>
      if String.eqb a EmptyString || ends_with_slash a then a else a ++ "/"
  end.

(** Splits at the last dot: what stands before it, and the rest from the dot
    on. *)
Fixpoint split_last_dot (s : string) : option (string * string) :=
  match s with
  | EmptyString => None
  | String c r =>
      match split_last_dot r with
      | Some (pre, ext) => Some (String c pre, ext)
      | None => if ascii_is c "." then Some (EmptyString, s) else None
      end
  end.

Fixpoint all_dots (s : string) : bool :=
  match s with
  | EmptyString => true
  | String c r => ascii_is c "." && all_dots r
  end.

(** [os.path.splitext(p)[1]]: the extension starts at the last dot of the
    last path component, leading dots of the component apart. *)
Definition splitext_ext (p : string) : string :=
  match split_last_dot (basename p) with
  | Some (pre, ext) => if all_dots pre then EmptyString else ext
  | None => EmptyString
  end.

(** [fnmatch.filter(names, '*.*')] keeps the names that hold a dot. *)
Fixpoint has_dot (s : string) : bool :=
  match s with
  | EmptyString => false
  | String c r => ascii_is c "." || has_dot r
  end.

(** [s.split(',')] *)
Fixpoint split_comma_from (acc s : string) : list string :=
  match s with
  | EmptyString => [acc]
  | String c r =>
      if ascii_is c "," then acc :: split_comma_from EmptyString r
      else split_comma_from (acc ++ String c EmptyString) r
  end.

Definition split_comma (s : string) : list string := split_comma_from EmptyString s.

Fixpoint starts_with (prefix s : string) : bool :=
  match prefix, s with
  | EmptyString, _ => true
  | String c p, String d r => ascii_is c d && starts_with p r
  | String _ _, EmptyString => false
  end.

(** [sub in s] *)
Fixpoint contains (s sub : string) : bool :=
  starts_with sub s ||
  match s with
  | EmptyString => false
  | String _ r => contains r sub
  end.

(** [x in l] for a list of strings. *)
Definition str_in (x : string) (l : list string) : bool :=
  existsb (String.eqb x) l.

(** [str(i)] for an integer. *)
Definition str_of_int (i : Z) : string := NilZero.string_of_int (Z.to_int i).

(** ** Rationals as booleans *)

Definition Qleb (x y : Q) : bool := Qle_bool x y.
Definition Qltb (x y : Q) : bool := negb (Qle_bool y x).
Definition Qeqb (x y : Q) : bool := Qeq_bool x y.

(** ** The data model *)

(** A Django [FieldFile]: it is falsy when it has no name. *)
Record File : Type := mkFile {
  file_name : string;
  file_content : string
}.

Definition file_bool (f : File) : bool := negb (String.eqb (file_name f) EmptyString).

Definition no_file : File := mkFile EmptyString EmptyString.

(** A two-dimensional numpy array of pixel values, by rows. *)
Definition Block : Type := list (list Q).

Record SpatialReference : Type := mkSpatialReference {
  srid : option Z;
  wkt : string
}.

(** [django.contrib.gis.gdal.GDALBand]; [band_std] and [band_mean] are absent
    on the Django versions whose bands have no such attribute. *)
Record GDALBand : Type := mkGDALBand {
  nodata_value : option Q;
  band_min : Q;
  band_max : Q;
  band_std : option Q;
  band_mean : option Q;
  datatype : Z;
  pixels : Block
}.

(** [django.contrib.gis.gdal.GDALRaster] *)
Record GDALRaster : Type := mkGDALRaster {
  name : string;
  srs : option SpatialReference;
  origin : Q * Q;
  scale : Q * Q;
  skew : Q * Q;
  width : Z;
  height : Z;
  bands : list GDALBand
}.

(** The dict handed to [GDALRaster.warp]. *)
Record WarpOptions : Type := mkWarpOptions {
  warp_name : string;
  warp_origin : Q * Q;
  warp_scale : Q * Q;
  warp_width : Z;
  warp_height : Z
}.

(** One entry of [band_data]: [{'data': ..., 'nodata_value': ...}]. *)
Record BandData : Type := mkBandData {
  data : Block;
  data_nodata_value : option Q
}.

(** The in-memory raster of one tile, as the dict it is built from. *)
Record TileRaster : Type := mkTileRaster {
  tile_width : Z;
  tile_height : Z;
  tile_origin : Q * Q;
  tile_scale_xy : Q * Q;
  tile_srid : Z;
  tile_datatype : Z;
  tile_bands : list BandData
}.

(** A row of [raster_rastertile]. *)
Record RasterTile : Type := mkRasterTile {
  rast : TileRaster;
  rasterlayer_id : Z;
  tilex : Z;
  tiley : Z;
  tilez : Z
}.

(** What [json.loads] returns. *)
#[local] Unset Elimination Schemes.
Inductive Json : Type :=
| JNull
| JBool (b : bool)
| JNumber (x : Q)
| JString (s : string)
| JArray (items : list Json)
| JObject (members : list (string * Json)).
#[local] Set Elimination Schemes.

(** Keys of a colormap dict: band values, or expressions. *)
Inductive ColorKey : Type :=
| KeyInt (i : Z)
| KeyStr (s : string).

(** A colormap is a Python dict: keys are unique and keep the order in
    which they were first set. *)
Definition Colormap : Type := list (ColorKey * Json).

Record Legend : Type := mkLegend {
  title : string;
  colormap : Colormap
}.

Record RasterLayer : Type := mkRasterLayer {
  layer_id : Z;
  rasterfile : File;
  nodata : PyVal;
  layer_legend : option Legend
}.

Inductive Status : Type :=
| UNPARSED
| REPROJECTING_RASTER
| CREATING_TILES
| DROPPING_EMPTY_TILES
| FINISHED
| FAILED.

Record RasterLayerParseStatus : Type := mkParseStatus {
  status : Status;
  tile_levels : list Z;
  log_text : string
}.

Record RasterLayerReprojected : Type := mkReprojected {
  reproj_rasterfile : File
}.

Record RasterLayerMetadata : Type := mkMetadata {
  meta_uperleftx : Q;
  meta_uperlefty : Q;
  meta_width : Z;
  meta_height : Z;
  meta_scalex : Q;
  meta_scaley : Q;
  meta_skewx : Q;
  meta_skewy : Q;
  meta_numbands : Z;
  meta_srs_wkt : string;
  meta_srid : option Z;
  meta_max_zoom : option Z
}.

Record RasterLayerBandMetadata : Type := mkBandMetadata {
  bm_rasterlayer : Z;
  bm_band : Z;
  bm_nodata_value : option Q;
  bm_min : Q;
  bm_max : Q;
  bm_std : option Q;
  bm_mean : option Q;
  bm_hist_values : list Z;
  bm_hist_bins : list Q
}.

(** The rows the parser reads and writes.  The status, metadata and
    reprojected rows are those of the parser's own layer ([reprojected] is
    [None] while the layer has no such row); the other tables hold the rows
    of all layers, in primary-key order. *)
Record Database : Type := mkDatabase {
  parsestatus : RasterLayerParseStatus;
  reprojected : option RasterLayerReprojected;
  metadata : RasterLayerMetadata;
  bandmetadata : list RasterLayerBandMetadata;
  rastertiles : list RasterTile
}.

(** [django.conf.settings], the options the parser reads, and celery's
    switch for exceptions of tasks that are applied eagerly. *)
Record Settings : Type := mkSettings {
  RASTER_TILESIZE : option Z;
  RASTER_ZOOM_NEXT_HIGHER : option bool;
  RASTER_WORKDIR : option string;
  CELERY_EAGER_PROPAGATES_EXCEPTIONS : bool
}.

(** The attributes of a [RasterLayerParser] instance. *)
Record Parser : Type := mkParser {
  rasterlayer : RasterLayer;
  tilesize : Z;
  zoomdown : bool;
  tmpdir : option string;
  dataset : option GDALRaster;
  max_zoom : option Z;
  hist_values : list (list Z);
  hist_bins : list (list Q);
  quadrant_count : Z
}.

(** Calls that leave the process: they are recorded in the order made. *)
Inductive Call : Type :=
| CallOpen (source : File) (path : string)
| CallTransform (ds : GDALRaster) (target : Z)
| CallWarp (ds : GDALRaster) (options : WarpOptions)
| CallSignal (layer : Z).

Record World : Type := mkWorld {
  self : Parser;
  db : Database;
  calls : list Call;
  ticks : nat
}.

(** *** Assignments *)

Definition with_self (f : Parser -> Parser) (w : World) : World :=
  mkWorld (f (self w)) (db w) (calls w) (ticks w).

Definition with_db (f : Database -> Database) (w : World) : World :=
  mkWorld (self w) (f (db w)) (calls w) (ticks w).

Definition with_call (c : Call) (w : World) : World :=
  mkWorld (self w) (db w) (calls w ++ [c]) (ticks w).

Definition with_tick (w : World) : World :=
  mkWorld (self w) (db w) (calls w) (S (ticks w)).

Definition set_tmpdir (d : string) (p : Parser) : Parser :=
  mkParser (rasterlayer p) (tilesize p) (zoomdown p) (Some d) (dataset p)
    (max_zoom p) (hist_values p) (hist_bins p) (quadrant_count p).

Definition set_dataset (d : option GDALRaster) (p : Parser) : Parser :=
  mkParser (rasterlayer p) (tilesize p) (zoomdown p) (tmpdir p) d
    (max_zoom p) (hist_values p) (hist_bins p) (quadrant_count p).

Definition set_max_zoom (z : Z) (p : Parser) : Parser :=
  mkParser (rasterlayer p) (tilesize p) (zoomdown p) (tmpdir p) (dataset p)
    (Some z) (hist_values p) (hist_bins p) (quadrant_count p).

Definition set_hist_values (v : list (list Z)) (p : Parser) : Parser :=
  mkParser (rasterlayer p) (tilesize p) (zoomdown p) (tmpdir p) (dataset p)
    (max_zoom p) v (hist_bins p) (quadrant_count p).

Definition set_hist_bins (b : list (list Q)) (p : Parser) : Parser :=
  mkParser (rasterlayer p) (tilesize p) (zoomdown p) (tmpdir p) (dataset p)
    (max_zoom p) (hist_values p) b (quadrant_count p).

Definition set_quadrant_count (n : Z) (p : Parser) : Parser :=
  mkParser (rasterlayer p) (tilesize p) (zoomdown p) (tmpdir p) (dataset p)
    (max_zoom p) (hist_values p) (hist_bins p) n.

Definition set_parsestatus (s : RasterLayerParseStatus) (d : Database) : Database :=
  mkDatabase s (reprojected d) (metadata d) (bandmetadata d) (rastertiles d).

Definition set_reprojected (r : RasterLayerReprojected) (d : Database) : Database :=
  mkDatabase (parsestatus d) (Some r) (metadata d) (bandmetadata d) (rastertiles d).

Definition set_metadata (m : RasterLayerMetadata) (d : Database) : Database :=
  mkDatabase (parsestatus d) (reprojected d) m (bandmetadata d) (rastertiles d).

Definition set_bandmetadata (b : list RasterLayerBandMetadata) (d : Database) : Database :=
  mkDatabase (parsestatus d) (reprojected d) (metadata d) b (rastertiles d).

Definition set_rastertiles (t : list RasterTile) (d : Database) : Database :=
  mkDatabase (parsestatus d) (reprojected d) (metadata d) (bandmetadata d) t.

Definition set_band_nodata (v : option Q) (b : GDALBand) : GDALBand :=
  mkGDALBand v (band_min b) (band_max b) (band_std b) (band_mean b) (datatype b) (pixels b).

Definition set_bands (bs : list GDALBand) (ds : GDALRaster) : GDALRaster :=
  mkGDALRaster (name ds) (srs ds) (origin ds) (scale ds) (skew ds) (width ds) (height ds) bs.

Definition set_bm_hist_values (h : list Z) (b : RasterLayerBandMetadata) : RasterLayerBandMetadata :=
  mkBandMetadata (bm_rasterlayer b) (bm_band b) (bm_nodata_value b) (bm_min b) (bm_max b)
    (bm_std b) (bm_mean b) h (bm_hist_bins b).

Definition set_meta_max_zoom (z : Z) (m : RasterLayerMetadata) : RasterLayerMetadata :=
  mkMetadata (meta_uperleftx m) (meta_uperlefty m) (meta_width m) (meta_height m)
    (meta_scalex m) (meta_scaley m) (meta_skewx m) (meta_skewy m) (meta_numbands m)
    (meta_srs_wkt m) (meta_srid m) (Some z).

(** ** numpy *)

(** [a.searchsorted(e, 'left')] and [a.searchsorted(e, 'right')] on the
    sorted values: how many lie below [e], and how many do not exceed it. *)
Definition count_below (e : Q) (values : list Q) : Z :=
  Z.of_nat (length (List.filter (fun v => Qltb v e) values)).

Definition count_upto (e : Q) (values : list Q) : Z :=
  Z.of_nat (length (List.filter (fun v => Qleb v e) values)).

(** The cumulative counts at the bin edges; the last edge is inclusive. *)
Fixpoint cumulative (values : list Q) (edges : list Q) : list Z :=
  match edges with
  | [] => []
  | [e] => [count_upto e values]
  | e :: rest => count_below e values :: cumulative values rest
  end.

(** [numpy.diff] *)
Fixpoint diff (l : list Z) : list Z :=
  match l with
  | a :: (b :: _) as rest => (b - a) :: diff rest
  | _ => []
  end.

Fixpoint increasing (edges : list Q) : bool :=
  match edges with
  | a :: (b :: _) as rest => Qleb a b && increasing rest
  | _ => true
  end.

(** [numpy.histogram(a, bins=edges)[0]] for an array of bin edges: the
    counts per bin, every bin half-open but the last one. *)
Definition histogram (a : Block) (edges : list Q) : outcome (list Z) :=
  if increasing edges then Returned (diff (cumulative (concat a) edges))
  else Raised ValueError.

(** [v += h] on one-dimensional arrays: elementwise, with a one-element [h]
    broadcast. *)
Definition iadd (v h : list Z) : outcome (list Z) :=
  if Nat.eqb (length h) (length v) then Returned (zip_with Z.add v h)
  else
    match h with
    | [c] => Returned (map (fun x => x + c) v)
    | _ => Raised ValueError
    end.

(** ** PostGIS *)

(** [ST_Count(rast)] is [ST_Count(rast, 1, true)]: the number of pixels of
    the first band that differ from the band's nodata value, all pixels when
    the band has none, and NULL when the raster has no band. *)
Definition ST_Count (r : TileRaster) : option Z :=
  match tile_bands r with
  | [] => None
  | b :: _ =>
      Some (Z.of_nat (length (List.filter
        (fun v => match data_nodata_value b with
                  | Some nd => negb (Qeqb v nd)
                  | None => true
                  end) (concat (data b)))))
  end.

(** ** The interfaces of what the code calls *)

Definition BBox : Type := (Q * Q * Q * Q)%type.

(** [(xmin, ymin, xmax, ymax)] in tile indices. *)
Definition IndexRange : Type := (Z * Z * Z * Z)%type.

(** GDAL, through [django.contrib.gis.gdal].  [GDALRaster_open source path]
    is [GDALRaster(path, write=True)] in the work directory that holds the
    local copy of [source] (and its members, when it is an archive).  A
    [None] stands for the [GDALException] of a call that fails: a path that
    is no raster, a transformation or a read that GDAL refuses. *)
Class GDAL : Type := {
  GDALRaster_open : File -> string -> option GDALRaster;
  transform : GDALRaster -> Z -> option GDALRaster;
  warp : GDALRaster -> WarpOptions -> option GDALRaster;
  band_data : GDALBand -> Z * Z -> Z * Z -> option Block
}.

(** A failed library call raises the library's exception. *)
Definition or_raise {A} (e : exn) (o : option A) : outcome A :=
  match o with
  | Some a => Returned a
  | None => Raised e
  end.

(** [raster/tiles/const.py] is not among the sources: its two constants are
    taken as given. *)
Class TilesConst : Type := {
  WEB_MERCATOR_SRID : Z;
  WEB_MERCATOR_TILESIZE : Z
}.

(** [raster/tiles/utils.py] is not among the sources: the grid functions the
    tiler calls are taken as given. *)
Class TileGrid : Type := {
  tile_scale : Z -> Q;
  tile_bounds : Z -> Z -> Z -> BBox;
  tile_index_range : BBox -> Z -> IndexRange;
  quadrants : BBox -> Z -> list IndexRange
}.

(** [utils.closest_zoomlevel], of the same absent module. *)
Class ZoomLevels : Type := {
  closest_zoomlevel : Q -> Z
}.

(** The operating system, the storage backend and the model layer:
    - [mkdtemp dir tick] and [NamedTemporaryFile dir suffix tick] are the
      names [tempfile] picks, [strftime_now tick] the formatted time;
    - [extract_and_walk tmpdir source] is what [os.walk(tmpdir)] yields, as
      (root, filenames) pairs, once the archive [source] was extracted there
      and removed ([None]: the file is no zip archive, [BadZipfile]);
    - [store_zipped ds dest] is the stored file of the zip archive [dest]
      written from [ds];
    - [float_of_str] is [float] on a string ([None]: [ValueError]);
    - [new_bandmeta_histogram] is the histogram a band metadata row gets
      when it is first saved, and [extent] the layer's bounding box: both
      belong to [raster/models.py], which is not among the sources. *)
Class Platform : Type := {
  mkdtemp : option string -> nat -> string;
  NamedTemporaryFile : string -> string -> nat -> string;
  strftime_now : nat -> string;
  extract_and_walk : string -> File -> option (list (string * list string));
  store_zipped : GDALRaster -> string -> File;
  float_of_str : string -> option Q;
  new_bandmeta_histogram : Q -> Q -> list Z * list Q;
  extent : RasterLayer -> Database -> BBox
}.

(** ** [raster/tiles/parser.py] *)

Definition newline : string := String (ascii_of_nat 10) EmptyString.

Fixpoint insert_sorted (z : Z) (l : list Z) : list Z :=
  match l with
  | [] => [z]
  | x :: rest => if z <? x then z :: l else x :: insert_sorted z rest
  end.

(** [l.sort()] *)
Definition sort_levels (l : list Z) : list Z := fold_right insert_sorted [] l.

(** [x not in ('', None)] *)
Definition nodata_is_unset (v : PyVal) : bool :=
  match v with
  | PyNone => true
  | PyStr s => String.eqb s EmptyString
  | _ => false
  end.

Definition srid_is (s : SpatialReference) (target : Z) : bool :=
  match srid s with
  | Some i => i =? target
  | None => false
  end.

(** The (layer, band) filter of the band metadata queries. *)
Definition is_bandmeta (layer : Z) (band : Z) (b : RasterLayerBandMetadata) : bool :=
  (bm_rasterlayer b =? layer) && (bm_band b =? band).

(** [RasterLayerBandMetadata.objects.filter(rasterlayer=..., band=i).first()] *)
Definition first_bandmeta (layer band : Z) (rows : list RasterLayerBandMetadata)
  : option RasterLayerBandMetadata :=
  List.find (is_bandmeta layer band) rows.

(** Lines 194-201: the assignments from a band to its metadata row. *)
Definition fill_bandmeta (band : GDALBand) (b : RasterLayerBandMetadata)
  : RasterLayerBandMetadata :=
  mkBandMetadata (bm_rasterlayer b) (bm_band b) (nodata_value band) (band_min band)
    (band_max band)
    (match band_std band with Some x => Some x | None => bm_std b end)
    (match band_mean band with Some x => Some x | None => bm_mean b end)
    (bm_hist_values b) (bm_hist_bins b).

(** Saves the first row the filter finds, with [f] applied. *)
Fixpoint update_first (p : RasterLayerBandMetadata -> bool)
    (f : RasterLayerBandMetadata -> RasterLayerBandMetadata)
    (rows : list RasterLayerBandMetadata) : list RasterLayerBandMetadata :=
  match rows with
  | [] => []
  | r :: rest => if p r then f r :: rest else r :: update_first p f rest
  end.

(** Lines 241-244: the counts are written to the rows of the layer one by
    one; the rows written before an [IndexError] stay written. *)
Fixpoint store_hist_values (layer : Z) (hv : list (list Z))
    (rows : list RasterLayerBandMetadata) : list RasterLayerBandMetadata * option exn :=
  match rows with
  | [] => ([], None)
  | r :: rest =>
      if bm_rasterlayer r =? layer then
        match py_index hv (bm_band r) with
        | None => (r :: rest, Some IndexError)
        | Some h =>
            let (rest', e) := store_hist_values layer hv rest in
            (set_bm_hist_values h r :: rest', e)
        end
      else
        let (rest', e) := store_hist_values layer hv rest in (r :: rest', e)
  end.

Section Parser.
Context {gdal : GDAL} {const : TilesConst} {grid : TileGrid} {platform : Platform}.
Context (settings : Settings).

(** [__init__] *)
Definition init (layer : RasterLayer) : Parser :=
  mkParser layer
    (match RASTER_TILESIZE settings with Some t => t | None => WEB_MERCATOR_TILESIZE end)
    (match RASTER_ZOOM_NEXT_HIGHER settings with Some b => b | None => true end)
    None None None [] [] 0.

Definition get_dataset : Py World GDALRaster :=
  w <- read ;;
  match dataset (self w) with
  | Some ds => ret ds
  | None => raise AttributeError
  end.

Definition get_tmpdir : Py World string :=
  w <- read ;;
  match tmpdir (self w) with
  | Some d => ret d
  | None => raise AttributeError
  end.

Definition get_max_zoom : Py World Z :=
  w <- read ;;
  match max_zoom (self w) with
  | Some z => ret z
  | None => raise AttributeError
  end.

Definition get_layer_id : Py World Z :=
  w <- read ;; ret (layer_id (rasterlayer (self w))).

(** A fresh name of [tempfile]. *)
Definition temp_name (dir suffix : string) : Py World string :=
  w <- read ;;
  modify with_tick ;;;
  ret (NamedTemporaryFile dir suffix (ticks w)).

Definition log (msg : string) (st : option Status) (zoom : option Z) : Py World unit :=
  w <- read ;;
  let ps := parsestatus (db w) in
  let status' := match st with Some s => s | None => status ps end in
  let levels' :=
    match zoom with
    | Some z =>
        if existsb (Z.eqb z) (tile_levels ps) then tile_levels ps
        else sort_levels (tile_levels ps ++ [z])
    | None => tile_levels ps
    end in
  let now := ("[" ++ strftime_now (ticks w) ++ "] ")%string in
  let now := (if String.eqb (log_text ps) EmptyString then now else newline ++ now)%string in
  modify with_tick ;;;
  modify (with_db (set_parsestatus (mkParseStatus status' levels' (log_text ps ++ now ++ msg)))).

Definition save_bandmeta (layer : Z) (i : Z) (band : GDALBand) (d : Database) : Database :=
  match first_bandmeta layer i (bandmetadata d) with
  | Some _ =>
      set_bandmetadata
        (update_first (is_bandmeta layer i) (fill_bandmeta band) (bandmetadata d)) d
  | None =>
      let (values, bins) := new_bandmeta_histogram (band_min band) (band_max band) in
      set_bandmetadata
        (bandmetadata d ++
         [fill_bandmeta band (mkBandMetadata layer i None 0%Q 0%Q None None values bins)]) d
  end.

Definition extract_metadata : Py World unit :=
  log "Extracting metadata from raster." None None ;;;
  ds <- get_dataset ;;
  s <- lift (match srs ds with Some s => Returned s | None => Raised AttributeError end) ;;
  modify (with_db (fun d =>
    set_metadata
      (mkMetadata (fst (origin ds)) (snd (origin ds)) (width ds) (height ds)
         (fst (scale ds)) (snd (scale ds)) (fst (skew ds)) (snd (skew ds))
         (Z.of_nat (length (bands ds))) (wkt s) (srid s) (meta_max_zoom (metadata d))) d)) ;;;
  layer <- get_layer_id ;;
  for_each (enumerate (bands ds)) (fun '(i, band) =>
    modify (with_db (save_bandmeta layer (Z.of_nat i) band))) ;;;
  log "Finished extracting metadata from raster." None None.

(** Line 71: [get_or_create]. *)
Definition get_or_create_reprojected : Py World (RasterLayerReprojected * bool) :=
  w <- read ;;
  match reprojected (db w) with
  | Some r => ret (r, false)
  | None =>
      modify (with_db (set_reprojected (mkReprojected no_file))) ;;;
      ret (mkReprojected no_file, true)
  end.

(** Lines 73-77. *)
Definition choose_source (reproj : RasterLayerReprojected) (layer : RasterLayer) : File :=
  if negb (file_bool (reproj_rasterfile reproj)) then rasterfile layer
  else reproj_rasterfile reproj.

(** Lines 101-104. *)
Definition matched_files (walk : list (string * list string)) : list string :=
  flat_map (fun '(root, filenames) =>
    map (path_join root) (List.filter has_dot filenames)) walk.

(** Lines 108-113: the loop leaves at the first file that opens. *)
Fixpoint open_first (source : File) (matches : list string) : Py World unit :=
  match matches with
  | [] => ret tt
  | m :: rest =>
      modify (with_call (CallOpen source m)) ;;;
      match GDALRaster_open source m with
      | Some ds => modify (with_self (set_dataset (Some ds)))
      | None => open_first source rest
      end
  end.

(** Lines 79-119: the local copy, and the dataset opened from it.  A source
    whose name has no last component cannot be written to the work
    directory. *)
Definition open_source (source : File) : Py World unit :=
  w <- read ;;
  let dir := mkdtemp (RASTER_WORKDIR settings) (ticks w) in
  modify with_tick ;;;
  modify (with_self (set_tmpdir dir)) ;;;
  let filepath := path_join dir (basename (file_name source)) in
  if String.eqb (basename (file_name source)) EmptyString then raise IOError
  else if String.eqb (lower (splitext_ext filepath)) ".zip" then
    walk <- lift (or_raise BadZipfile (extract_and_walk dir source)) ;;
    modify (with_self (set_dataset None)) ;;;
    open_first source (matched_files walk) ;;;
    w' <- read ;;
    match dataset (self w') with
    | None => raise (RasterException "Could not open rasterfile.")
    | Some _ => ret tt
    end
  else
    modify (with_call (CallOpen source filepath)) ;;;
    match GDALRaster_open source filepath with
    | Some ds => modify (with_self (set_dataset (Some ds)))
    | None => raise GDALException
    end.

(** Lines 125-148. *)
Definition reproject : Py World unit :=
  ds <- get_dataset ;;
  s <- lift (match srs ds with Some s => Returned s | None => Raised AttributeError end) ;;
  when (negb (srid_is s WEB_MERCATOR_SRID))
    (log ("Transforming raster to SRID " ++ str_of_int WEB_MERCATOR_SRID)
       (Some REPROJECTING_RASTER) None ;;;
     modify (with_call (CallTransform ds WEB_MERCATOR_SRID)) ;;;
     ds' <- lift (or_raise GDALException (transform ds WEB_MERCATOR_SRID)) ;;
     modify (with_self (set_dataset (Some ds'))) ;;;
     dir <- get_tmpdir ;;
     dest <- temp_name dir ".zip" ;;
     modify (with_db (set_reprojected (mkReprojected (store_zipped ds' dest)))) ;;;
     log "Finished transforming raster." None None).

(** [float(x)] *)
Definition py_float (v : PyVal) : outcome Q :=
  match v with
  | PyNone => Raised TypeError
  | PyBool b => Returned (if b then 1%Q else 0%Q)
  | PyInt i => Returned (inject_Z i)
  | PyFloat x => Returned x
  | PyStr s =>
      match float_of_str s with
      | Some x => Returned x
      | None => Raised ValueError
      end
  end.

(** [band.nodata_value = x] for the band at position [i] of the dataset. *)
Definition assign_nodata (i : nat) (x : Q) : Py World unit :=
  ds <- get_dataset ;;
  modify (with_self (set_dataset
    (Some (set_bands (alter (set_band_nodata (Some x)) i (bands ds)) ds)))).

(** Lines 150-153. *)
Definition apply_nodata : Py World unit :=
  w <- read ;;
  let v := nodata (rasterlayer (self w)) in
  when (negb (nodata_is_unset v))
    (ds <- get_dataset ;;
     for_each (seq 0 (length (bands ds))) (fun i =>
       x <- lift (py_float v) ;;
       assign_nodata i x)).

(** Lines 71-148: everything before the nodata values are set. *)
Definition open_and_reproject : Py World unit :=
  rc <- get_or_create_reprojected ;;
  w <- read ;;
  open_source (choose_source (fst rc) (rasterlayer (self w))) ;;;
  when (snd rc) extract_metadata ;;;
  reproject.

Definition open_raster_file : Py World unit :=
  open_and_reproject ;;;
  apply_nodata.

Definition create_initial_histogram_buckets : Py World unit :=
  modify (with_self (set_hist_values [])) ;;;
  modify (with_self (set_hist_bins [])) ;;;
  ds <- get_dataset ;;
  layer <- get_layer_id ;;
  for_each (enumerate (bands ds)) (fun '(i, _) =>
    w <- read ;;
    match first_bandmeta layer (Z.of_nat i) (bandmetadata (db w)) with
    | None => raise AttributeError
    | Some bandmeta =>
        modify (with_self (fun p =>
          set_hist_values (hist_values p ++ [bm_hist_values bandmeta]) p)) ;;;
        modify (with_self (fun p =>
          set_hist_bins (hist_bins p ++ [bm_hist_bins bandmeta]) p))
    end).

Definition push_histogram (band_data : list BandData) : Py World unit :=
  for_each (enumerate band_data) (fun '(i, dat) =>
    w <- read ;;
    bins <- lift (match hist_bins (self w) !! i with
                  | Some b => Returned b
                  | None => Raised IndexError
                  end) ;;
    new_hist <- lift (histogram (data dat) bins) ;;
    v <- lift (match hist_values (self w) !! i with
               | Some v => Returned v
               | None => Raised IndexError
               end) ;;
    v' <- lift (iadd v new_hist) ;;
    modify (with_self (fun p => set_hist_values (<[i := v']> (hist_values p)) p))).

(** Lines 290-295: the list comprehension over the bands of the snapped
    dataset. *)
Fixpoint read_bands (bs : list GDALBand) (pixeloffset : Z * Z) (ts : Z)
  : outcome (list BandData) :=
  match bs with
  | [] => Returned []
  | band :: rest =>
      d <-! or_raise GDALException (band_data band pixeloffset (ts, ts)) ;;
      more <-! read_bands rest pixeloffset ts ;;
      Returned (mkBandData d (nodata_value band) :: more)
  end.

(** Lines 281-319: the body of the two loops over the tiles of a
    quadrant. *)
Definition create_tile (snapped : GDALRaster) (xmin ymin : Z) (tilescale : Q)
    (zoom tilex tiley : Z) : Py World unit :=
  let '(bxmin, _, _, bymax) := tile_bounds tilex tiley zoom in
  w <- read ;;
  let ts := tilesize (self w) in
  let pixeloffset := ((tilex - xmin) * ts, (tiley - ymin) * ts) in
  band_data <- lift (read_bands (bands snapped) pixeloffset ts) ;;
  mz <- get_max_zoom ;;
  when (zoom =? mz) (push_histogram band_data) ;;;
  first_band <- lift (match bands snapped with
                      | b :: _ => Returned b
                      | [] => Raised IndexError
                      end) ;;
  let dest := mkTileRaster ts ts (bxmin, bymax) (tilescale, (- tilescale)%Q)
                WEB_MERCATOR_SRID (datatype first_band) band_data in
  layer <- get_layer_id ;;
  modify (with_db (fun d =>
    set_rastertiles (rastertiles d ++ [mkRasterTile dest layer tilex tiley zoom]) d)).

(** Lines 256-276: the log entry, and the dataset warped onto the grid of
    the quadrant. *)
Definition snap_to_quadrant (indexrange : IndexRange) (zoom : Z) : Py World GDALRaster :=
  let '(xmin, ymin, xmax, ymax) := indexrange in
  modify (with_self (fun p => set_quadrant_count (quadrant_count p + 1) p)) ;;;
  w <- read ;;
  log ("Starting tile creation for quadrant " ++ str_of_int (quadrant_count (self w))
       ++ " at zoom level " ++ str_of_int zoom) (Some CREATING_TILES) None ;;;
  let tilescale := tile_scale zoom in
  let '(bxmin, _, _, bymax) := tile_bounds xmin ymin zoom in
  dir <- get_tmpdir ;;
  dest_file <- temp_name dir ".tif" ;;
  ds <- get_dataset ;;
  w <- read ;;
  let ts := tilesize (self w) in
  let options := mkWarpOptions dest_file (bxmin, bymax) (tilescale, (- tilescale)%Q)
                   ((xmax - xmin + 1) * ts) ((ymax - ymin + 1) * ts) in
  modify (with_call (CallWarp ds options)) ;;;
  lift (or_raise GDALException (warp ds options)).

Definition process_quadrant (indexrange : IndexRange) (zoom : Z) : Py World unit :=
  let '(xmin, ymin, xmax, ymax) := indexrange in
  snapped_dataset <- snap_to_quadrant indexrange zoom ;;
  let tilescale := tile_scale zoom in
  for_each (py_range_incl xmin xmax) (fun tilex =>
    for_each (py_range_incl ymin ymax) (fun tiley =>
      create_tile snapped_dataset xmin ymin tilescale zoom tilex tiley)).

Definition nr_of_tiles (zoom : Z) : Py World Z :=
  w <- read ;;
  let bbox := extent (rasterlayer (self w)) (db w) in
  let '(xmin, ymin, xmax, ymax) := tile_index_range bbox zoom in
  ret ((xmax - xmin + 1) * (ymax - ymin + 1)).

(** [task.apply()] runs the task in the process; an exception of the task
    ends up in its result, and is raised again only when celery is set to
    propagate the exceptions of eager tasks. *)
Definition apply_task (task : Py World unit) : Py World unit :=
  fun w =>
    match task w with
    | (Raised e, w') =>
        if CELERY_EAGER_PROPAGATES_EXCEPTIONS settings then (Raised e, w')
        else (Returned tt, w')
    | r => r
    end.

(** [group(...).apply()] *)
Definition group_apply (tasks : list (Py World unit)) : Py World unit :=
  for_each tasks apply_task.

(** Lines 240-244. *)
Definition store_histogram_data : Py World unit :=
  w <- read ;;
  let (rows, e) := store_hist_values (layer_id (rasterlayer (self w)))
                     (hist_values (self w)) (bandmetadata (db w)) in
  modify (with_db (set_bandmetadata rows)) ;;;
  match e with
  | Some e => raise e
  | None => ret tt
  end.

(** Lines 229-246: the tiles of a level that does not exceed the max
    zoom. *)
Definition populate_quadrants (zoom : Z) : Py World unit :=
  w <- read ;;
  let bbox := extent (rasterlayer (self w)) (db w) in
  let quads := quadrants bbox zoom in
  n <- nr_of_tiles zoom ;;
  log ("Creating " ++ str_of_int n ++ " tiles in "
       ++ str_of_int (Z.of_nat (length quads)) ++ " quadrants at zoom "
       ++ str_of_int zoom ++ ".") None None ;;;
  group_apply (map (fun indexrange => process_quadrant indexrange zoom) quads) ;;;
  mz <- get_max_zoom ;;
  when (zoom =? mz) store_histogram_data ;;;
  log ("Finished parsing at zoom level " ++ str_of_int zoom ++ ".") None (Some zoom).

Definition populate_tile_level (zoom : Z) : Py World unit :=
  mz <- get_max_zoom ;;
  if zoom >? mz then ret tt
  else
    when (zoom =? mz) create_initial_histogram_buckets ;;;
    populate_quadrants zoom.

(** [zoom_levels] is an integer or a list of integers. *)
Definition create_tiles (zoom_levels : Z + list Z) : Py World unit :=
  match zoom_levels with
  | inl zoom => populate_tile_level zoom
  | inr zooms => for_each zooms populate_tile_level
  end.

Definition drop_all_tiles : Py World unit :=
  log "Clearing all existing tiles." None None ;;;
  layer <- get_layer_id ;;
  modify (with_db (fun d =>
    set_rastertiles
      (List.filter (fun t => negb (rasterlayer_id t =? layer)) (rastertiles d)) d)) ;;;
  log "Finished clearing existing tiles." None None.

(** The row is deleted when the WHERE clause is true for it. *)
Definition is_dropped (layer : Z) (t : RasterTile) : bool :=
  match ST_Count (rast t) with
  | Some n => (n =? 0) && (rasterlayer_id t =? layer)
  | None => false
  end.

Definition drop_empty_tiles : Py World unit :=
  log "Dropping empty raster tiles." (Some DROPPING_EMPTY_TILES) None ;;;
  layer <- get_layer_id ;;
  modify (with_db (fun d =>
    set_rastertiles
      (List.filter (fun t => negb (is_dropped layer t)) (rastertiles d)) d)) ;;;
  log "Finished dropping empty raster tiles." None None.

Definition send_success_signal : Py World unit :=
  log "Successfully finished parsing raster" (Some FINISHED) None ;;;
  layer <- get_layer_id ;;
  modify (with_call (CallSignal layer)).

(** [closest_zoomlevel] is the one function of [raster/tiles/utils.py] that
    this method calls: it has an interface of its own. *)
Definition compute_max_zoom {zooms : ZoomLevels} : Py World unit :=
  ds <- get_dataset ;;
  let z := closest_zoomlevel (Qabs (fst (scale ds))) in
  modify (with_self (set_max_zoom z)) ;;;
  modify (with_db (fun d => set_metadata (set_meta_max_zoom z (metadata d)) d)) ;;;
  w <- read ;;
  when (negb (zoomdown (self w)))
    (mz <- get_max_zoom ;; modify (with_self (set_max_zoom (mz - 1)))).

End Parser.

(** ** [raster/views.py] *)

(** A PIL image: its mode, its size and the colour of every pixel. *)
Record Image : Type := mkImage {
  mode : string;
  image_size : Z * Z;
  getpixel : Z -> Z -> Z * Z * Z * Z
}.

(** [Image.new(mode, size, color)] *)
Definition Image_new (m : string) (size : Z * Z) (color : Z * Z * Z * Z) : Image :=
  mkImage m size (fun _ _ => color).

Definition alpha (p : Z * Z * Z * Z) : Z := snd p.

(** The response: [content] is what was written to it. *)
Record HttpResponse : Type := mkHttpResponse {
  status_code : Z;
  content_type : string;
  content : list Byte.byte
}.

(** [self.request.GET] and [self.kwargs]. *)
Record Request : Type := mkRequest {
  GET : list (string * string);
  kw_layer : string;
  kw_x : Z;
  kw_y : Z;
  kw_z : Z;
  kw_format : string
}.

(** The tables the view reads, in primary-key order. *)
Record Site : Type := mkSite {
  rasterlayer_table : list RasterLayer;
  rastertile_table : list RasterTile;
  legend_table : list Legend
}.

(** [json.loads] and [int] on a string ([None]: [ValueError]), the
    [IMG_FORMATS] dict of [raster/utils.py] (not among the sources; [None]:
    [KeyError]), the rendering of a tile raster with a colormap ([None]:
    the renderer raises) and PIL's [Image.save(fp, format)]: the bytes it
    writes to [fp], which need not keep what the image holds (a format
    without an alpha channel cannot), or [None] when the writer of the
    format refuses the image, as the JPEG writer of Pillow refuses an RGBA
    image with an [IOError]. *)
Class Web : Type := {
  json_loads : string -> option Json;
  int_of_str : string -> option Z;
  IMG_FORMATS : string -> option string;
  rast_img : TileRaster -> Colormap -> option Image;
  Image_save : Image -> string -> option (list Byte.byte)
}.

(** [QueryDict.get(key, None)]: the last value given for the key. *)
Fixpoint querydict_get (key : string) (q : list (string * string)) : option string :=
  match q with
  | [] => None
  | (k, v) :: rest =>
      match querydict_get key rest with
      | Some v' => Some v'
      | None => if String.eqb k key then Some v else None
      end
  end.

(** A parameter that is absent or empty is falsy. *)
Definition truthy_param (key : string) (q : list (string * string)) : option string :=
  match querydict_get key q with
  | Some v => if String.eqb v EmptyString then None else Some v
  | None => None
  end.

Definition key_eqb (a b : ColorKey) : bool :=
  match a, b with
  | KeyInt i, KeyInt j => i =? j
  | KeyStr s, KeyStr t => String.eqb s t
  | _, _ => false
  end.

(** [d[k] = v] *)
Fixpoint dict_set (k : ColorKey) (v : Json) (d : Colormap) : Colormap :=
  match d with
  | [] => [(k, v)]
  | (k', v') :: rest =>
      if key_eqb k' k then (k', v) :: rest else (k', v') :: dict_set k v rest
  end.

(** [d.get(k)] *)
Fixpoint dict_get (k : ColorKey) (d : Colormap) : option Json :=
  match d with
  | [] => None
  | (k', v') :: rest => if key_eqb k' k then Some v' else dict_get k rest
  end.

(** [str(k)] *)
Definition str_of_key (k : ColorKey) : string :=
  match k with
  | KeyInt i => str_of_int i
  | KeyStr s => s
  end.

(** [title__iexact], on the ASCII letters. *)
Definition iexact (a b : string) : bool := String.eqb (upper a) (upper b).

Module TmsView.
Section View.
Context {web : Web}.

(** Line 61: [{int(k): v for k, v in colormap.items()}] *)
Fixpoint int_keys (items : list (string * Json)) (acc : Colormap) : outcome Colormap :=
  match items with
  | [] => Returned acc
  | (k, v) :: rest =>
      match int_of_str k with
      | Some i => int_keys rest (dict_set (KeyInt i) v acc)
      | None => Raised ValueError
      end
  end.

(** Lines 60-61. *)
Definition parse_colormap (clmp : string) : outcome Colormap :=
  j <-! or_raise ValueError (json_loads clmp) ;;
  items <-! match j with
            | JObject members => Returned members
            | _ => Raised AttributeError
            end ;;
  int_keys items [].

(** Line 77. *)
Definition filter_entries (entries : list string) (c : Colormap) : Colormap :=
  List.filter (fun '(k, _) => str_in (str_of_key k) entries) c.

(** [Legend.objects.filter(title__iexact=q).first()] *)
Definition legend_by_title (site : Site) (q : string) : option Legend :=
  List.find (fun l => iexact (title l) q) (legend_table site).

Definition get_colormap (site : Site) (request : Request) (lyr : RasterLayer)
  : outcome (option Colormap) :=
  match truthy_param "colormap" (GET request) with
  | Some clmp =>
      c <-! parse_colormap clmp ;;
      Returned (Some c)
  | None =>
      let legend :=
        match truthy_param "legend" (GET request) with
        | Some query_legend => legend_by_title site query_legend
        | None => layer_legend lyr
        end in
      match legend with
      | Some l =>
          match truthy_param "entries" (GET request) with
          | Some entries => Returned (Some (filter_entries (split_comma entries) (colormap l)))
          | None => Returned (Some (colormap l))
          end
      | None => Returned None
      end
  end.

Definition get_format (request : Request) : outcome string :=
  or_raise KeyError (IMG_FORMATS (kw_format request)).

(** [get_object_or_404(RasterLayer, rasterfile__contains=...)] *)
Definition get_layer (site : Site) (request : Request) : outcome RasterLayer :=
  match List.filter
          (fun l => contains (file_name (rasterfile l)) ("rasters/" ++ kw_layer request))
          (rasterlayer_table site) with
  | [] => Raised Http404
  | [lyr] => Returned lyr
  | _ => Raised MultipleObjectsReturned
  end.

(** The queryset of line 26. *)
Definition find_tiles (site : Site) (request : Request) (lyr : RasterLayer) : list RasterTile :=
  List.filter
    (fun t => (tilex t =? kw_x request) && (tiley t =? kw_y request)
              && (tilez t =? kw_z request) && (rasterlayer_id t =? layer_id lyr))
    (rastertile_table site).

(** An absent colormap and an empty dict are falsy. *)
Definition colormap_bool (c : option Colormap) : bool :=
  match c with
  | Some (_ :: _) => true
  | _ => false
  end.

(** Lines 15-49.  Line 47, [img.save(response, self.get_format())], writes
    the image to the response: the content is what PIL wrote, and an image
    that PIL refuses in the format ends the view. *)
Definition get (site : Site) (request : Request) : outcome HttpResponse :=
  lyr <-! get_layer site request ;;
  let tile := find_tiles site request lyr in
  colormap <-! get_colormap site request lyr ;;
  img <-! match tile, colormap with
          | t :: _, Some c =>
              if colormap_bool colormap then or_raise ValueError (rast_img (rast t) c)
              else Returned (Image_new "RGBA" (256, 256) (0, 0, 0, 0))
          | _, _ => Returned (Image_new "RGBA" (256, 256) (0, 0, 0, 0))
          end ;;
  content_type <-! get_format request ;;
  format <-! get_format request ;;
  written <-! or_raise IOError (Image_save img format) ;;
  Returned (mkHttpResponse 200 content_type written).

End View.
End TmsView.

(** *** The legend view *)

(** [Legend.json], the legend as a JSON string: the [Legend] model is in
    [raster/models.py], which is not among the sources. *)
Class LegendModel : Type := {
  legend_json : Legend -> string
}.

(** A response whose content is text. *)
Record TextResponse : Type := mkTextResponse {
  text_status_code : Z;
  text_content_type : string;
  text_content : string
}.

(** What the legend view ends in.  Besides the exceptions of [exn] there is
    Python's [UnboundLocalError], of a local variable read before it was
    assigned. *)
Inductive view_outcome : Type :=
| Responded (r : TextResponse)
| ViewRaised (e : exn)
| UnboundLocalError.

Module LegendView.
Section View.
Context {model : LegendModel}.

(** Line 106. *)
Definition respond (l : Legend) : view_outcome :=
  Responded (mkTextResponse 200 "application/json" (legend_json l)).

(** The queryset of [RasterLayer.objects.get(rasterfile__contains=...)]. *)
Definition layers_named (site : Site) (layer_or_legend_name : string) : list RasterLayer :=
  List.filter
    (fun l => contains (file_name (rasterfile l)) ("rasters/" ++ layer_or_legend_name))
    (rasterlayer_table site).

(** The queryset of [Legend.objects.get(title__iexact=...)]. *)
Definition legends_titled (site : Site) (layer_or_legend_name : string) : list Legend :=
  List.filter (fun l => iexact (title l) layer_or_legend_name) (legend_table site).

(** [legend(request, layer_or_legend_name)]: the request is not read. *)
Definition legend (site : Site) (layer_or_legend_name : string) : view_outcome :=
  match layers_named site layer_or_legend_name with
  | [lyr] =>
      match layer_legend lyr with
      | Some l => respond l
      | None => UnboundLocalError
      end
  | [] =>
      match legends_titled site layer_or_legend_name with
      | [l] => respond l
      | [] => ViewRaised Http404
      | _ => ViewRaised MultipleObjectsReturned
      end
  | _ => ViewRaised MultipleObjectsReturned
  end.

End View.
End LegendView.

(** ** The zoom levels of the pyramid *)

Section Pyramid.
Variable world_scale : Q.
Variable finest : nat.

(** Modelled from the spec: [utils.tile_scale] of [raster/tiles/utils.py],
    which is not among the sources.  "Zoom 0 = whole-world tile, each
    successive zoom halving pixel size": [world_scale] is the pixel size at
    zoom 0. *)
Fixpoint spec_tile_scale (zoom : nat) : Q :=
  match zoom with
  | O => world_scale
  | S z => (spec_tile_scale z / 2)%Q
  end.

Definition scale_distance (pixel_scale : Q) (zoom : nat) : Q :=
  Qabs (pixel_scale - spec_tile_scale zoom).

Fixpoint closest_of (pixel_scale : Q) (best : nat) (zooms : list nat) : nat :=
  match zooms with
  | [] => best
  | z :: rest =>
      closest_of pixel_scale
        (if Qltb (scale_distance pixel_scale z) (scale_distance pixel_scale best)
         then z else best) rest
  end.

(** Modelled from the spec: the native zoom of a pixel scale, which the
    absent [raster/tiles/utils.py] computes.  "Among the pyramid's fixed
    per-zoom pixel scales, the zoom level whose scale is closest to the
    raster's native pixel scale"; the pyramid has the levels 0 to [finest],
    and of two levels equally close the coarser one is taken. *)
Definition spec_native_zoom (pixel_scale : Q) : nat :=
  closest_of pixel_scale 0%nat (seq 1 finest).

(** Modelled from the spec: [utils.closest_zoomlevel] of the absent
    [raster/tiles/utils.py].  The native zoom "is incremented by one" for
    the level finer than native resolution, and the parser decrements it
    back when the option is disabled. *)
Definition spec_closest_zoomlevel (pixel_scale : Q) : Z :=
  Z.of_nat (spec_native_zoom pixel_scale) + 1.

Definition spec_zoomlevels : ZoomLevels :=
  {| closest_zoomlevel := spec_closest_zoomlevel |}.

End Pyramid.

(** ** A small deployment

    One single-band layer on 2x2 pixel tiles, with stand-ins for the
    libraries, on which the model is run. *)

Module Demo.

Definition band (fill : Q) (nd : option Q) : GDALBand :=
  mkGDALBand nd 1%Q 4%Q None None 1 [[1%Q; fill]; [3%Q; 4%Q]].

Definition raster (file : string) (s : Z) : GDALRaster :=
  mkGDALRaster file (Some (mkSpatialReference (Some s) "WKT"))
    (0%Q, 2%Q) (1%Q, (-1)%Q) (0%Q, 0%Q) 2 2 [band 2%Q None].

Definition crop (offset size : Z * Z) (b : Block) : Block :=
  map (fun row => take (Z.to_nat (fst size)) (drop (Z.to_nat (fst offset)) row))
    (take (Z.to_nat (snd size)) (drop (Z.to_nat (snd offset)) b)).

(** A grid of the requested size that repeats the pixels of the band. *)
Definition resample (w h : Z) (b : GDALBand) : GDALBand :=
  mkGDALBand (nodata_value b) (band_min b) (band_max b) (band_std b) (band_mean b)
    (datatype b)
    (map (fun y => map (fun x => if Nat.even (x + y) then band_min b else band_max b)
                     (seq 0 (Z.to_nat w)))
       (seq 0 (Z.to_nat h))).

(** Files named [*.tif] open as rasters, in web mercator when their source
    says so; the others are no rasters. *)
Definition gdal : GDAL := {|
  GDALRaster_open source path :=
    if String.eqb (lower (splitext_ext path)) ".tif"
    then Some (raster path (if String.eqb (file_content source) "mercator" then 3857 else 4326))
    else None;
  transform ds target :=
    Some (mkGDALRaster (name ds) (Some (mkSpatialReference (Some target) "WKT"))
            (origin ds) (scale ds) (skew ds) (width ds) (height ds) (bands ds));
  warp ds options :=
    Some (mkGDALRaster (warp_name options) (srs ds) (warp_origin options)
            (warp_scale options) (skew ds) (warp_width options) (warp_height options)
            (map (resample (warp_width options) (warp_height options)) (bands ds)));
  band_data b offset size := Some (crop offset size (pixels b))
|}.

Definition const : TilesConst := {|
  WEB_MERCATOR_SRID := 3857;
  WEB_MERCATOR_TILESIZE := 256
|}.

Definition grid : TileGrid := {|
  tile_scale zoom := (1 / inject_Z (2 ^ zoom))%Q;
  tile_bounds x y zoom :=
    (inject_Z x, inject_Z (- y - 1), inject_Z (x + 1), inject_Z (- y));
  tile_index_range bbox zoom := (0, 0, 1, 0);
  quadrants bbox zoom := [(0, 0, 0, 0); (1, 0, 1, 0)]
|}.

Definition platform : Platform := {|
  mkdtemp dir tick := "/tmp/raster";
  NamedTemporaryFile dir suffix tick := path_join dir ("tmp" ++ suffix);
  strftime_now tick := "2015-06-01 12:00:00";
  extract_and_walk dir source :=
    if String.eqb (file_content source) "broken" then None
    else Some [(dir, ["README"; "notes.txt"; "demo.tif"; "other.tif"])];
  store_zipped ds dest := mkFile "reprojected.zip" "mercator";
  float_of_str s := if String.eqb s "0" then Some 0%Q else None;
  new_bandmeta_histogram lo hi := ([0; 0], [lo; 2.5%Q; hi]);
  extent layer d := (0%Q, 0%Q, 2%Q, 2%Q)
|}.

Definition settings : Settings := mkSettings (Some 2) None None false.

Definition legend : Legend :=
  mkLegend "Landcover" [(KeyInt 1, JString "#00ff00"); (KeyInt 2, JString "#0000ff")].

Definition layer (file : File) (nd : PyVal) : RasterLayer :=
  mkRasterLayer 7 file nd (Some legend).

Definition empty_db : Database :=
  mkDatabase (mkParseStatus UNPARSED [] EmptyString) None
    (mkMetadata 0%Q 0%Q 0 0 0%Q 0%Q 0%Q 0%Q 0 EmptyString None None) [] [].

Definition fresh (file : File) (nd : PyVal) : World :=
  mkWorld (init (const := const) settings (layer file nd)) empty_db [] 0.

(** A layer whose source is a zip archive, before its first parse. *)
Definition zipped : World := fresh (mkFile "rasters/demo.zip" "wgs84") PyNone.

(** The same layer with its reprojected raster in the cache. *)
Definition cached : World :=
  with_db (set_reprojected (mkReprojected (mkFile "reprojected.zip" "mercator"))) zipped.

(** A layer whose nodata override is the number 0. *)
Definition zero_nodata : World := fresh (mkFile "rasters/demo.tif" "mercator") (PyInt 0).

(** The parser after [open_raster_file] and with the max zoom at 1. *)
Definition opened : World :=
  with_self (set_max_zoom 1)
    (snd (open_raster_file (gdal := gdal) (const := const) (platform := platform)
            settings zero_nodata)).

Definition opened_dataset : GDALRaster :=
  mkGDALRaster "/tmp/raster/demo.tif" (Some (mkSpatialReference (Some 3857) "WKT"))
    (0%Q, 2%Q) (1%Q, (-1)%Q) (0%Q, 0%Q) 2 2 [band 2%Q (Some 0%Q)].

(** A web-mercator raster at the pixel size of zoom 12, in a pyramid whose
    whole-world tile has pixels of 4096 units. *)
Definition native12 (flag : bool) : World :=
  mkWorld
    (mkParser (layer (mkFile "rasters/demo.tif" "mercator") PyNone) 256 flag
       (Some "/tmp/raster")
       (Some (mkGDALRaster "demo.tif" (Some (mkSpatialReference (Some 3857) "WKT"))
                (0%Q, 0%Q) ((-1)%Q, 1%Q) (0%Q, 0%Q) 2 2 [band 2%Q None]))
       None [] [] 0)
    empty_db [] 0.

(** Two-band tiles of layer 7: one whose first band is all nodata while its
    second band has data, and one with data in the first band. *)
Definition hollow_tile : RasterTile :=
  mkRasterTile
    (mkTileRaster 2 2 (0%Q, 0%Q) (1%Q, (-1)%Q) 3857 1
       [mkBandData [[0%Q; 0%Q]; [0%Q; 0%Q]] (Some 0%Q);
        mkBandData [[5%Q; 0%Q]; [0%Q; 0%Q]] (Some 0%Q)])
    7 0 0 1.

Definition valid_tile : RasterTile :=
  mkRasterTile
    (mkTileRaster 2 2 (1%Q, 0%Q) (1%Q, (-1)%Q) 3857 1
       [mkBandData [[0%Q; 8%Q]; [0%Q; 0%Q]] (Some 0%Q);
        mkBandData [[0%Q; 0%Q]; [0%Q; 0%Q]] (Some 0%Q)])
    7 1 0 1.

Definition two_band_tiles : World :=
  with_db (set_rastertiles [hollow_tile; valid_tile])
    (fresh (mkFile "rasters/demo.tif" "mercator") PyNone).

Definition quote : string := String (ascii_of_nat 34) EmptyString.

(** The text of the JSON object with the one member "1": "#ff0000". *)
Definition inline_colormap : string :=
  "{" ++ quote ++ "1" ++ quote ++ ":" ++ quote ++ "#ff0000" ++ quote ++ "}".

Definition byte_of_Z (z : Z) : Byte.byte :=
  match Byte.of_N (Z.to_N z) with
  | Some b => b
  | None => Byte.x00
  end.

(** What the writers put out here: the name of the format, and the
    channels of the top left pixel that the format has room for. *)
Definition written_as (format : string) (img : Image) : list Byte.byte :=
  let '(r, g, b, a) := getpixel img 0 0 in
  list_byte_of_string format
  ++ map byte_of_Z (if String.eqb format "PNG" then [r; g; b; a] else [r; g; b]).

(** [json.loads] knows the text above and takes everything else for
    malformed; [int] knows the digits 1 and 2; the JPEG writer refuses an
    image with an alpha channel, as that of Pillow does. *)
Definition web : Web := {|
  json_loads s :=
    if String.eqb s inline_colormap then Some (JObject [("1", JString "#ff0000")])
    else None;
  int_of_str s :=
    if String.eqb s "1" then Some 1 else if String.eqb s "2" then Some 2 else None;
  IMG_FORMATS ext :=
    if String.eqb ext ".png" then Some "PNG"
    else if String.eqb ext ".jpg" then Some "JPEG" else None;
  rast_img r c := Some (Image_new "RGBA" (256, 256) (255, 0, 0, 255));
  Image_save img format :=
    if String.eqb format "JPEG" && String.eqb (mode img) "RGBA" then None
    else Some (written_as format img)
|}.

Definition site : Site :=
  mkSite [layer (mkFile "rasters/demo.tif" "mercator") PyNone] [valid_tile] [legend].

Definition request (query : list (string * string)) (x : Z) (ext : string) : Request :=
  mkRequest query "demo" x 0 1 ext.

End Demo.

(** * The vocabulary of the properties *)

(** ** Statements *)

(** [respects R m]: running [m] relates the state before to the state
    after, whether [m] returns or raises. *)
Definition respects {St A} (R : St -> St -> Prop) (m : Py St A) : Prop :=
  forall s, R s (snd (m s)).

(** The part of the state that a projection reads stays as it is. *)
Definition same {St X} (proj : St -> X) : St -> St -> Prop :=
  fun s s' => proj s' = proj s.

(** [keeps proj m]: running [m] leaves what [proj] reads as it is. *)
Definition keeps {St X A} (proj : St -> X) (m : Py St A) : Prop :=
  respects (same proj) m.

(** The exceptions a statement can end in. *)
Definition raises_only {St A} (P : exn -> Prop) (m : Py St A) : Prop :=
  forall s e, fst (m s) = Raised e -> P e.

(** The exceptions of the libraries and of Python itself, as opposed to
    the parser's own [RasterException]. *)
Definition not_the_parsers (e : exn) : Prop :=
  match e with
  | RasterException _ => False
  | _ => True
  end.

(** ** Histograms *)

(** Bin counts compared bin by bin, band by band. *)
Definition counts_le (v v' : list Z) : Prop := Forall2 Z.le v v'.

Definition hist_le (hv hv' : list (list Z)) : Prop := Forall2 counts_le hv hv'.

(** The running counts of the parser. *)
Definition counts_of (w : World) : list (list Z) := hist_values (self w).

(** Only the running counts change, and no count decreases. *)
Definition counts_grow (w w' : World) : Prop :=
  exists hv', w' = with_self (set_hist_values hv') w /\ hist_le (hist_values (self w)) hv'.

(** The edges of the band at position [i]: those of the first metadata
    row of the band. *)
Definition edges_of (layer : Z) (rows : list RasterLayerBandMetadata)
    (i : nat) (bins : list Q) : Prop :=
  exists bandmeta,
    first_bandmeta layer (Z.of_nat i) rows = Some bandmeta /\
    bm_hist_bins bandmeta = bins.

(** The rows after the counts were stored: those of the layer hold the
    running counts of their band, the others are as they were. *)
Definition stored (layer : Z) (hv : list (list Z))
    (row row' : RasterLayerBandMetadata) : Prop :=
  if bm_rasterlayer row =? layer
  then exists h, py_index hv (bm_band row) = Some h /\ row' = set_bm_hist_values h row
  else row' = row.

(** The histogram of a layer: the running counts, the bin edges and the
    band metadata rows. *)
Definition histogram_state (w : World) :=
  (hist_values (self w), hist_bins (self w), bandmetadata (db w)).

(** ** Tiling *)

(** What tiling never touches. *)
Definition tiler_frame (w : World) :=
  (rasterlayer (self w), tilesize (self w), zoomdown (self w), tmpdir (self w),
   dataset (self w), max_zoom (self w), hist_bins (self w),
   reprojected (db w), metadata (db w), bandmetadata (db w)).

(** The tile records. *)
Definition tiles_of (w : World) : list RasterTile := rastertiles (db w).

(** Tiling at [zoom]: the frame stays, no count decreases, and the counts
    stay as they are unless [zoom] is the max zoom. *)
Definition tiling (zoom : Z) (w w' : World) : Prop :=
  tiler_frame w' = tiler_frame w /\
  hist_le (hist_values (self w)) (hist_values (self w')) /\
  (max_zoom (self w) <> Some zoom -> hist_values (self w') = hist_values (self w)).

(** What a zoom level leaves alone beside the tiler's frame. *)
Definition level_frame (w : World) :=
  (rasterlayer (self w), tilesize (self w), zoomdown (self w), tmpdir (self w),
   dataset (self w), max_zoom (self w), reprojected (db w), metadata (db w)).

(** A level that is not the max zoom leaves the histogram alone. *)
Definition quiet (zoom : Z) (w w' : World) : Prop :=
  max_zoom (self w') = max_zoom (self w) /\
  (max_zoom (self w) <> Some zoom -> histogram_state w' = histogram_state w).

(** The reads of one tile: every band of the snapped dataset, at the same
    offset and size, with the nodata value of the band. *)
Definition block_of {gdal : GDAL} (pixeloffset : Z * Z) (ts : Z) (band : GDALBand) (d : BandData) : Prop :=
  band_data band pixeloffset (ts, ts) = Some (data d) /\
  data_nodata_value d = nodata_value band.

(** The tile of the index ([tilex], [tiley]) in a quadrant whose first
    index is ([xmin], [ymin]). *)
Definition tile_of {gdal : GDAL} (snapped : GDALRaster) (ts xmin ymin zoom tx ty : Z)
    (t : RasterTile) : Prop :=
  tilex t = tx /\ tiley t = ty /\ tilez t = zoom /\
  Forall2 (block_of ((tx - xmin) * ts, (ty - ymin) * ts) ts)
    (bands snapped) (tile_bands (rast t)).

(** ** Opening the raster file *)

(** The state after the calls [cs] were made. *)
Definition with_calls (cs : list Call) (w : World) : World :=
  mkWorld (self w) (db w) (calls w ++ cs) (ticks w).

(** The path does not open as a raster. *)
Definition fails {gdal : GDAL} (source : File) (path : string) : Prop :=
  GDALRaster_open source path = None.

(** The state in which the candidates of an archive are tried. *)
Definition probing (dir : string) (w : World) : World :=
  with_self (set_dataset None) (with_self (set_tmpdir dir) (with_tick w)).

(** The reprojected row the parser works with, whether it was there or is
    created on entry. *)
Definition current_reprojected (w : World) : RasterLayerReprojected :=
  match reprojected (db w) with
  | Some r => r
  | None => mkReprojected no_file
  end.

(** Whether [get_or_create] has to create the row. *)
Definition created_now (w : World) : bool :=
  match reprojected (db w) with
  | Some _ => false
  | None => true
  end.

(** The source [open_raster_file] picks. *)
Definition working_source (w : World) : File :=
  choose_source (current_reprojected w) (rasterlayer (self w)).

(** The state in which the source is opened. *)
Definition entered (w : World) : World := snd (get_or_create_reprojected w).

(** What opening and reprojecting read of the parser and never change. *)
Definition layer_of (w : World) : RasterLayer := rasterlayer (self w).

(** The reprojected row and the calls made. *)
Definition cache_and_calls (w : World) := (reprojected (db w), calls w).

(** ** Tiles and the view *)

(** Every pixel of the band is the nodata value of the band. *)
Definition band_is_nodata (b : BandData) : Prop :=
  Forall (fun v => match data_nodata_value b with
                   | Some nd => Qeqb v nd = true
                   | None => False
                   end) (concat (data b)).

(** The pixel data of the tile is nodata across all its bands. *)
Definition entirely_nodata (t : RasterTile) : Prop :=
  Forall band_is_nodata (tile_bands (rast t)).

(** The key of a colormap entry is an integer. *)
Definition is_int_key (entry : ColorKey * Json) : Prop :=
  exists i, fst entry = KeyInt i.

(** The colormap of a legend, cut down to the requested entries when the
    request names some. *)
Definition legend_colormap (request : Request) (l : Legend) : Colormap :=
  match truthy_param "entries" (GET request) with
  | Some entries => TmsView.filter_entries (split_comma entries) (colormap l)
  | None => colormap l
  end.

(** A fully transparent 256 x 256 RGBA image. *)
Definition transparent (img : Image) : Prop :=
  mode img = "RGBA" /\ image_size img = (256, 256) /\
  forall x y, alpha (getpixel img x y) = 0.

(** ** The parse status and the rows of other layers *)

(** The tile levels on record. *)
Definition levels_of (w : World) : list Z := tile_levels (parsestatus (db w)).

(** The text of the parse log. *)
Definition log_of (w : World) : string := log_text (parsestatus (db w)).

(** The parse log is continued, and no tile level is taken back. *)
Definition log_grows (w w' : World) : Prop :=
  (exists more, log_of w' = (log_of w ++ more)%string) /\
  (forall z, In z (levels_of w) -> In z (levels_of w')).

(** The status of the parse. *)
Definition status_of (w : World) : Status := status (parsestatus (db w)).

(** The layers for which the end-of-parse signal was sent, in the order
    sent. *)
Definition signals (w : World) : list Z :=
  flat_map (fun c => match c with CallSignal layer => [layer] | _ => [] end) (calls w).

(** The rows of the layers other than [layer]. *)
Definition foreign_to (layer : Z) (w : World) :=
  (rasterlayer (self w),
   List.filter (fun t => negb (rasterlayer_id t =? layer)) (rastertiles (db w)),
   List.filter (fun r => negb (bm_rasterlayer r =? layer)) (bandmetadata (db w))).

(** The rows of the layers other than the parser's own. *)
Definition foreign_rows (w : World) :=
  foreign_to (layer_id (rasterlayer (self w))) w.

(** ** Metadata rows *)

(** The metadata row that describes a dataset. *)
Definition metadata_of (ds : GDALRaster) (s : SpatialReference) (mz : option Z)
  : RasterLayerMetadata :=
  mkMetadata (fst (origin ds)) (snd (origin ds)) (width ds) (height ds)
    (fst (scale ds)) (snd (scale ds)) (fst (skew ds)) (snd (skew ds))
    (Z.of_nat (length (bands ds))) (wkt s) (srid s) mz.

(** The row of a band before its statistics are written: the first row the
    table has for it, or a new one. *)
Definition row_or_new {platform : Platform} (layer : Z) (i : Z) (band : GDALBand)
    (rows : list RasterLayerBandMetadata) : RasterLayerBandMetadata :=
  match first_bandmeta layer i rows with
  | Some r => r
  | None =>
      mkBandMetadata layer i None 0%Q 0%Q None None
        (fst (new_bandmeta_histogram (band_min band) (band_max band)))
        (snd (new_bandmeta_histogram (band_min band) (band_max band)))
  end.

(** The metadata row and the band metadata rows. *)
Definition rows_of (w : World) := (metadata (db w), bandmetadata (db w)).

(** ** The dataset *)

(** The dataset is [ds], its bands' nodata values apart. *)
Definition dataset_from (ds : GDALRaster) (w : World) : Prop :=
  exists bs, dataset (self w) = Some (set_bands bs ds).

(** The dataset changes in the nodata values of its bands at most. *)
Definition nodata_only (w w' : World) : Prop :=
  forall ds, dataset_from ds w -> dataset_from ds w'.

(** What extracting the metadata leaves of the opened raster. *)
Definition opening_frame (w : World) :=
  (tmpdir (self w), dataset (self w), calls w, reprojected (db w), status_of w).

(** ** Tile records *)

(** The index of a tile in its level. *)
Definition tile_index (t : RasterTile) : Z * Z := (tilex t, tiley t).

(** The indices of a quadrant in the order of the two loops: column by
    column. *)
Definition quadrant_indices (xmin ymin xmax ymax : Z) : list (Z * Z) :=
  flat_map (fun x => map (pair x) (py_range_incl ymin ymax)) (py_range_incl xmin xmax).

(** Where a tile lies: the upper left corner of its bounds. *)
Definition tile_corner {grid : TileGrid} (x y zoom : Z) : Q * Q :=
  let '(bxmin, _, _, bymax) := tile_bounds x y zoom in (bxmin, bymax).

(** What a tile record says beside its pixels: the layer and the level it
    belongs to, and the georeference of its raster. *)
Definition tile_header {const : TilesConst} {grid : TileGrid}
    (layer ts zoom : Z) (snapped : GDALRaster) (t : RasterTile) : Prop :=
  rasterlayer_id t = layer /\ tilez t = zoom /\
  tile_width (rast t) = ts /\ tile_height (rast t) = ts /\
  tile_srid (rast t) = WEB_MERCATOR_SRID /\
  tile_origin (rast t) = tile_corner (tilex t) (tiley t) zoom /\
  tile_scale_xy (rast t) = (tile_scale zoom, (- tile_scale zoom)%Q) /\
  exists b0 rest, bands snapped = b0 :: rest /\ tile_datatype (rast t) = datatype b0.

(** The levels asked of [create_tiles]. *)
Definition requested (zoom_levels : Z + list Z) : list Z :=
  match zoom_levels with
  | inl zoom => [zoom]
  | inr zooms => zooms
  end.

(** Tiles were added at the end of the table, all of them for the parser's
    layer and for the level [zoom]; the layer and the max zoom of the
    parser are as before. *)
Definition level_tiles (zoom : Z) (w w' : World) : Prop :=
  rasterlayer (self w') = rasterlayer (self w) /\
  max_zoom (self w') = max_zoom (self w) /\
  exists new_tiles,
    tiles_of w' = tiles_of w ++ new_tiles /\
    Forall (fun t => rasterlayer_id t = layer_id (rasterlayer (self w)) /\ tilez t = zoom)
      new_tiles.

(** The same for several levels, none of them above the max zoom. *)
Definition tiles_added (levels : list Z) (w w' : World) : Prop :=
  rasterlayer (self w') = rasterlayer (self w) /\
  max_zoom (self w') = max_zoom (self w) /\
  exists new_tiles,
    tiles_of w' = tiles_of w ++ new_tiles /\
    Forall (fun t => rasterlayer_id t = layer_id (rasterlayer (self w)) /\
                     In (tilez t) levels /\
                     exists mz, max_zoom (self w) = Some mz /\ tilez t <= mz)
      new_tiles.

(** What decides which tiles are added. *)
Definition tiling_frame (w : World) :=
  (rasterlayer (self w), max_zoom (self w), tiles_of w).

(** The first band of a tile of [layer] holds nothing but its nodata
    value: what the WHERE clause of [drop_empty_tiles] selects. *)
Definition first_band_empty (layer : Z) (t : RasterTile) : Prop :=
  rasterlayer_id t = layer /\
  exists b rest, tile_bands (rast t) = b :: rest /\ band_is_nodata b.

(** ** Histogram counts *)

(** The counts the band at position [i] starts from: those of the first
    metadata row of the band. *)
Definition counts_in (layer : Z) (rows : list RasterLayerBandMetadata)
    (i : nat) (v : list Z) : Prop :=
  exists bandmeta,
    first_bandmeta layer (Z.of_nat i) rows = Some bandmeta /\
    bm_hist_values bandmeta = v.

(** Lines 328-330 for one band: the histogram of the block over the edges
    of the band, added to the counts of the band. *)
Definition pushed (bins : list Q) (d : BandData) (v v' : list Z) : Prop :=
  exists h, histogram (data d) bins = Returned h /\ iadd v h = Returned v'.

(** The body of the loop of [push_histogram]. *)
Definition push_band (i : nat) (dat : BandData) : Py World unit :=
  w <- read ;;
  bins <- lift (match hist_bins (self w) !! i with
                | Some b => Returned b
                | None => Raised IndexError
                end) ;;
  new_hist <- lift (histogram (data dat) bins) ;;
  v <- lift (match hist_values (self w) !! i with
             | Some v => Returned v
             | None => Raised IndexError
             end) ;;
  v' <- lift (iadd v new_hist) ;;
  modify (with_self (fun p => set_hist_values (<[i := v']> (hist_values p)) p)).

(** The running counts after the blocks of the tiles [ts] were pushed, one
    tile after the other, on the counts of [w]. *)
Definition counts_after (ts : list RasterTile) (w : World) (hv : list (list Z)) : Prop :=
  exists wh,
    for_each (map (fun t => tile_bands (rast t)) ts) push_histogram w = (Returned tt, wh) /\
    hist_values (self wh) = hv.

(** ** Colormaps *)

(** The last value that the items of a JSON object give for the integer
    key [i]. *)
Fixpoint last_for_int {web : Web} (i : Z) (items : list (string * Json)) : option Json :=
  match items with
  | [] => None
  | (k, v) :: rest =>
      match last_for_int i rest with
      | Some v' => Some v'
      | None =>
          match int_of_str k with
          | Some j => if j =? i then Some v else None
          | None => None
          end
      end
  end.

(** * Properties *)

(** ** Reasoning about statements *)

Section Statements.
Context {St : Type}.

Lemma bind_returned {A B} (m : Py St A) (k : A -> Py St B) s a s' :
  m s = (Returned a, s') -> bind m k s = k a s'.
Proof. intros E. unfold bind. now rewrite E. Qed.

Lemma bind_raised {A B} (m : Py St A) (k : A -> Py St B) s e s' :
  m s = (Raised e, s') -> bind m k s = (Raised e, s').
Proof. intros E. unfold bind. now rewrite E. Qed.

Lemma bind_returned_inv {A B} (m : Py St A) (k : A -> Py St B) s b s' :
  bind m k s = (Returned b, s') ->
  exists a s1, m s = (Returned a, s1) /\ k a s1 = (Returned b, s').
Proof.
  unfold bind. destruct (m s) as [[a|e] s1]; intros E.
  - exists a, s1. now split.
  - discriminate.
Qed.

Context (R : St -> St -> Prop) {R_pre : PreOrder R}.

Lemma respects_ret {A} (a : A) : respects R (ret a).
Proof. intros s. reflexivity. Qed.

Lemma respects_raise {A} e : respects R (raise (A := A) e).
Proof. intros s. reflexivity. Qed.

Lemma respects_read : respects R read.
Proof. intros s. reflexivity. Qed.

Lemma respects_lift {A} (o : outcome A) : respects R (lift o).
Proof. intros s. reflexivity. Qed.

Lemma respects_modify (f : St -> St) : (forall s, R s (f s)) -> respects R (modify f).
Proof. intros H s. apply H. Qed.

Lemma respects_bind {A B} (m : Py St A) (k : A -> Py St B) :
  respects R m -> (forall a, respects R (k a)) -> respects R (bind m k).
Proof.
  intros Hm Hk s. unfold bind. specialize (Hm s).
  destruct (m s) as [[a|e] s1]; cbn in *.
  - etransitivity; [exact Hm | apply Hk].
  - exact Hm.
Qed.

Lemma respects_when (c : bool) (m : Py St unit) :
  respects R m -> respects R (when c m).
Proof. intros H. destruct c; [exact H | apply respects_ret]. Qed.

Lemma respects_for_each {B} (l : list B) (body : B -> Py St unit) :
  (forall x, respects R (body x)) -> respects R (for_each l body).
Proof.
  intros H. induction l as [|x l IH]; cbn [for_each].
  - apply respects_ret.
  - apply respects_bind; [apply H | intros _; exact IH].
Qed.

(** A loop that returns ran its body on every element, each time
    returning: an invariant of the elements done so far carries through. *)
Lemma for_each_returned {B} (I : list B -> St -> Prop) (body : B -> Py St unit) :
  (forall done x s s', I done s -> body x s = (Returned tt, s') -> I (done ++ [x]) s') ->
  forall l done s s',
    I done s -> for_each l body s = (Returned tt, s') -> I (done ++ l) s'.
Proof.
  intros Hstep l. induction l as [|x l IH]; intros done s s' HI E; cbn [for_each] in E.
  - injection E as <-. now rewrite app_nil_r.
  - apply bind_returned_inv in E as ([] & s1 & E1 & E2).
    replace (done ++ x :: l) with ((done ++ [x]) ++ l) by now rewrite <- app_assoc.
    eapply IH; [|exact E2]. eapply Hstep; eauto.
Qed.

(** A loop returns when its body returns on every element, from every
    state that an invariant of the loop allows. *)
Lemma for_each_returns {B} (Inv : St -> Prop) (body : B -> Py St unit) (l : list B) :
  (forall x s, In x l -> Inv s -> exists s', body x s = (Returned tt, s') /\ Inv s') ->
  forall s, Inv s -> exists s', for_each l body s = (Returned tt, s') /\ Inv s'.
Proof.
  induction l as [|x l IH]; intros Hbody s Hs; cbn [for_each].
  - exists s. now split.
  - destruct (Hbody x s (or_introl eq_refl) Hs) as (s1 & E1 & Hs1).
    rewrite (bind_returned _ _ _ _ _ E1). apply IH; [|exact Hs1].
    intros y s0 Hy. apply Hbody. now right.
Qed.

End Statements.

#[export] Instance same_preorder {St X} (proj : St -> X) : PreOrder (same proj).
Proof.
  split.
  - intros s. reflexivity.
  - intros s1 s2 s3 H12 H23. unfold same in *. congruence.
Qed.

Section Frames.
Context {St X : Type} (proj : St -> X).

Lemma keeps_ret {A} (a : A) : keeps proj (ret a).
Proof. apply respects_ret; typeclasses eauto. Qed.

Lemma keeps_raise {A} e : keeps proj (raise (A := A) e).
Proof. apply respects_raise; typeclasses eauto. Qed.

Lemma keeps_read : keeps proj read.
Proof. apply respects_read; typeclasses eauto. Qed.

Lemma keeps_lift {A} (o : outcome A) : keeps proj (lift o).
Proof. apply respects_lift; typeclasses eauto. Qed.

Lemma keeps_modify (f : St -> St) : (forall s, proj (f s) = proj s) -> keeps proj (modify f).
Proof. intros H. apply respects_modify. exact H. Qed.

Lemma keeps_bind {A B} (m : Py St A) (k : A -> Py St B) :
  keeps proj m -> (forall a, keeps proj (k a)) -> keeps proj (bind m k).
Proof. apply respects_bind; typeclasses eauto. Qed.

Lemma keeps_when (c : bool) (m : Py St unit) : keeps proj m -> keeps proj (when c m).
Proof. apply respects_when; typeclasses eauto. Qed.

Lemma keeps_for_each {B} (l : list B) (body : B -> Py St unit) :
  (forall x, keeps proj (body x)) -> keeps proj (for_each l body).
Proof. apply respects_for_each; typeclasses eauto. Qed.

Lemma keeps_eq {A} (m : Py St A) s : keeps proj m -> proj (snd (m s)) = proj s.
Proof. intros H. apply H. Qed.

End Frames.

(** Frames proved of the functions of the parser. *)
Create HintDb frames.

(** Walks through a statement down to its assignments. *)
Ltac frame_step :=
  first
    [ solve [auto 1 with frames nocore]
    | apply keeps_ret
    | apply keeps_raise
    | apply keeps_read
    | apply keeps_lift
    | apply keeps_when
    | apply keeps_bind; [ | intros ? ]
    | apply keeps_for_each; intros ?
    | apply keeps_modify; intros ?; reflexivity
    | match goal with
      | |- keeps _ (match ?x with _ => _ end) => destruct x
      end
    | progress cbv beta zeta ].

Ltac frame := repeat frame_step.

(** ** The zoom levels *)

Section PyramidFacts.
Variable world_scale : Q.
Variable finest : nat.
Hypothesis world_scale_pos : (0 < world_scale)%Q.

#[local] Abbreviation tile_scale_at := (spec_tile_scale world_scale).
#[local] Abbreviation distance := (scale_distance world_scale).

Lemma spec_tile_scale_pos (zoom : nat) : (0 < tile_scale_at zoom)%Q.
Proof.
  induction zoom as [|z IH]; cbn [spec_tile_scale].
  - exact world_scale_pos.
  - unfold Qdiv. change (/ 2)%Q with (1 # 2)%Q. lra.
Qed.

Lemma spec_tile_scale_halves (zoom : nat) :
  (tile_scale_at (S zoom) < tile_scale_at zoom)%Q.
Proof.
  cbn [spec_tile_scale]. pose proof (spec_tile_scale_pos zoom) as Hp.
  unfold Qdiv. change (/ 2)%Q with (1 # 2)%Q. lra.
Qed.

Lemma spec_tile_scale_decreasing (a b : nat) :
  (a < b)%nat -> (tile_scale_at b < tile_scale_at a)%Q.
Proof.
  induction 1 as [|b Hle IH].
  - apply spec_tile_scale_halves.
  - eapply Qlt_trans; [apply spec_tile_scale_halves | exact IH].
Qed.

Lemma distance_nonneg (s : Q) (zoom : nat) : (0 <= distance s zoom)%Q.
Proof. apply Qabs_nonneg. Qed.

Lemma distance_zero (s : Q) (zoom : nat) :
  (s == tile_scale_at zoom)%Q -> (distance s zoom == 0)%Q.
Proof.
  intros E. unfold scale_distance. rewrite Qabs_pos; lra.
Qed.

Lemma distance_pos (s : Q) (z0 z : nat) :
  (s == tile_scale_at z0)%Q -> z <> z0 -> (0 < distance s z)%Q.
Proof.
  intros E Hne. unfold scale_distance.
  destruct (Nat.lt_total z z0) as [Hlt|[Heq|Hgt]]; [| contradiction |].
  - apply spec_tile_scale_decreasing in Hlt. rewrite Qabs_neg; lra.
  - apply spec_tile_scale_decreasing in Hgt. rewrite Qabs_pos; lra.
Qed.

(** The search settles on the level whose scale the pixel scale equals. *)
Lemma closest_of_exact (s : Q) (z0 : nat) :
  (s == tile_scale_at z0)%Q ->
  forall zooms best,
    best = z0 \/ In z0 zooms -> closest_of world_scale s best zooms = z0.
Proof.
  intros E zooms. induction zooms as [|z rest IH]; intros best Hin; cbn [closest_of].
  - destruct Hin as [->|[]]. reflexivity.
  - apply IH. unfold Qltb.
    destruct (Nat.eq_dec best z0) as [->|Hbest].
    + left.
      assert (Hle : Qle_bool (distance s z0) (distance s z) = true).
      { apply Qle_bool_iff. rewrite (distance_zero s z0 E). apply distance_nonneg. }
      now rewrite Hle.
    + destruct Hin as [Hin|[->|Hin]]; [contradiction | | now right].
      left.
      assert (Hlt : Qle_bool (distance s best) (distance s z0) = false).
      { apply not_true_is_false. intros Hle. apply Qle_bool_iff in Hle.
        rewrite (distance_zero s z0 E) in Hle.
        apply (Qlt_not_le _ _ (distance_pos s z0 best E Hbest) Hle). }
      now rewrite Hlt.
Qed.

Lemma spec_native_zoom_exact (s : Q) (z0 : nat) :
  (z0 <= finest)%nat -> (s == tile_scale_at z0)%Q ->
  spec_native_zoom world_scale finest s = z0.
Proof.
  intros Hle E. unfold spec_native_zoom. apply closest_of_exact; [exact E|].
  destruct z0 as [|z0]; [now left | right].
  apply in_seq. lia.
Qed.

End PyramidFacts.

(** Whatever [closest_zoomlevel] is, a disabled flag lowers the max zoom by
    exactly one, and the stored metadata keeps the level it returned. *)
Lemma compute_max_zoom_run {zooms : ZoomLevels} (w : World) (ds : GDALRaster) :
  dataset (self w) = Some ds ->
  let z := closest_zoomlevel (Qabs (fst (scale ds))) in
  compute_max_zoom w =
    (Returned tt,
     with_self (set_max_zoom (if zoomdown (self w) then z else z - 1))
       (with_db (fun d => set_metadata (set_meta_max_zoom z (metadata d)) d) w)).
Proof.
  intros Hds. unfold compute_max_zoom, get_dataset, get_max_zoom, when.
  unfold bind, read, modify, ret. cbn. rewrite Hds. cbn.
  destruct (zoomdown (self w)); reflexivity.
Qed.

(** C1: with [closest_zoomlevel] as the spec describes it, the max zoom the
    parser works with is the native zoom of the raster plus one when the
    finer-than-native flag is enabled and the native zoom itself when it is
    disabled; for a raster whose pixel scale is that of zoom 12, that is 13
    and 12. *)
Theorem compute_max_zoom_flag (world_scale : Q) (finest : nat) (w : World) (ds : GDALRaster) :
  (0 < world_scale)%Q ->
  dataset (self w) = Some ds ->
  let native := Z.of_nat (spec_native_zoom world_scale finest (Qabs (fst (scale ds)))) in
  let result := compute_max_zoom (zooms := spec_zoomlevels world_scale finest) w in
  fst result = Returned tt /\
  max_zoom (self (snd result)) = Some (if zoomdown (self w) then native + 1 else native) /\
  ((12 <= finest)%nat ->
   (Qabs (fst (scale ds)) == spec_tile_scale world_scale 12)%Q ->
   max_zoom (self (snd result)) = Some (if zoomdown (self w) then 13 else 12)).
Proof.
  intros Hpos Hds native result. subst result.
  rewrite (compute_max_zoom_run w ds Hds). cbn.
  unfold spec_closest_zoomlevel. fold native.
  assert (Hmz : Some (if zoomdown (self w) then native + 1 else native + 1 - 1)
                = Some (if zoomdown (self w) then native + 1 else native)).
  { destruct (zoomdown (self w)); f_equal; lia. }
  repeat split.
  - exact Hmz.
  - intros Hfin Hscale. rewrite Hmz. subst native.
    rewrite (spec_native_zoom_exact world_scale finest Hpos _ 12%nat Hfin Hscale).
    destruct (zoomdown (self w)); reflexivity.
Qed.

Lemma compute_max_zoom_flag_witness :
  (max_zoom (self (snd (compute_max_zoom (zooms := spec_zoomlevels (4096 # 1) 18)
                          (Demo.native12 true)))) = Some 13 /\
   max_zoom (self (snd (compute_max_zoom (zooms := spec_zoomlevels (4096 # 1) 18)
                          (Demo.native12 false)))) = Some 12).
Proof.
  split.
  - refine (proj2 (proj2 (compute_max_zoom_flag (4096 # 1) 18 (Demo.native12 true) _ _ eq_refl))
              _ _).
    + reflexivity.
    + apply Nat.leb_le. reflexivity.
    + reflexivity.
  - refine (proj2 (proj2 (compute_max_zoom_flag (4096 # 1) 18 (Demo.native12 false) _ _ eq_refl))
              _ _).
    + reflexivity.
    + apply Nat.leb_le. reflexivity.
    + reflexivity.
Defined.

(** ** Histograms *)

Lemma filter_length_le {A} (p q : A -> bool) (l : list A) :
  (forall x, p x = true -> q x = true) ->
  (length (List.filter p l) <= length (List.filter q l))%nat.
Proof.
  intros Hpq. induction l as [|x l IH]; cbn [List.filter]; [lia|].
  destruct (p x) eqn:Hp.
  - rewrite (Hpq x Hp). cbn [length]. lia.
  - destruct (q x); cbn [length]; lia.
Qed.

Lemma count_below_mono (a b : Q) (values : list Q) :
  Qleb a b = true -> count_below a values <= count_below b values.
Proof.
  intros Hab. apply Qle_bool_iff in Hab. unfold count_below.
  apply inj_le, filter_length_le. intros v Hv. unfold Qltb in *.
  apply negb_true_iff, not_true_iff_false. apply negb_true_iff, not_true_iff_false in Hv.
  intros Hbv. apply Hv. apply Qle_bool_iff. apply Qle_bool_iff in Hbv.
  eapply Qle_trans; eassumption.
Qed.

Lemma count_below_upto (a b : Q) (values : list Q) :
  Qleb a b = true -> count_below a values <= count_upto b values.
Proof.
  intros Hab. apply Qle_bool_iff in Hab. unfold count_below, count_upto.
  apply inj_le, filter_length_le. intros v Hv. unfold Qltb, Qleb in *.
  apply negb_true_iff, not_true_iff_false in Hv.
  apply Qle_bool_iff. apply Qlt_le_weak. apply Qnot_le_lt. intros Hav.
  apply Hv. apply Qle_bool_iff. eapply Qle_trans; eassumption.
Qed.

(** The counts of a histogram over increasing edges are not negative. *)
Lemma histogram_nonneg (a : Block) (edges : list Q) (h : list Z) :
  histogram a edges = Returned h -> Forall (fun c => 0 <= c) h.
Proof.
  unfold histogram. destruct (increasing edges) eqn:Hinc; [|discriminate].
  intros [= <-]. revert Hinc. generalize (concat a) as values. intros values.
  induction edges as [|e1 edges IH]; intros Hinc; [constructor|].
  destruct edges as [|e2 rest]; [constructor|].
  cbn [increasing] in Hinc. apply andb_true_iff in Hinc as [H12 Hrest].
  specialize (IH Hrest).
  change (cumulative values (e1 :: e2 :: rest))
    with (count_below e1 values :: cumulative values (e2 :: rest)).
  destruct rest as [|e3 rest].
  - cbn. constructor; [|constructor].
    pose proof (count_below_upto e1 e2 values H12). lia.
  - change (cumulative values (e2 :: e3 :: rest))
      with (count_below e2 values :: cumulative values (e3 :: rest)) in *.
    cbn [diff] in *. constructor; [|exact IH].
    pose proof (count_below_mono e1 e2 values H12). lia.
Qed.

Lemma counts_le_refl (v : list Z) : counts_le v v.
Proof. induction v; constructor; [lia | assumption]. Qed.

Lemma counts_le_trans (a b c : list Z) : counts_le a b -> counts_le b c -> counts_le a c.
Proof.
  intros Hab. revert c. induction Hab as [|x y a b Hxy Hab IH]; intros c Hbc.
  - inversion Hbc. constructor.
  - inversion Hbc as [|? z ? c' Hyz Hbc']; subst. constructor; [lia | now apply IH].
Qed.

Lemma hist_le_refl (hv : list (list Z)) : hist_le hv hv.
Proof. induction hv; constructor; [apply counts_le_refl | assumption]. Qed.

Lemma hist_le_trans (a b c : list (list Z)) : hist_le a b -> hist_le b c -> hist_le a c.
Proof.
  intros Hab. revert c. induction Hab as [|x y a b Hxy Hab IH]; intros c Hbc.
  - inversion Hbc. constructor.
  - inversion Hbc as [|? z ? c' Hyz Hbc']; subst.
    constructor; [eapply counts_le_trans; eassumption | now apply IH].
Qed.

Lemma iadd_le (v h v' : list Z) :
  Forall (fun c => 0 <= c) h -> iadd v h = Returned v' -> counts_le v v'.
Proof.
  intros Hh. unfold iadd. destruct (Nat.eqb (length h) (length v)) eqn:Hlen.
  - intros [= <-]. apply Nat.eqb_eq in Hlen. clear -Hh Hlen.
    revert h Hh Hlen. induction v as [|x v IH]; intros [|c h] Hh Hlen; try discriminate.
    + constructor.
    + inversion Hh; subst. cbn. constructor; [lia|]. apply IH; [assumption|].
      cbn in Hlen. lia.
  - destruct h as [|c [|]]; try discriminate. intros [= <-].
    inversion Hh; subst. clear -H1. induction v; cbn; constructor; [lia | assumption].
Qed.

Lemma hist_le_insert (hv : list (list Z)) (i : nat) (v v' : list Z) :
  hv !! i = Some v -> counts_le v v' -> hist_le hv (<[i := v']> hv).
Proof.
  intros Hi Hv. rewrite <- (list_insert_id hv i v Hi) at 1.
  apply Forall2_insert; [apply hist_le_refl | exact Hv].
Qed.

(** ** The tiler *)

Lemma set_hist_values_id (w : World) :
  with_self (set_hist_values (hist_values (self w))) w = w.
Proof. destruct w as [[] ? ? ?]. reflexivity. Qed.

Lemma set_hist_values_twice (a b : list (list Z)) (w : World) :
  with_self (set_hist_values a) (with_self (set_hist_values b) w)
  = with_self (set_hist_values a) w.
Proof. reflexivity. Qed.

#[export] Instance counts_grow_preorder : PreOrder counts_grow.
Proof.
  split.
  - intros w. exists (hist_values (self w)).
    split; [symmetry; apply set_hist_values_id | apply hist_le_refl].
  - intros w1 w2 w3 (hv2 & -> & H12) (hv3 & -> & H23). exists hv3.
    split; [apply set_hist_values_twice | eapply hist_le_trans; eassumption].
Qed.

Section ParserFacts.
Context {gdal : GDAL} {const : TilesConst} {grid : TileGrid} {platform : Platform}.
Context (settings : Settings).

Lemma for_each_map {St B C} (f : B -> C) (l : list B) (body : C -> Py St unit) :
  for_each (map f l) body = for_each l (fun x => body (f x)).
Proof.
  induction l as [|x l IH]; cbn [for_each map]; [reflexivity | now rewrite IH].
Qed.

Lemma respects_apply_task (R : World -> World -> Prop) (task : Py World unit) :
  respects R task -> respects R (apply_task settings task).
Proof.
  intros H w. specialize (H w). unfold apply_task.
  destruct (task w) as [[[]|e] w']; [exact H|].
  destruct (CELERY_EAGER_PROPAGATES_EXCEPTIONS settings); exact H.
Qed.

Lemma log_tiler_frame msg st zoom : keeps tiler_frame (log msg st zoom).
Proof. unfold log. frame. Qed.

Lemma log_calls msg st zoom : keeps calls (log msg st zoom).
Proof. unfold log. frame. Qed.

Lemma log_tiles msg st zoom : keeps tiles_of (log msg st zoom).
Proof. unfold log. frame. Qed.

Lemma log_counts msg st zoom : keeps counts_of (log msg st zoom).
Proof. unfold log. frame. Qed.

Lemma log_returns msg st zoom w : fst (log msg st zoom w) = Returned tt.
Proof. reflexivity. Qed.

#[local] Hint Resolve log_tiler_frame log_calls log_tiles log_counts : frames.

(** [push_histogram] adds the histogram of each block to the counts of its
    band, and changes nothing else. *)
Lemma push_histogram_only_counts (band_data : list BandData) :
  respects counts_grow (push_histogram band_data).
Proof.
  unfold push_histogram. apply respects_for_each; [typeclasses eauto|].
  intros [i dat] w. unfold bind, read, lift, modify. cbn.
  destruct (hist_bins (self w) !! i) as [bins|]; cbn; [|reflexivity].
  destruct (histogram (data dat) bins) as [new_hist|] eqn:Hhist; cbn; [|reflexivity].
  destruct (hist_values (self w) !! i) as [v|] eqn:Hv; cbn; [|reflexivity].
  destruct (iadd v new_hist) as [v'|] eqn:Hadd; cbn; [|reflexivity].
  exists (<[i := v']> (hist_values (self w))). split; [reflexivity|].
  eapply hist_le_insert; [exact Hv|].
  eapply iadd_le; [|exact Hadd]. eapply histogram_nonneg; exact Hhist.
Qed.

Lemma push_histogram_tiler_frame bd : keeps tiler_frame (push_histogram bd).
Proof. unfold push_histogram. frame. Qed.

Lemma push_histogram_calls bd : keeps calls (push_histogram bd).
Proof. unfold push_histogram. frame. Qed.

Lemma push_histogram_tiles bd : keeps tiles_of (push_histogram bd).
Proof. unfold push_histogram. frame. Qed.

#[local] Hint Resolve push_histogram_tiler_frame push_histogram_calls push_histogram_tiles
  : frames.

Lemma create_tile_tiler_frame snapped xmin ymin tilescale zoom tilex tiley :
  keeps tiler_frame (create_tile snapped xmin ymin tilescale zoom tilex tiley).
Proof. unfold create_tile. frame. Qed.

Lemma create_tile_calls snapped xmin ymin tilescale zoom tilex tiley :
  keeps calls (create_tile snapped xmin ymin tilescale zoom tilex tiley).
Proof. unfold create_tile. frame. Qed.

#[local] Hint Resolve create_tile_tiler_frame create_tile_calls : frames.

Lemma snap_to_quadrant_tiler_frame indexrange zoom :
  keeps tiler_frame (snap_to_quadrant indexrange zoom).
Proof. unfold snap_to_quadrant. frame. Qed.

Lemma snap_to_quadrant_tiles indexrange zoom :
  keeps tiles_of (snap_to_quadrant indexrange zoom).
Proof. unfold snap_to_quadrant. frame. Qed.

Lemma snap_to_quadrant_counts indexrange zoom :
  keeps counts_of (snap_to_quadrant indexrange zoom).
Proof. unfold snap_to_quadrant. frame. Qed.

#[local] Hint Resolve snap_to_quadrant_tiler_frame snap_to_quadrant_tiles
  snap_to_quadrant_counts : frames.

Lemma process_quadrant_tiler_frame indexrange zoom :
  keeps tiler_frame (process_quadrant indexrange zoom).
Proof. unfold process_quadrant. frame. Qed.

(** *** Tiling a quadrant *)

#[local] Instance tiling_preorder zoom : PreOrder (tiling zoom).
Proof.
  split.
  - intros w. repeat split. apply hist_le_refl.
  - intros w1 w2 w3 (F12 & L12 & K12) (F23 & L23 & K23). repeat split.
    + congruence.
    + eapply hist_le_trans; eassumption.
    + intros Hmz. rewrite K23, K12; [reflexivity | exact Hmz |].
      assert (Hsame : max_zoom (self w2) = max_zoom (self w1)).
      { unfold tiler_frame in F12. congruence. }
      now rewrite Hsame.
Qed.

Lemma keeps_tiling {A} zoom (m : Py World A) :
  keeps tiler_frame m -> keeps counts_of m -> respects (tiling zoom) m.
Proof.
  intros Hf Hc w. specialize (Hf w). specialize (Hc w).
  unfold same, counts_of in *. repeat split.
  - exact Hf.
  - rewrite Hc. apply hist_le_refl.
  - intros _. exact Hc.
Qed.

Lemma create_tile_tiling snapped xmin ymin tilescale zoom tilex tiley :
  respects (tiling zoom) (create_tile snapped xmin ymin tilescale zoom tilex tiley).
Proof.
  intros w. split; [apply create_tile_tiler_frame|].
  unfold create_tile, get_max_zoom, get_layer_id, bind, read, lift, when, ret, raise, modify.
  destruct (tile_bounds tilex tiley zoom) as [[[bxmin ?] ?] bymax].
  cbn -[push_histogram].
  destruct (read_bands _ _ _) as [bd|e]; cbn -[push_histogram];
    [|split; [apply hist_le_refl | reflexivity]].
  destruct (max_zoom (self w)) as [mz|] eqn:Hmz; cbn -[push_histogram];
    [|split; [apply hist_le_refl | reflexivity]].
  destruct (zoom =? mz) eqn:Hz.
  - apply Z.eqb_eq in Hz. subst mz.
    destruct (push_histogram_only_counts bd w) as (hv' & Hw' & Hle).
    destruct (push_histogram bd w) as [[[]|e] w1]; cbn in Hw'; subst w1;
      cbn -[push_histogram].
    + destruct (bands snapped); cbn; (split; [exact Hle | intros []; reflexivity]).
    + split; [exact Hle | intros []; reflexivity].
  - cbn. destruct (bands snapped); cbn; (split; [apply hist_le_refl | reflexivity]).
Qed.

Lemma process_quadrant_tiling indexrange zoom :
  respects (tiling zoom) (process_quadrant indexrange zoom).
Proof.
  unfold process_quadrant. destruct indexrange as [[[xmin ymin] xmax] ymax].
  apply respects_bind; [typeclasses eauto | apply keeps_tiling; frame |].
  intros snapped. apply respects_for_each; [typeclasses eauto|]. intros tilex.
  apply respects_for_each; [typeclasses eauto|]. intros tiley.
  apply create_tile_tiling.
Qed.

Lemma respects_group_apply {B} (R : World -> World -> Prop) `{!PreOrder R}
    (f : B -> Py World unit) (l : list B) :
  (forall x, respects R (f x)) -> respects R (group_apply settings (map f l)).
Proof.
  intros H. unfold group_apply. rewrite for_each_map.
  apply respects_for_each; [typeclasses eauto|]. intros x.
  apply respects_apply_task, H.
Qed.

Lemma in_py_range_incl (lo hi x : Z) : In x (py_range_incl lo hi) <-> lo <= x <= hi.
Proof.
  unfold py_range_incl. rewrite in_map_iff. split.
  - intros (i & <- & Hi). apply in_seq in Hi. lia.
  - intros Hx. exists (Z.to_nat (x - lo)). split; [lia|]. apply in_seq. lia.
Qed.

Lemma read_bands_returned (bs : list GDALBand) (pixeloffset : Z * Z) (ts : Z)
    (bd : list BandData) :
  read_bands bs pixeloffset ts = Returned bd -> Forall2 (block_of pixeloffset ts) bs bd.
Proof.
  revert bd. induction bs as [|band bs IH]; intros bd; cbn [read_bands].
  - intros [= <-]. constructor.
  - destruct (band_data band pixeloffset (ts, ts)) as [d|] eqn:Hd; cbn; [|discriminate].
    destruct (read_bands bs pixeloffset ts) as [more|]; cbn; [|discriminate].
    intros [= <-]. constructor; [now split | now apply IH].
Qed.

Lemma read_bands_total (bs : list GDALBand) (pixeloffset : Z * Z) (ts : Z) :
  Forall (fun band => band_data band pixeloffset (ts, ts) <> None) bs ->
  exists bd, read_bands bs pixeloffset ts = Returned bd.
Proof.
  induction 1 as [|band bs Hb _ (more & IH)]; cbn [read_bands].
  - now exists [].
  - destruct (band_data band pixeloffset (ts, ts)) as [d|]; [|contradiction].
    rewrite IH. cbn. eauto.
Qed.

Lemma create_tile_returned snapped xmin ymin tilescale zoom tx ty w w' :
  create_tile snapped xmin ymin tilescale zoom tx ty w = (Returned tt, w') ->
  exists t, tile_of snapped (tilesize (self w)) xmin ymin zoom tx ty t /\
            tiles_of w' = tiles_of w ++ [t].
Proof.
  unfold create_tile, get_max_zoom, get_layer_id, bind, read, lift, when, ret, raise, modify.
  destruct (tile_bounds tx ty zoom) as [[[bxmin ?] ?] bymax].
  cbn -[push_histogram].
  destruct (read_bands _ _ _) as [bd|e] eqn:Hbd; cbn -[push_histogram]; [|discriminate].
  apply read_bands_returned in Hbd.
  destruct (max_zoom (self w)) as [mz|]; cbn -[push_histogram]; [|discriminate].
  assert (Hpush : forall w1 r, (if zoom =? mz then push_histogram bd else fun s => (Returned tt, s)) w
                               = (r, w1) ->
                  tiles_of w1 = tiles_of w /\ tiler_frame w1 = tiler_frame w).
  { intros w1 r E. destruct (zoom =? mz).
    - pose proof (push_histogram_tiles bd w) as Ht.
      pose proof (push_histogram_tiler_frame bd w) as Hf.
      rewrite E in Ht, Hf. now split.
    - injection E as <- <-. now split. }
  destruct ((if zoom =? mz then push_histogram bd else fun s => (Returned tt, s)) w)
    as [[[]|e] w1]; [|discriminate].
  destruct (Hpush _ _ eq_refl) as [Ht Hf]. clear Hpush.
  destruct (bands snapped) as [|b0 bs] eqn:Hbands; cbn; [discriminate|].
  intros [= <-]. eexists. split; [|unfold tiles_of in *; cbn; rewrite Ht; reflexivity].
  repeat split; cbn. rewrite Hbands. exact Hbd.
Qed.

(** Away from the max zoom a tile is stored as soon as the snapped dataset
    has a band and its blocks can be read. *)
Lemma create_tile_returns snapped xmin ymin tilescale zoom tx ty w mz :
  max_zoom (self w) = Some mz ->
  zoom <> mz ->
  bands snapped <> [] ->
  Forall (fun band =>
            band_data band ((tx - xmin) * tilesize (self w), (ty - ymin) * tilesize (self w))
              (tilesize (self w), tilesize (self w)) <> None) (bands snapped) ->
  exists w', create_tile snapped xmin ymin tilescale zoom tx ty w = (Returned tt, w').
Proof.
  intros Hmz Hzoom Hbands Hread.
  destruct (read_bands_total _ _ _ Hread) as (bd & Hbd).
  unfold create_tile, get_max_zoom, get_layer_id, bind, read, lift, when, ret, raise, modify.
  destruct (tile_bounds tx ty zoom) as [[[bxmin ?] ?] bymax].
  cbn -[push_histogram]. rewrite Hbd. cbn -[push_histogram]. rewrite Hmz.
  cbn -[push_histogram]. apply Z.eqb_neq in Hzoom. rewrite Hzoom.
  destruct (bands snapped) as [|b0 bs]; [contradiction|]. cbn. eauto.
Qed.

(** *** A zoom level *)

Lemma snap_to_quadrant_run (w : World) (ds : GDALRaster) (dir : string)
    (xmin ymin xmax ymax zoom : Z) :
  dataset (self w) = Some ds -> tmpdir (self w) = Some dir ->
  exists options,
    warp_width options = (xmax - xmin + 1) * tilesize (self w) /\
    warp_height options = (ymax - ymin + 1) * tilesize (self w) /\
    calls (snd (snap_to_quadrant (xmin, ymin, xmax, ymax) zoom w))
      = calls w ++ [CallWarp ds options] /\
    fst (snap_to_quadrant (xmin, ymin, xmax, ymax) zoom w)
      = or_raise GDALException (warp ds options).
Proof.
  intros Hds Hdir.
  unfold snap_to_quadrant, log, get_tmpdir, temp_name, get_dataset.
  unfold bind, read, modify, lift, ret.
  destruct (tile_bounds xmin ymin zoom) as [[[bxmin ?] ?] bymax].
  cbn. rewrite Hdir. cbn. rewrite Hds. cbn.
  eexists. repeat split; reflexivity.
Qed.

(** C2: [process_quadrant] warps the dataset onto a grid of
    [(xmax - xmin + 1) * tilesize] by [(ymax - ymin + 1) * tilesize] pixels,
    and when it returns, the tiles it has stored hold, for every index
    ([tx], [ty]) of the range, a tile whose bands are the
    [tilesize] x [tilesize] blocks of the bands of the warped dataset at the
    offset ([(tx - xmin) * tilesize], [(ty - ymin) * tilesize]), each with
    the nodata value of its band.  Off the max zoom it does return as
    soon as the warp gives a dataset with bands whose blocks can be read. *)
Theorem process_quadrant_tiles (w : World) (ds : GDALRaster) (dir : string)
    (xmin ymin xmax ymax zoom : Z) :
  dataset (self w) = Some ds ->
  tmpdir (self w) = Some dir ->
  let ts := tilesize (self w) in
  let result := process_quadrant (xmin, ymin, xmax, ymax) zoom w in
  exists options,
    warp_width options = (xmax - xmin + 1) * ts /\
    warp_height options = (ymax - ymin + 1) * ts /\
    calls (snd result) = calls w ++ [CallWarp ds options] /\
    (fst result = Returned tt ->
     exists snapped new_tiles,
       warp ds options = Some snapped /\
       tiles_of (snd result) = tiles_of w ++ new_tiles /\
       forall tx ty, xmin <= tx <= xmax -> ymin <= ty <= ymax ->
         exists t, In t new_tiles /\ tile_of snapped ts xmin ymin zoom tx ty t) /\
    (forall snapped mz,
       warp ds options = Some snapped ->
       bands snapped <> [] ->
       (forall band pixeloffset,
          In band (bands snapped) -> band_data band pixeloffset (ts, ts) <> None) ->
       max_zoom (self w) = Some mz ->
       zoom <> mz ->
       fst result = Returned tt).
Proof.
  intros Hds Hdir ts result.
  destruct (snap_to_quadrant_run w ds dir xmin ymin xmax ymax zoom Hds Hdir)
    as (options & Hw & Hh & Hcalls & Hfst).
  exists options. split; [exact Hw|]. split; [exact Hh|].
  subst result. unfold process_quadrant.
  pose proof (snap_to_quadrant_tiles (xmin, ymin, xmax, ymax) zoom w) as Htiles.
  pose proof (snap_to_quadrant_tiler_frame (xmin, ymin, xmax, ymax) zoom w) as Hframe.
  unfold bind.
  destruct (snap_to_quadrant (xmin, ymin, xmax, ymax) zoom w) as [[snapped|e] w1];
    cbn [fst snd] in *.
  2:{ split; [exact Hcalls|]. split; [intros [=]|].
      intros snapped mz Hwarp. rewrite Hwarp in Hfst. discriminate. }
  set (loops := for_each (py_range_incl xmin xmax) _).
  assert (Hts : tilesize (self w1) = ts).
  { unfold same, tiler_frame in Hframe. subst ts. congruence. }
  split; [|split].
  - rewrite <- Hcalls. apply (keeps_eq calls loops w1). subst loops. frame.
  - intros Hret.
    destruct (warp ds options) as [snapped'|] eqn:Hwarp; [|discriminate].
    injection Hfst as ->. exists snapped'.
    destruct (loops w1) as [r w'] eqn:Hloops. cbn [fst snd] in *. subst r.
    unfold loops in Hloops.
    (* the outer loop, over the columns done *)
    pose (I_outer := fun (done : list Z) (s : World) =>
      tilesize (self s) = ts /\
      exists new_tiles,
        tiles_of s = tiles_of w ++ new_tiles /\
        forall tx ty, In tx done -> ymin <= ty <= ymax ->
          exists t, In t new_tiles /\ tile_of snapped' ts xmin ymin zoom tx ty t).
    assert (Hout : I_outer ([] ++ py_range_incl xmin xmax) w').
    { refine (for_each_returned I_outer _ _ _ [] w1 w' _ Hloops).
      - intros done tx s s' (Hs & new_tiles & Hnew & Hall) Hbody. cbv beta in Hbody.
        (* the inner loop, over the rows done of column [tx] *)
        pose (I_inner := fun (done_y : list Z) (s0 : World) =>
          tilesize (self s0) = ts /\
          exists more,
            tiles_of s0 = tiles_of w ++ new_tiles ++ more /\
            forall ty, In ty done_y ->
              exists t, In t more /\ tile_of snapped' ts xmin ymin zoom tx ty t).
        assert (Hin : I_inner ([] ++ py_range_incl ymin ymax) s').
        { refine (for_each_returned I_inner _ _ _ [] s s' _ Hbody).
          - intros done_y ty s0 s0' (Hs0 & more & Hmore & Hdone) Htile. cbv beta in Htile.
            pose proof (create_tile_tiler_frame snapped' xmin ymin (tile_scale zoom)
                          zoom tx ty s0) as Hf.
            rewrite Htile in Hf. cbn in Hf.
            apply create_tile_returned in Htile as (t & Ht & Happ).
            split; [unfold same, tiler_frame in Hf; congruence|].
            exists (more ++ [t]). split.
            + rewrite Happ, Hmore. now rewrite <- !app_assoc.
            + intros ty' Hty'. apply in_app_or in Hty' as [Hold|[<-|[]]].
              * destruct (Hdone ty' Hold) as (t' & Ht' & Hgood).
                exists t'. split; [apply in_or_app; now left | exact Hgood].
              * exists t. split; [apply in_or_app; right; now left|].
                now rewrite <- Hs0.
          - split; [exact Hs|]. exists []. split; [now rewrite app_nil_r | intros ? []]. }
        destruct Hin as (Hs' & more & Hmore & Hcol). split; [exact Hs'|].
        exists (new_tiles ++ more). split; [exact Hmore|].
        intros tx' ty Htx' Hty. apply in_app_or in Htx' as [Hold|[<-|[]]].
        + destruct (Hall tx' ty Hold Hty) as (t & Ht & Hgood).
          exists t. split; [apply in_or_app; now left | exact Hgood].
        + destruct (Hcol ty) as (t & Ht & Hgood); [now apply in_py_range_incl|].
          exists t. split; [apply in_or_app; now right | exact Hgood].
      - split; [exact Hts|]. exists []. split; [|intros ? ? []].
        rewrite app_nil_r. exact Htiles. }
    destruct Hout as (_ & new_tiles & Hnew & Hall).
    exists new_tiles. split; [reflexivity|]. split; [exact Hnew|].
    intros tx ty Htx Hty. apply Hall; [now apply in_py_range_incl | exact Hty].
  - intros snapped' mz Hwarp Hbands Hread Hmz Hzoom.
    rewrite Hwarp in Hfst. injection Hfst as ->.
    pose (Inv := fun s : World => tiler_frame s = tiler_frame w).
    assert (Hloops : exists w', loops w1 = (Returned tt, w') /\ Inv w').
    { subst loops. apply (for_each_returns Inv); [|exact Hframe].
      intros tx s _ Hs. apply (for_each_returns Inv); [|exact Hs].
      intros ty s0 _ Hs0.
      assert (Hmz0 : max_zoom (self s0) = Some mz)
        by (unfold Inv, tiler_frame in Hs0; congruence).
      assert (Hts0 : tilesize (self s0) = ts)
        by (unfold Inv, tiler_frame in Hs0; subst ts; congruence).
      destruct (create_tile_returns snapped' xmin ymin (tile_scale zoom) zoom tx ty s0 mz
                  Hmz0 Hzoom Hbands) as (s0' & Hs0').
      { rewrite Hts0. apply List.Forall_forall. intros band Hband. now apply Hread. }
      exists s0'. split; [exact Hs0'|].
      pose proof (create_tile_tiler_frame snapped' xmin ymin (tile_scale zoom) zoom tx ty s0)
        as Hf.
      rewrite Hs0' in Hf. unfold Inv. unfold same in Hf. cbn in Hf. congruence. }
    destruct Hloops as (w' & -> & _). reflexivity.
Qed.

Lemma get_max_zoom_run (w : World) (mz : Z) :
  max_zoom (self w) = Some mz -> get_max_zoom w = (Returned mz, w).
Proof. intros H. unfold get_max_zoom, bind, read, ret. cbn. now rewrite H. Qed.

(** C9: above the max zoom of the layer [populate_tile_level] returns at
    once and leaves everything as it was: the tiles, the histogram buckets,
    the log and the status included. *)
Theorem populate_tile_level_above_max_zoom (w : World) (zoom mz : Z) :
  max_zoom (self w) = Some mz ->
  zoom > mz ->
  populate_tile_level settings zoom w = (Returned tt, w).
Proof.
  intros Hmz Hzoom. unfold populate_tile_level.
  rewrite (bind_returned _ _ _ _ _ (get_max_zoom_run w mz Hmz)).
  destruct (zoom >? mz) eqn:Hgt; [reflexivity|].
  rewrite Z.gtb_ltb in Hgt. apply Z.ltb_ge in Hgt. lia.
Qed.

Lemma respects_weaken {A} (R R' : World -> World -> Prop) (m : Py World A) :
  (forall w w', R w w' -> R' w w') -> respects R m -> respects R' m.
Proof. intros H Hm w. apply H, Hm. Qed.

Lemma keeps_group_apply {X B} (proj : World -> X) (f : B -> Py World unit) (l : list B) :
  (forall x, keeps proj (f x)) -> keeps proj (group_apply settings (map f l)).
Proof. apply respects_group_apply. typeclasses eauto. Qed.

Lemma process_quadrant_level_frame indexrange zoom :
  keeps level_frame (process_quadrant indexrange zoom).
Proof.
  intros w. pose proof (process_quadrant_tiler_frame indexrange zoom w) as H.
  unfold same, tiler_frame, level_frame in *. congruence.
Qed.

Lemma store_histogram_data_level_frame : keeps level_frame store_histogram_data.
Proof.
  unfold store_histogram_data. intros w. unfold bind, read. cbn.
  destruct (store_hist_values _ _ _) as [rows [e|]]; reflexivity.
Qed.

#[local] Hint Resolve store_histogram_data_level_frame : frames.

Lemma group_apply_level_frame zoom quads :
  keeps level_frame
    (group_apply settings (map (fun indexrange => process_quadrant indexrange zoom) quads)).
Proof. apply keeps_group_apply. intros ir. apply process_quadrant_level_frame. Qed.

Lemma log_level_frame msg st zoom : keeps level_frame (log msg st zoom).
Proof. unfold log. frame. Qed.

#[local] Hint Resolve group_apply_level_frame log_level_frame : frames.

Lemma populate_quadrants_level_frame zoom : keeps level_frame (populate_quadrants settings zoom).
Proof. unfold populate_quadrants. frame. Qed.

#[local] Hint Resolve populate_quadrants_level_frame : frames.

Lemma populate_tile_level_level_frame zoom :
  keeps level_frame (populate_tile_level settings zoom).
Proof. unfold populate_tile_level. frame. Qed.

#[local] Instance quiet_preorder zoom : PreOrder (quiet zoom).
Proof.
  split.
  - intros w. now split.
  - intros w1 w2 w3 [M12 K12] [M23 K23]. split; [congruence|].
    intros Hmz. rewrite K23, K12; [reflexivity | exact Hmz | now rewrite M12].
Qed.

Lemma tiling_quiet zoom w w' : tiling zoom w w' -> quiet zoom w w'.
Proof.
  intros (Hf & _ & Hk). unfold tiler_frame in Hf. split; [congruence|].
  intros Hmz. unfold histogram_state. rewrite (Hk Hmz). congruence.
Qed.

Lemma keeps_quiet {A} zoom (m : Py World A) :
  keeps level_frame m -> keeps histogram_state m -> respects (quiet zoom) m.
Proof.
  intros Hf Hh w. specialize (Hf w). specialize (Hh w).
  unfold same, level_frame in *. split; [congruence | intros _; exact Hh].
Qed.

(** At the max zoom nothing is promised of the histogram, as long as the
    max zoom itself stays. *)
Lemma at_max_zoom_quiet {A} zoom (m : Py World A) w :
  max_zoom (self w) = Some zoom -> keeps level_frame m -> quiet zoom w (snd (m w)).
Proof.
  intros Hmz Hf. specialize (Hf w). unfold same, level_frame in Hf.
  split; [congruence | intros Hne; contradiction].
Qed.

Lemma respects_get_max_zoom {B} (R : World -> World -> Prop) `{!PreOrder R}
    (k : Z -> Py World B) :
  (forall mz w, max_zoom (self w) = Some mz -> R w (snd (k mz w))) ->
  respects R (bind get_max_zoom k).
Proof.
  intros H w. unfold bind, get_max_zoom, read, ret, raise. cbn.
  destruct (max_zoom (self w)) as [mz|] eqn:Hmz; cbn; [now apply H | reflexivity].
Qed.

Lemma log_quiet zoom msg st z : respects (quiet zoom) (log msg st z).
Proof. apply keeps_quiet; unfold log; frame. Qed.

Lemma populate_quadrants_quiet zoom : respects (quiet zoom) (populate_quadrants settings zoom).
Proof.
  unfold populate_quadrants.
  apply respects_bind; [typeclasses eauto | apply respects_read; typeclasses eauto |].
  intros w0. apply respects_bind; [typeclasses eauto | apply keeps_quiet; unfold nr_of_tiles; frame |].
  intros n. apply respects_bind; [typeclasses eauto | apply log_quiet |]. intros _.
  apply respects_bind; [typeclasses eauto | |].
  { apply respects_group_apply; [typeclasses eauto|]. intros ir.
    eapply respects_weaken; [apply tiling_quiet | apply process_quadrant_tiling]. }
  intros _. apply respects_get_max_zoom; [typeclasses eauto|]. intros mz w Hmz.
  destruct (zoom =? mz) eqn:Hz.
  - apply Z.eqb_eq in Hz. subst mz. apply (at_max_zoom_quiet zoom _ w Hmz). frame.
  - cbn [when].
    refine (respects_bind (quiet zoom) _ _ _ _ w);
      [apply respects_ret; typeclasses eauto | intros _; apply log_quiet].
Qed.

Lemma populate_tile_level_quiet zoom :
  respects (quiet zoom) (populate_tile_level settings zoom).
Proof.
  unfold populate_tile_level. apply respects_get_max_zoom; [typeclasses eauto|].
  intros mz w Hmz. destruct (zoom >? mz); [reflexivity|].
  destruct (zoom =? mz) eqn:Hz.
  - apply Z.eqb_eq in Hz. subst mz. apply (at_max_zoom_quiet zoom _ w Hmz). frame.
  - cbn [when].
    refine (respects_bind (quiet zoom) _ _ _ _ w);
      [apply respects_ret; typeclasses eauto | intros _; apply populate_quadrants_quiet].
Qed.

Lemma nr_of_tiles_run zoom w : exists n, nr_of_tiles zoom w = (Returned n, w).
Proof.
  unfold nr_of_tiles, bind, read, ret. cbn.
  destruct (tile_index_range _ _) as [[[xmin ymin] xmax] ymax]. eauto.
Qed.

Lemma create_initial_histogram_buckets_level_frame :
  keeps level_frame create_initial_histogram_buckets.
Proof. unfold create_initial_histogram_buckets. frame. Qed.

Lemma create_initial_histogram_buckets_rows :
  keeps (fun w => bandmetadata (db w)) create_initial_histogram_buckets.
Proof. unfold create_initial_histogram_buckets. frame. Qed.

Lemma enumerate_indices {A} (l : list A) : map fst (enumerate l) = seq 0 (length l).
Proof.
  unfold enumerate. generalize 0%nat as start.
  induction l as [|x l IH]; intros start; cbn; [reflexivity | now rewrite IH].
Qed.

(** [create_initial_histogram_buckets] takes the edges of every band of the
    dataset from the band metadata rows, in the order of the bands. *)
Lemma create_initial_histogram_buckets_edges (w w0 : World) (ds : GDALRaster) :
  dataset (self w) = Some ds ->
  create_initial_histogram_buckets w = (Returned tt, w0) ->
  Forall2 (edges_of (layer_id (rasterlayer (self w))) (bandmetadata (db w)))
    (seq 0 (length (bands ds))) (hist_bins (self w0)).
Proof.
  intros Hds. unfold create_initial_histogram_buckets, get_dataset, get_layer_id.
  unfold bind at 1, modify at 1. unfold bind at 1, modify at 1.
  unfold bind at 1. unfold bind at 1, read at 1. cbn [fst snd with_self self dataset
    set_hist_values set_hist_bins]. rewrite Hds. unfold ret at 1.
  unfold bind at 1. unfold bind at 1, read at 1, ret at 1.
  cbn [fst snd with_self self rasterlayer set_hist_values set_hist_bins].
  intros Hloop. rewrite <- enumerate_indices.
  pose (I := fun (done : list (nat * GDALBand)) (s : World) =>
    bandmetadata (db s) = bandmetadata (db w) /\
    Forall2 (edges_of (layer_id (rasterlayer (self w))) (bandmetadata (db w)))
      (map fst done) (hist_bins (self s))).
  refine (proj2 (for_each_returned I _ _ _ [] _ w0 _ Hloop)).
  - intros done [i band] s s' [Hrows Hdone]. unfold bind, read, modify. cbn.
    rewrite Hrows.
    destruct (first_bandmeta _ _ _) as [bandmeta|] eqn:Hfirst; cbn; [|discriminate].
    intros [= <-]. cbn. split; [exact Hrows|].
    rewrite map_app. apply Forall2_app; [exact Hdone|].
    constructor; [|constructor]. now exists bandmeta.
  - split; [reflexivity | constructor].
Qed.

Lemma store_hist_values_stored layer hv rows rows' :
  store_hist_values layer hv rows = (rows', None) -> Forall2 (stored layer hv) rows rows'.
Proof.
  revert rows'. induction rows as [|r rows IH]; intros rows'; cbn [store_hist_values].
  - intros [= <-]. constructor.
  - destruct (bm_rasterlayer r =? layer) eqn:Hl.
    + destruct (py_index hv (bm_band r)) as [h|] eqn:Hh; [|discriminate].
      destruct (store_hist_values layer hv rows) as [rest e]. intros [= <- ->].
      constructor; [|now apply IH]. unfold stored. rewrite Hl. eauto.
    + destruct (store_hist_values layer hv rows) as [rest e]. intros [= <- ->].
      constructor; [|now apply IH]. unfold stored. now rewrite Hl.
Qed.

(** The max zoom, when the level returns: the buckets are set up first
    ([w0]), the quadrants are tiled ([w1]) with the edges and the rows
    untouched, and only then the counts are stored. *)
Lemma populate_tile_level_at_max_zoom (w w' : World) (mz : Z) :
  max_zoom (self w) = Some mz ->
  populate_tile_level settings mz w = (Returned tt, w') ->
  exists w0 w1,
    create_initial_histogram_buckets w = (Returned tt, w0) /\
    tiling mz w0 w1 /\
    bandmetadata (db w1) = bandmetadata (db w) /\
    hist_bins (self w') = hist_bins (self w0) /\
    hist_values (self w') = hist_values (self w1) /\
    Forall2 (stored (layer_id (rasterlayer (self w))) (hist_values (self w1)))
      (bandmetadata (db w)) (bandmetadata (db w')).
Proof.
  intros Hmz. unfold populate_tile_level.
  rewrite (bind_returned _ _ _ _ _ (get_max_zoom_run w mz Hmz)).
  rewrite Z.gtb_ltb, Z.ltb_irrefl, Z.eqb_refl. cbn [when]. intros E.
  apply bind_returned_inv in E as ([] & w0 & Hcreate & E).
  exists w0.
  pose proof (create_initial_histogram_buckets_level_frame w) as Hf0.
  pose proof (create_initial_histogram_buckets_rows w) as Hr0.
  rewrite Hcreate in Hf0, Hr0. cbn in Hf0, Hr0. unfold level_frame in Hf0.
  unfold populate_quadrants in E.
  apply bind_returned_inv in E as (a & s1 & [= <- <-] & E).
  destruct (nr_of_tiles_run mz w0) as (n & Hn).
  rewrite (bind_returned _ _ _ _ _ Hn) in E.
  apply bind_returned_inv in E as ([] & s3 & Hlog & E).
  apply bind_returned_inv in E as ([] & w1 & Hgroup & E).
  exists w1.
  assert (Ht : tiling mz w0 w1).
  { transitivity s3.
    - match type of Hlog with
      | ?m w0 = _ =>
          pose proof (keeps_tiling mz m (log_tiler_frame _ _ _) (log_counts _ _ _) w0) as H
      end.
      now rewrite Hlog in H.
    - pose proof (respects_group_apply (tiling mz)
                    (fun indexrange => process_quadrant indexrange mz)
                    (quadrants (extent (rasterlayer (self w0)) (db w0)) mz)
                    (fun ir => process_quadrant_tiling ir mz) s3) as H.
      now rewrite Hgroup in H. }
  destruct Ht as (Hf & Hle & Hk). pose proof Hf as Hf'. unfold tiler_frame in Hf'.
  assert (Hmz1 : max_zoom (self w1) = Some mz) by congruence.
  rewrite (bind_returned _ _ _ _ _ (get_max_zoom_run w1 mz Hmz1)) in E.
  rewrite Z.eqb_refl in E. cbn [when] in E.
  apply bind_returned_inv in E as ([] & s6 & Hstore & Hlog').
  unfold store_histogram_data, bind, read, modify, ret, raise in Hstore. cbn in Hstore.
  destruct (store_hist_values _ _ _) as [rows [e|]] eqn:Hrows; [discriminate|].
  injection Hstore as <-.
  match type of Hlog' with
  | log ?msg ?st ?z ?s = _ =>
      pose proof (log_tiler_frame msg st z s) as Hfl;
      pose proof (log_counts msg st z s) as Hcl
  end.
  rewrite Hlog' in Hfl, Hcl. cbn in Hfl, Hcl. unfold tiler_frame in Hfl.
  unfold counts_of in Hcl. unfold same in *. cbn in Hfl, Hcl.
  split; [exact Hcreate|]. split; [now repeat split|].
  split; [congruence|]. split; [congruence|]. split; [exact Hcl|].
  apply store_hist_values_stored.
  replace (bandmetadata (db w')) with rows by congruence.
  rewrite <- Hrows. f_equal; congruence.
Qed.

(** *** Opening the raster file *)

Lemma with_calls_nil (w : World) : with_calls [] w = w.
Proof. destruct w. unfold with_calls. cbn. now rewrite app_nil_r. Qed.

Lemma with_calls_cons (c : Call) (cs : list Call) (w : World) :
  with_calls cs (with_call c w) = with_calls (c :: cs) w.
Proof. unfold with_calls, with_call. cbn. now rewrite <- app_assoc. Qed.

(** No candidate opens: every one was tried, and the dataset is as
    before. *)
Lemma open_first_none (source : File) (matches : list string) (w : World) :
  Forall (fails source) matches ->
  open_first source matches w = (Returned tt, with_calls (map (CallOpen source) matches) w).
Proof.
  intros H. revert w. induction H as [|m rest Hm _ IH]; intros w; cbn [open_first map].
  - now rewrite with_calls_nil.
  - unfold bind, modify. cbn. unfold fails in Hm. rewrite Hm, IH.
    now rewrite with_calls_cons.
Qed.

(** The first candidate that opens ends the loop: the ones before it were
    tried, the ones after it were not. *)
Lemma open_first_found (source : File) (pre post : list string) (m : string)
    (ds : GDALRaster) (w : World) :
  Forall (fails source) pre ->
  GDALRaster_open source m = Some ds ->
  open_first source (pre ++ m :: post) w
  = (Returned tt,
     with_self (set_dataset (Some ds)) (with_calls (map (CallOpen source) (pre ++ [m])) w)).
Proof.
  intros H Hm. revert w. induction H as [|c rest Hc _ IH]; intros w; cbn [open_first map app].
  - unfold bind, modify. cbn. rewrite Hm. reflexivity.
  - unfold bind, modify. cbn. unfold fails in Hc. rewrite Hc, IH.
    now rewrite with_calls_cons.
Qed.

Lemma first_that_opens (source : File) (matches : list string) :
  Forall (fails source) matches \/
  exists pre m post ds,
    matches = pre ++ m :: post /\ Forall (fails source) pre /\
    GDALRaster_open source m = Some ds.
Proof.
  induction matches as [|c rest IH]; [left; constructor|].
  destruct (GDALRaster_open source c) as [ds|] eqn:Hc.
  - right. exists [], c, rest, ds. repeat split; [constructor | exact Hc].
  - destruct IH as [IH|(pre & m & post & ds & -> & Hpre & Hm)].
    + left. now constructor.
    + right. exists (c :: pre), m, post, ds. repeat split; [now constructor | exact Hm].
Qed.

Lemma open_source_archive_none (source : File) (w : World)
    (walk : list (string * list string)) :
  let dir := mkdtemp (RASTER_WORKDIR settings) (ticks w) in
  basename (file_name source) <> EmptyString ->
  lower (splitext_ext (path_join dir (basename (file_name source)))) = ".zip" ->
  extract_and_walk dir source = Some walk ->
  Forall (fails source) (matched_files walk) ->
  open_source settings source w
  = (Raised (RasterException "Could not open rasterfile."),
     with_calls (map (CallOpen source) (matched_files walk)) (probing dir w)).
Proof.
  intros dir Hbase Hzip Hwalk Hnone. apply String.eqb_neq in Hbase.
  unfold open_source, bind, read, modify, lift, ret, raise.
  cbn -[open_first matched_files lower splitext_ext path_join basename String.eqb mkdtemp].
  fold dir. rewrite Hbase, Hzip, Hwalk.
  cbn -[open_first matched_files]. rewrite (open_first_none _ _ _ Hnone). reflexivity.
Qed.

Lemma open_source_archive_found (source : File) (w : World)
    (walk : list (string * list string)) (pre post : list string) (m : string)
    (ds : GDALRaster) :
  let dir := mkdtemp (RASTER_WORKDIR settings) (ticks w) in
  basename (file_name source) <> EmptyString ->
  lower (splitext_ext (path_join dir (basename (file_name source)))) = ".zip" ->
  extract_and_walk dir source = Some walk ->
  matched_files walk = pre ++ m :: post ->
  Forall (fails source) pre ->
  GDALRaster_open source m = Some ds ->
  open_source settings source w
  = (Returned tt,
     with_self (set_dataset (Some ds))
       (with_calls (map (CallOpen source) (pre ++ [m])) (probing dir w))).
Proof.
  intros dir Hbase Hzip Hwalk Hsplit Hpre Hm. apply String.eqb_neq in Hbase.
  unfold open_source, bind, read, modify, lift, ret, raise.
  cbn -[open_first matched_files lower splitext_ext path_join basename String.eqb mkdtemp].
  fold dir. rewrite Hbase, Hzip, Hwalk.
  cbn -[open_first matched_files]. rewrite Hsplit.
  rewrite (open_first_found _ _ _ _ _ _ Hpre Hm). reflexivity.
Qed.

(** The extension of a path is that of its last component, and a path
    that ends in a slash has none. *)
Lemma basename_from_slash (acc p : string) :
  basename_from acc (p ++ "/") = EmptyString.
Proof.
  revert acc. induction p as [|c p IH]; intros acc; cbn.
  - reflexivity.
  - destruct (ascii_is c "/"); apply IH.
Qed.

Lemma ends_with_slash_app (p : string) :
  ends_with_slash p = true -> exists q, p = (q ++ "/")%string.
Proof.
  induction p as [|c p IH]; [discriminate|]. cbn. destruct p as [|d p].
  - intros H. apply Ascii.eqb_eq in H. subst c. now exists EmptyString.
  - intros H. destruct (IH H) as (q & Hq). exists (String c q). cbn. now rewrite Hq.
Qed.

Lemma no_extension_without_name (dir : string) :
  splitext_ext (path_join dir EmptyString) = EmptyString.
Proof.
  unfold splitext_ext, path_join, basename.
  destruct (String.eqb dir EmptyString) eqn:Hd; cbn [orb].
  - apply String.eqb_eq in Hd. subst dir. reflexivity.
  - destruct (ends_with_slash dir) eqn:Hs.
    + destruct (ends_with_slash_app dir Hs) as (q & ->).
      now rewrite basename_from_slash.
    + now rewrite basename_from_slash.
Qed.

Lemma archive_has_name (dir : string) (source : File) :
  lower (splitext_ext (path_join dir (basename (file_name source)))) = ".zip" ->
  basename (file_name source) <> EmptyString.
Proof.
  intros Hzip Hbase. rewrite Hbase, no_extension_without_name in Hzip. discriminate.
Qed.

End ParserFacts.

Section Raises.
Context {St : Type} (P : exn -> Prop).

Lemma raises_only_ret {A} (a : A) : raises_only (St := St) P (ret a).
Proof. intros s e [=]. Qed.

Lemma raises_only_read : raises_only (St := St) P read.
Proof. intros s e [=]. Qed.

Lemma raises_only_modify (f : St -> St) : raises_only P (modify f).
Proof. intros s e [=]. Qed.

Lemma raises_only_raise {A} e : P e -> raises_only (St := St) (A := A) P (raise e).
Proof. intros H s e' [= <-]. exact H. Qed.

Lemma raises_only_lift {A} (o : outcome A) :
  (forall e, o = Raised e -> P e) -> raises_only (St := St) P (lift o).
Proof. intros H s e E. apply H, E. Qed.

Lemma raises_only_bind {A B} (m : Py St A) (k : A -> Py St B) :
  raises_only P m -> (forall a, raises_only P (k a)) -> raises_only P (bind m k).
Proof.
  intros Hm Hk s e. unfold bind. specialize (Hm s).
  destruct (m s) as [[a|e'] s1]; cbn in *.
  - apply Hk.
  - intros [= <-]. now apply Hm.
Qed.

Lemma raises_only_when (c : bool) (m : Py St unit) :
  raises_only P m -> raises_only P (when c m).
Proof. intros H. destruct c; [exact H | apply raises_only_ret]. Qed.

Lemma raises_only_for_each {B} (l : list B) (body : B -> Py St unit) :
  (forall x, raises_only P (body x)) -> raises_only P (for_each l body).
Proof.
  intros H. induction l as [|x l IH]; cbn [for_each].
  - apply raises_only_ret.
  - apply raises_only_bind; [apply H | intros _; exact IH].
Qed.

End Raises.

Ltac raises_step :=
  first
    [ apply raises_only_ret
    | apply raises_only_read
    | apply raises_only_modify
    | apply raises_only_raise; exact I
    | apply raises_only_when
    | apply raises_only_bind; [ | intros ? ]
    | apply raises_only_for_each; intros ?
    | apply raises_only_lift; intros ? ?; unfold or_raise in *;
      repeat match goal with
             | H : context [match ?x with _ => _ end] |- _ => destruct x
             end;
      first [discriminate | match goal with H : _ = Raised _ |- _ => injection H as <-; exact I end]
    | match goal with
      | |- raises_only _ (match ?x with _ => _ end) => destruct x
      end
    | progress cbv beta zeta ].

Ltac raises := repeat raises_step.

Section OpeningFacts.
Context {gdal : GDAL} {const : TilesConst} {grid : TileGrid} {platform : Platform}.
Context (settings : Settings).

Lemma open_raster_file_phases (w : World) :
  open_raster_file settings w
  = match open_source settings (working_source w) (entered w) with
    | (Returned _, w1) =>
        ((when (created_now w) extract_metadata ;;; reproject) ;;; apply_nodata) w1
    | (Raised e, w1) => (Raised e, w1)
    end.
Proof.
  unfold open_raster_file, open_and_reproject, entered, working_source,
    current_reprojected, created_now, get_or_create_reprojected.
  unfold bind, read, ret, modify.
  destruct (reprojected (db w)) as [r|]; cbn [fst snd];
    destruct (open_source settings _ _) as [[[]|e] w1]; reflexivity.
Qed.

Lemma extract_metadata_raises : raises_only not_the_parsers extract_metadata.
Proof. unfold extract_metadata, log, get_dataset, get_layer_id. raises. Qed.

Lemma reproject_raises : raises_only not_the_parsers reproject.
Proof.
  unfold reproject, log, get_dataset, get_tmpdir, temp_name. raises.
Qed.

Lemma apply_nodata_raises : raises_only not_the_parsers apply_nodata.
Proof.
  unfold apply_nodata, assign_nodata, get_dataset, py_float. raises.
Qed.

Lemma entered_ticks (w : World) : ticks (entered w) = ticks w.
Proof.
  unfold entered, get_or_create_reprojected, bind, read, ret, modify. cbn.
  destruct (reprojected (db w)); reflexivity.
Qed.

Lemma entered_calls (w : World) : calls (entered w) = calls w.
Proof.
  unfold entered, get_or_create_reprojected, bind, read, ret, modify. cbn.
  destruct (reprojected (db w)); reflexivity.
Qed.

Lemma finish_raises (created : bool) :
  raises_only not_the_parsers
    ((when created extract_metadata ;;; reproject) ;;; apply_nodata).
Proof.
  apply raises_only_bind; [apply raises_only_bind|].
  - apply raises_only_when, extract_metadata_raises.
  - intros _. apply reproject_raises.
  - intros _. apply apply_nodata_raises.
Qed.

(** C6: for a source that is a zip archive, the extracted candidates are
    tried in order up to the first one that opens as a raster, which
    becomes the dataset, and [open_raster_file] raises its
    [RasterException] if and only if no candidate opens. *)
Theorem open_raster_file_archive (w : World) (walk : list (string * list string)) :
  let source := working_source w in
  let dir := mkdtemp (RASTER_WORKDIR settings) (ticks w) in
  lower (splitext_ext (path_join dir (basename (file_name source)))) = ".zip" ->
  extract_and_walk dir source = Some walk ->
  let candidates := matched_files walk in
  let opened := open_source settings source (entered w) in
  (forall pre m post ds,
     candidates = pre ++ m :: post ->
     Forall (fails source) pre ->
     GDALRaster_open source m = Some ds ->
     fst opened = Returned tt /\
     dataset (self (snd opened)) = Some ds /\
     calls (snd opened) = calls w ++ map (CallOpen source) (pre ++ [m])) /\
  (Forall (fails source) candidates ->
   calls (snd opened) = calls w ++ map (CallOpen source) candidates /\
   open_raster_file settings w = opened) /\
  ((exists msg, fst (open_raster_file settings w) = Raised (RasterException msg))
   <-> Forall (fails source) candidates).
Proof.
  intros source dir Hzip Hwalk candidates opened.
  pose proof (archive_has_name dir source Hzip) as Hbase.
  assert (Hdir : dir = mkdtemp (RASTER_WORKDIR settings) (ticks (entered w)))
    by (unfold dir; now rewrite entered_ticks).
  clearbody dir. subst dir.
  assert (Hfound : forall pre m post ds,
             candidates = pre ++ m :: post ->
             Forall (fails source) pre ->
             GDALRaster_open source m = Some ds ->
             opened = (Returned tt,
                       with_self (set_dataset (Some ds))
                         (with_calls (map (CallOpen source) (pre ++ [m]))
                            (probing (mkdtemp (RASTER_WORKDIR settings) (ticks (entered w)))
                               (entered w))))).
  { intros pre m post ds Hsplit Hpre Hm. subst opened.
    exact (open_source_archive_found settings source (entered w) walk pre post m ds
             Hbase Hzip Hwalk Hsplit Hpre Hm). }
  assert (Hnone : Forall (fails source) candidates ->
            opened = (Raised (RasterException "Could not open rasterfile."),
                      with_calls (map (CallOpen source) candidates)
                        (probing (mkdtemp (RASTER_WORKDIR settings) (ticks (entered w)))
                           (entered w)))).
  { intros Hall. subst opened.
    exact (open_source_archive_none settings source (entered w) walk
             Hbase Hzip Hwalk Hall). }
  split; [|split; [|split]].
  - intros pre m post ds Hsplit Hpre Hm.
    rewrite (Hfound pre m post ds Hsplit Hpre Hm). cbn.
    repeat split. now rewrite entered_calls.
  - intros Hall. rewrite open_raster_file_phases. fold source. fold opened.
    rewrite (Hnone Hall). cbn. split; [now rewrite entered_calls | reflexivity].
  - intros (msg & Hraise).
    destruct (first_that_opens source candidates)
      as [Hall|(pre & m & post & ds & Hsplit & Hpre & Hm)]; [exact Hall|].
    exfalso. rewrite open_raster_file_phases in Hraise. fold source in Hraise.
    fold opened in Hraise. rewrite (Hfound pre m post ds Hsplit Hpre Hm) in Hraise.
    exact (finish_raises (created_now w) _ _ Hraise).
  - intros Hall. rewrite open_raster_file_phases. fold source. fold opened.
    rewrite (Hnone Hall). cbn. eauto.
Qed.

(** Whatever the source is, opening it leaves the database alone, calls
    nothing but [GDALRaster] on paths of that source, and returns with a
    dataset that one of these calls gave. *)
Lemma open_source_effect (source : File) (w : World) :
  let r := open_source settings source w in
  db (snd r) = db w /\
  (exists paths, calls (snd r) = calls w ++ map (CallOpen source) paths) /\
  (fst r = Returned tt ->
   exists path ds,
     GDALRaster_open source path = Some ds /\ dataset (self (snd r)) = Some ds).
Proof.
  unfold open_source, bind, read, modify, lift, ret, raise.
  cbn -[open_first matched_files lower splitext_ext path_join basename String.eqb mkdtemp].
  set (dir := mkdtemp (RASTER_WORKDIR settings) (ticks w)).
  destruct (String.eqb (basename (file_name source)) EmptyString).
  { cbn. split; [reflexivity|]. split; [|intros [=]]. exists []. cbn. now rewrite app_nil_r. }
  destruct (String.eqb (lower (splitext_ext _)) ".zip").
  - destruct (extract_and_walk dir source) as [walk|]; cbn -[open_first matched_files].
    2:{ split; [reflexivity|]. split; [|intros [=]]. exists []. cbn. now rewrite app_nil_r. }
    destruct (first_that_opens source (matched_files walk))
      as [Hall|(pre & m & post & ds & Hsplit & Hpre & Hm)].
    + rewrite (open_first_none _ _ _ Hall). cbn.
      split; [reflexivity|]. split; [eauto | intros [=]].
    + rewrite Hsplit, (open_first_found _ _ _ _ _ _ Hpre Hm). cbn.
      split; [reflexivity|]. split; [eauto | intros _; eauto].
  - destruct (GDALRaster_open source _) as [ds|] eqn:Hopen; cbn.
    + split; [reflexivity|]. split; [|intros _; eauto].
      eexists [_]. reflexivity.
    + split; [reflexivity|]. split; [|intros [=]].
      eexists [_]. reflexivity.
Qed.

Lemma apply_nodata_cache_and_calls : keeps cache_and_calls apply_nodata.
Proof. unfold apply_nodata, assign_nodata. frame. Qed.

(** C4: when the reprojected row of the layer already holds a raster file
    that opens in web mercator, [open_raster_file] works from that file:
    every call it makes opens a path of the cached file, the
    transformation is not called, and the row is left as it was. *)
Theorem open_raster_file_reuses_cache (w : World) (r : RasterLayerReprojected) :
  reprojected (db w) = Some r ->
  file_bool (reproj_rasterfile r) = true ->
  (forall path ds,
     GDALRaster_open (reproj_rasterfile r) path = Some ds ->
     exists s, srs ds = Some s /\ srid s = Some WEB_MERCATOR_SRID) ->
  let w' := snd (open_raster_file settings w) in
  working_source w = reproj_rasterfile r /\
  reprojected (db w') = Some r /\
  exists paths, calls w' = calls w ++ map (CallOpen (reproj_rasterfile r)) paths.
Proof.
  intros Hrow Hfile Hmercator w'.
  assert (Hsource : working_source w = reproj_rasterfile r).
  { unfold working_source, current_reprojected, choose_source. now rewrite Hrow, Hfile. }
  assert (Hentered : entered w = w).
  { unfold entered, get_or_create_reprojected, bind, read, ret. cbn. now rewrite Hrow. }
  split; [exact Hsource|]. subst w'.
  rewrite open_raster_file_phases, Hsource, Hentered.
  unfold created_now. rewrite Hrow. cbn [when].
  destruct (open_source_effect (reproj_rasterfile r) w) as (Hdb & (paths & Hcalls) & Hds).
  destruct (open_source settings (reproj_rasterfile r) w) as [[[]|e] w1]; cbn [fst snd] in *.
  2:{ split; [now rewrite Hdb | eauto]. }
  destruct (Hds eq_refl) as (path & ds & Hopen & Hset).
  destruct (Hmercator path ds Hopen) as (s & Hsrs & Hsrid).
  assert (Hrep : (ret tt ;;; reproject) w1 = (Returned tt, w1)).
  { unfold reproject, get_dataset, bind, read, ret, lift, when. cbn.
    rewrite Hset. cbn. rewrite Hsrs. cbn. unfold srid_is. rewrite Hsrid, Z.eqb_refl.
    reflexivity. }
  rewrite (bind_returned _ _ _ _ _ Hrep).
  pose proof (apply_nodata_cache_and_calls w1) as Hkeep.
  unfold same, cache_and_calls in Hkeep.
  split; [|exists paths]; congruence.
Qed.

Lemma set_dataset_id (w : World) (ds : GDALRaster) :
  dataset (self w) = Some ds -> with_self (set_dataset (Some ds)) w = w.
Proof. destruct w as [[] ? ? ?]. cbn. now intros ->. Qed.

Lemma set_bands_id (ds : GDALRaster) : set_bands (bands ds) ds = ds.
Proof. now destruct ds. Qed.

(** The loop of lines 152-153, from the band at position [length done]
    on. *)
Lemma assign_nodata_loop (x : Q) (ds : GDALRaster) (todo done : list GDALBand) (w : World) :
  dataset (self w) = Some (set_bands (done ++ todo) ds) ->
  for_each (seq (length done) (length todo))
    (fun i => v <- lift (Returned x) ;; assign_nodata i v) w
  = (Returned tt,
     with_self (set_dataset
       (Some (set_bands (done ++ map (set_band_nodata (Some x)) todo) ds))) w).
Proof.
  revert done w. induction todo as [|b todo IH]; intros done w Hds; cbn [length seq for_each map].
  - unfold ret. now rewrite (set_dataset_id w _ Hds).
  - unfold bind at 1. unfold bind at 1, lift at 1.
    unfold assign_nodata, get_dataset, bind, read, ret, modify. cbn -[for_each].
    rewrite Hds. cbn -[for_each].
    replace (alter (set_band_nodata (Some x)) (length done) (done ++ b :: todo))
      with ((done ++ [set_band_nodata (Some x) b]) ++ todo).
    2:{ rewrite <- (Nat.add_0_r (length done)), alter_app_r. cbn.
        now rewrite <- app_assoc. }
    replace (S (length done)) with (length (done ++ [set_band_nodata (Some x) b]))
      by (rewrite length_app; cbn; lia).
    rewrite IH by reflexivity. cbn. now rewrite <- app_assoc.
Qed.

Lemma open_first_layer source matches : keeps layer_of (open_first source matches).
Proof.
  induction matches as [|m rest IH]; cbn [open_first]; frame.
Qed.

#[local] Hint Resolve open_first_layer : frames.

Lemma open_and_reproject_layer : keeps layer_of (open_and_reproject settings).
Proof.
  unfold open_and_reproject, get_or_create_reprojected, open_source, extract_metadata,
    reproject, log, get_dataset, get_tmpdir, get_layer_id, temp_name.
  frame.
Qed.

(** C10: the nodata override of the layer counts as unset only when it is
    the empty string or [None].  Unset, [open_raster_file] ends with the
    dataset as it was opened and reprojected; set, every band of that
    dataset gets the override as a float for its nodata value, and the
    number 0, falsy as it is, is such an override. *)
Theorem nodata_override (w w1 : World) :
  open_and_reproject settings w = (Returned tt, w1) ->
  let v := nodata (rasterlayer (self w)) in
  (nodata_is_unset v = true <-> v = PyNone \/ v = PyStr EmptyString) /\
  (nodata_is_unset v = true -> open_raster_file settings w = (Returned tt, w1)) /\
  (nodata_is_unset v = false ->
   forall ds x,
     dataset (self w1) = Some ds ->
     py_float v = Returned x ->
     open_raster_file settings w
     = (Returned tt,
        with_self (set_dataset
          (Some (set_bands (map (set_band_nodata (Some x)) (bands ds)) ds))) w1)) /\
  nodata_is_unset (PyInt 0) = false /\
  py_float (PyInt 0) = Returned 0%Q.
Proof.
  intros Hopen v.
  assert (Hlayer : nodata (rasterlayer (self w1)) = v).
  { pose proof (open_and_reproject_layer w) as H. rewrite Hopen in H.
    unfold same, layer_of in H. cbn in H. subst v. now rewrite H. }
  split; [|split; [|split; [|split]]].
  - destruct v as [| | | |s]; cbn; split; try discriminate; try tauto.
    + intros [H|H]; discriminate.
    + intros [H|H]; discriminate.
    + intros [H|H]; discriminate.
    + intros H. apply String.eqb_eq in H. subst s. now right.
    + intros [H|H]; [discriminate|]. injection H as ->. reflexivity.
  - intros Hunset. unfold open_raster_file.
    rewrite (bind_returned _ _ _ _ _ Hopen).
    unfold apply_nodata, bind, read, when. cbn. rewrite Hlayer, Hunset. reflexivity.
  - intros Hset ds x Hds Hfloat. unfold open_raster_file.
    rewrite (bind_returned _ _ _ _ _ Hopen).
    unfold apply_nodata. unfold bind at 1, read at 1. cbn [fst snd].
    rewrite Hlayer, Hset. cbn [negb when].
    unfold bind at 1. unfold get_dataset at 1, bind at 1, read at 1. rewrite Hds.
    unfold ret at 1. rewrite Hfloat.
    apply (assign_nodata_loop x ds (bands ds) [] w1).
    cbn. now rewrite set_bands_id.
  - reflexivity.
  - reflexivity.
Qed.

End OpeningFacts.

(** ** Dropping empty tiles *)

Lemma drop_empty_tiles_rows {platform : Platform} (w : World) :
  fst (drop_empty_tiles w) = Returned tt /\
  rastertiles (db (snd (drop_empty_tiles w)))
  = List.filter (fun t => negb (is_dropped (layer_id (rasterlayer (self w))) t))
      (rastertiles (db w)).
Proof. split; reflexivity. Qed.

Lemma filter_none_length {A} (p : A -> bool) (l : list A) :
  length (List.filter p l) = 0%nat <-> Forall (fun x => p x = false) l.
Proof.
  induction l as [|x l IH]; cbn [List.filter].
  - split; [constructor | reflexivity].
  - destruct (p x) eqn:Hp.
    + split; [discriminate | intros H; inversion H; congruence].
    + rewrite IH. split; [now constructor | now inversion 1].
Qed.

(** What the query deletes: the tiles of the layer whose first band is
    nodata, whatever the other bands hold. *)
Lemma is_dropped_first_band (layer : Z) (t : RasterTile) :
  is_dropped layer t = true <->
  rasterlayer_id t = layer /\
  exists b rest, tile_bands (rast t) = b :: rest /\ band_is_nodata b.
Proof.
  unfold is_dropped, ST_Count, band_is_nodata.
  destruct (tile_bands (rast t)) as [|b rest].
  - split; [discriminate | intros (_ & b & rest & [=] & _)].
  - rewrite andb_true_iff, Z.eqb_eq, Z.eqb_eq.
    rewrite <- Nat2Z.inj_0, Nat2Z.inj_iff, filter_none_length.
    split.
    + intros [Hnone Hid]. split; [exact Hid|]. exists b, rest. split; [reflexivity|].
      eapply Forall_impl; [exact Hnone|]. cbn. intros v Hv.
      destruct (data_nodata_value b); [now apply negb_false_iff | discriminate].
    + intros (Hid & b' & rest' & [= <- <-] & Hall). split; [|exact Hid].
      eapply Forall_impl; [exact Hall|]. cbn. intros v Hv.
      destruct (data_nodata_value b); [now apply negb_false_iff | contradiction].
Qed.

(** On single-band tiles the query deletes the empty tiles of the layer
    and no others. *)
Lemma is_dropped_single_band (layer : Z) (t : RasterTile) (b : BandData) :
  tile_bands (rast t) = [b] ->
  (is_dropped layer t = true <-> rasterlayer_id t = layer /\ entirely_nodata t).
Proof.
  intros Hb. rewrite is_dropped_first_band. unfold entirely_nodata. rewrite Hb. split.
  - intros (Hid & b' & rest & [= <- <-] & Hnd). split; [exact Hid | now constructor].
  - intros (Hid & Hall). split; [exact Hid|]. exists b, []. split; [reflexivity|].
    now inversion Hall.
Qed.

(** C5, as the code has it: of two two-band tiles of the layer,
    [drop_empty_tiles] deletes the one whose first band is all nodata,
    although its second band holds a pixel with data, and keeps the one with
    data in the first band. *)
Theorem drop_empty_tiles_first_band_only :
  rastertiles (db Demo.two_band_tiles) = [Demo.hollow_tile; Demo.valid_tile] /\
  rastertiles (db (snd (drop_empty_tiles (platform := Demo.platform) Demo.two_band_tiles)))
  = [Demo.valid_tile] /\
  rasterlayer_id Demo.hollow_tile = layer_id (rasterlayer (self Demo.two_band_tiles)) /\
  ~ entirely_nodata Demo.hollow_tile.
Proof.
  split; [reflexivity|]. split; [reflexivity|]. split; [reflexivity|].
  unfold entirely_nodata. cbn. intros H.
  inversion H as [|? ? _ H2]; subst. inversion H2 as [|? ? Hband _]; subst.
  unfold band_is_nodata in Hband. cbn in Hband.
  inversion Hband as [|? ? Hpixel _]; subst. discriminate Hpixel.
Qed.

(** ** The TMS view *)

Lemma upper_lower_ascii (c : ascii) : upper_ascii (lower_ascii c) = upper_ascii c.
Proof. destruct c as [[] [] [] [] [] [] [] []]; reflexivity. Qed.

Lemma upper_upper_ascii (c : ascii) : upper_ascii (upper_ascii c) = upper_ascii c.
Proof. destruct c as [[] [] [] [] [] [] [] []]; reflexivity. Qed.

Lemma upper_lower (s : string) : upper (lower s) = upper s.
Proof. induction s as [|c s IH]; cbn; [reflexivity | now rewrite upper_lower_ascii, IH]. Qed.

Lemma upper_upper (s : string) : upper (upper s) = upper s.
Proof. induction s as [|c s IH]; cbn; [reflexivity | now rewrite upper_upper_ascii, IH]. Qed.

Lemma find_ext {A} (p q : A -> bool) (l : list A) :
  (forall x, p x = q x) -> List.find p l = List.find q l.
Proof.
  intros H. induction l as [|x l IH]; cbn; [reflexivity | now rewrite H, IH].
Qed.

Lemma str_in_In (x : string) (l : list string) : str_in x l = true <-> In x l.
Proof.
  unfold str_in. rewrite existsb_exists. split.
  - intros (y & Hy & E). apply String.eqb_eq in E. now subst.
  - intros H. exists x. split; [exact H | apply String.eqb_refl].
Qed.

Lemma dict_set_int_keys (i : Z) (v : Json) (c : Colormap) :
  Forall is_int_key c -> Forall is_int_key (dict_set (KeyInt i) v c).
Proof.
  induction 1 as [|[k v'] c Hk Hc IH]; cbn.
  - constructor; [now exists i | constructor].
  - destruct Hk as (j & Hj). cbn in Hj.
    destruct (key_eqb k (KeyInt i)); constructor;
      first [exists j; exact Hj | assumption].
Qed.

Section ViewFacts.
Context {web : Web}.

Lemma int_keys_int_keys (items : list (string * Json)) (acc c : Colormap) :
  Forall is_int_key acc -> TmsView.int_keys items acc = Returned c -> Forall is_int_key c.
Proof.
  revert acc. induction items as [|[k v] items IH]; intros acc Hacc; cbn.
  - now intros [= <-].
  - destruct (int_of_str k) as [i|]; [|discriminate].
    apply IH. now apply dict_set_int_keys.
Qed.

(** C7: an inline colormap of the request is parsed, with integer keys,
    and used whatever legends there are; without one, a legend named in the
    request is looked up by its title, letter case apart, and without that
    the legend of the layer is taken; the colormap of the legend is cut down
    to the requested entries, compared as strings with its keys. *)
Theorem colormap_precedence (site : Site) (request : Request) (lyr : RasterLayer) :
  (forall clmp,
     truthy_param "colormap" (GET request) = Some clmp ->
     TmsView.get_colormap site request lyr
     = (c <-! TmsView.parse_colormap clmp ;; Returned (Some c)) /\
     (forall c, TmsView.parse_colormap clmp = Returned c -> Forall is_int_key c) /\
     (forall site' lyr',
        TmsView.get_colormap site' request lyr' = TmsView.get_colormap site request lyr)) /\
  (truthy_param "colormap" (GET request) = None ->
   (forall q,
      truthy_param "legend" (GET request) = Some q ->
      TmsView.get_colormap site request lyr
      = Returned (option_map (legend_colormap request) (TmsView.legend_by_title site q))) /\
   (truthy_param "legend" (GET request) = None ->
    TmsView.get_colormap site request lyr
    = Returned (option_map (legend_colormap request) (layer_legend lyr)))) /\
  (forall q,
     match TmsView.legend_by_title site q with
     | Some l => In l (legend_table site) /\ upper (title l) = upper q
     | None => forall l, In l (legend_table site) -> upper (title l) <> upper q
     end /\
     TmsView.legend_by_title site (upper q) = TmsView.legend_by_title site q /\
     TmsView.legend_by_title site (lower q) = TmsView.legend_by_title site q) /\
  (forall entries c k v,
     In (k, v) (TmsView.filter_entries entries c)
     <-> In (k, v) c /\ In (str_of_key k) entries).
Proof.
  split; [|split; [|split]].
  - intros clmp Hinline.
    assert (Hany : forall site0 lyr0,
               TmsView.get_colormap site0 request lyr0
               = (c <-! TmsView.parse_colormap clmp ;; Returned (Some c))).
    { intros site0 lyr0. unfold TmsView.get_colormap. now rewrite Hinline. }
    split; [apply Hany|]. split.
    + unfold TmsView.parse_colormap. intros c.
      destruct (json_loads clmp) as [[| | | | |members]|]; cbn; try discriminate.
      apply int_keys_int_keys. constructor.
    + intros site' lyr'. now rewrite !Hany.
  - intros Hnone. unfold TmsView.get_colormap, legend_colormap. rewrite Hnone. split.
    + intros q Hq. rewrite Hq.
      destruct (TmsView.legend_by_title site q); cbn;
        destruct (truthy_param "entries" (GET request)); reflexivity.
    + intros Hq. rewrite Hq.
      destruct (layer_legend lyr); cbn;
        destruct (truthy_param "entries" (GET request)); reflexivity.
  - intros q. unfold TmsView.legend_by_title. split; [|split].
    + destruct (List.find _ _) as [l|] eqn:Hfind.
      * apply find_some in Hfind as [Hin Hmatch]. split; [exact Hin|].
        now apply String.eqb_eq in Hmatch.
      * intros l Hin Heq. pose proof (find_none _ _ Hfind l Hin) as Hno.
        unfold iexact in Hno. cbn in Hno. rewrite Heq, String.eqb_refl in Hno. discriminate.
    + apply find_ext. intros l. unfold iexact. now rewrite upper_upper.
    + apply find_ext. intros l. unfold iexact. now rewrite upper_lower.
  - intros entries c k v. unfold TmsView.filter_entries.
    rewrite filter_In. cbn. now rewrite str_in_In.
Qed.

(** What [get] does once it has the image, with a format that is
    registered: it answers with what PIL wrote, or ends in the [IOError]
    of a refused image. *)
Lemma save_image_written (img : Image) (format : string) (written : list Byte.byte) :
  Image_save img format = Some written ->
  (written <-! or_raise IOError (Image_save img format) ;;
   Returned (mkHttpResponse 200 format written))
  = Returned (mkHttpResponse 200 format written).
Proof. intros ->. reflexivity. Qed.

Lemma save_image_refused (img : Image) (format : string) :
  Image_save img format = None ->
  (written <-! or_raise IOError (Image_save img format) ;;
   Returned (mkHttpResponse 200 format written))
  = Raised IOError.
Proof. intros ->. reflexivity. Qed.

(** A request that gets the empty image: [get] is the saving of it. *)
Lemma tms_get_empty_image (site : Site) (request : Request) (lyr : RasterLayer)
    (c : option Colormap) (format : string) :
  TmsView.get_layer site request = Returned lyr ->
  TmsView.get_colormap site request lyr = Returned c ->
  IMG_FORMATS (kw_format request) = Some format ->
  TmsView.find_tiles site request lyr = [] \/ TmsView.colormap_bool c = false ->
  TmsView.get site request
  = (written <-! or_raise IOError
                   (Image_save (Image_new "RGBA" (256, 256) (0, 0, 0, 0)) format) ;;
     Returned (mkHttpResponse 200 format written)).
Proof.
  intros Hlayer Hcolormap Hformat Hmissing.
  unfold TmsView.get, TmsView.get_format. rewrite Hlayer. cbn [outcome_bind].
  rewrite Hcolormap, Hformat. cbn [outcome_bind or_raise].
  destruct Hmissing as [Hnone|Hfalsy].
  - rewrite Hnone. reflexivity.
  - destruct (TmsView.find_tiles site request lyr) as [|t ts]; [reflexivity|].
    destruct c as [c|]; [|reflexivity]. rewrite Hfalsy. reflexivity.
Qed.

(** C8, as amended: for a request whose layer exists, whose colormap
    resolves without an exception and whose format is one of
    [IMG_FORMATS], the image that the view saves in that format is a fully
    transparent 256 x 256 RGBA image when no tile record matches the index
    or when the colormap is absent or empty.  When PIL writes the image,
    the view answers with status 200 and with what PIL wrote; when PIL
    refuses the image in that format, the view ends in the [IOError] of
    PIL and gives no answer. *)
Theorem tms_get_transparent (site : Site) (request : Request) (lyr : RasterLayer)
    (c : option Colormap) (format : string) :
  TmsView.get_layer site request = Returned lyr ->
  TmsView.get_colormap site request lyr = Returned c ->
  IMG_FORMATS (kw_format request) = Some format ->
  TmsView.find_tiles site request lyr = [] \/ TmsView.colormap_bool c = false ->
  exists img,
    transparent img /\
    (forall written,
       Image_save img format = Some written ->
       TmsView.get site request = Returned (mkHttpResponse 200 format written)) /\
    (Image_save img format = None -> TmsView.get site request = Raised IOError).
Proof.
  intros Hlayer Hcolormap Hformat Hmissing.
  pose proof (tms_get_empty_image site request lyr c format
                Hlayer Hcolormap Hformat Hmissing) as Hget.
  exists (Image_new "RGBA" (256, 256) (0, 0, 0, 0)).
  split; [now repeat split|]. split.
  - intros written Hsave. rewrite Hget. now apply save_image_written.
  - intros Hsave. rewrite Hget. now apply save_image_refused.
Qed.

End ViewFacts.

(** ** The parse log *)

Lemma insert_sorted_perm (z : Z) (l : list Z) : Permutation (z :: l) (insert_sorted z l).
Proof.
  induction l as [|x l IH]; cbn; [reflexivity|].
  destruct (z <? x); [reflexivity|].
  rewrite perm_swap. now constructor.
Qed.

Lemma sort_levels_perm (l : list Z) : Permutation l (sort_levels l).
Proof.
  induction l as [|x l IH]; cbn; [reflexivity|].
  rewrite <- insert_sorted_perm. now constructor.
Qed.

Lemma insert_sorted_sorted (z : Z) (l : list Z) :
  Sorted Z.le l -> Sorted Z.le (insert_sorted z l).
Proof.
  induction 1 as [|x l Hl IH Hx]; cbn.
  - repeat constructor.
  - destruct (z <? x) eqn:Hzx.
    + apply Z.ltb_lt in Hzx. constructor; [now constructor|]. constructor. lia.
    + apply Z.ltb_ge in Hzx. constructor; [exact IH|].
      destruct l as [|y l]; cbn.
      * constructor. exact Hzx.
      * destruct (z <? y); constructor; [exact Hzx|]. now inversion Hx.
Qed.

Lemma sort_levels_sorted (l : list Z) : Sorted Z.le (sort_levels l).
Proof.
  induction l as [|x l IH]; cbn; [constructor | now apply insert_sorted_sorted].
Qed.

Lemma existsb_eqb_In (z : Z) (l : list Z) : existsb (Z.eqb z) l = true <-> In z l.
Proof.
  rewrite existsb_exists. split.
  - intros (x & Hx & E). apply Z.eqb_eq in E. now subst.
  - intros H. exists z. split; [exact H | apply Z.eqb_refl].
Qed.

Section LogFacts.
Context {platform : Platform}.

Lemma log_levels msg st z w :
  levels_of (snd (log msg st (Some z) w))
  = if existsb (Z.eqb z) (levels_of w) then levels_of w
    else sort_levels (levels_of w ++ [z]).
Proof. reflexivity. Qed.

(** X1: a level that is logged is among the tile levels afterwards.  A
    level that was there already leaves the list as it is; a new one is
    added once, and the list is sorted then, as lines 47-49 have it.
    Logging the same level again changes nothing, and neither does an
    entry without a level. *)
Theorem log_tile_levels (msg : string) (st : option Status) (z : Z) (w : World) :
  let w' := snd (log msg st (Some z) w) in
  In z (levels_of w') /\
  (In z (levels_of w) -> levels_of w' = levels_of w) /\
  (~ In z (levels_of w) ->
   Permutation (z :: levels_of w) (levels_of w') /\ Sorted Z.le (levels_of w')) /\
  (forall msg' st', levels_of (snd (log msg' st' (Some z) w')) = levels_of w') /\
  (forall msg' st', levels_of (snd (log msg' st' None w)) = levels_of w).
Proof.
  intros w'. subst w'. rewrite log_levels.
  assert (Hin : In z (if existsb (Z.eqb z) (levels_of w) then levels_of w
                      else sort_levels (levels_of w ++ [z]))).
  { destruct (existsb _ _) eqn:E; [now apply existsb_eqb_In|].
    eapply Permutation_in; [apply sort_levels_perm|]. apply in_or_app. right. now left. }
  split; [exact Hin|]. split; [|split; [|split]].
  - intros H. apply existsb_eqb_In in H. now rewrite H.
  - intros H. destruct (existsb _ _) eqn:E; [apply existsb_eqb_In in E; contradiction|].
    split; [|apply sort_levels_sorted].
    rewrite <- sort_levels_perm. rewrite Permutation_app_comm. reflexivity.
  - intros msg' st'. rewrite log_levels.
    apply existsb_eqb_In in Hin.
    match goal with |- (if ?c then _ else _) = _ => replace c with true end.
    reflexivity.
  - reflexivity.
Qed.

End LogFacts.

(** ** What no method does *)

Lemma append_empty (s : string) : (s ++ "")%string = s.
Proof. induction s as [|c s IH]; cbn; [reflexivity | now rewrite IH]. Qed.

Lemma append_assoc_string (a b c : string) : ((a ++ b) ++ c)%string = (a ++ (b ++ c))%string.
Proof. induction a as [|x a IH]; cbn; [reflexivity | now rewrite IH]. Qed.

#[export] Instance log_grows_preorder : PreOrder log_grows.
Proof.
  split.
  - intros w. split; [exists ""; now rewrite append_empty | auto].
  - intros w1 w2 w3 [(m1 & H1) L1] [(m2 & H2) L2]. split.
    + exists (m1 ++ m2)%string. now rewrite H2, H1, append_assoc_string.
    + auto.
Qed.

Lemma same_parsestatus_grows (w w' : World) :
  parsestatus (db w') = parsestatus (db w) -> log_grows w w'.
Proof.
  intros H. unfold log_grows, log_of, levels_of. rewrite H.
  split; [exists ""; now rewrite append_empty | auto].
Qed.




Create HintDb grows.

Ltac grows_step :=
  first
    [ solve [auto 1 with grows nocore]
    | apply respects_ret; typeclasses eauto
    | apply respects_raise; typeclasses eauto
    | apply respects_read; typeclasses eauto
    | apply respects_lift; typeclasses eauto
    | apply respects_when; [typeclasses eauto | ]
    | apply respects_bind; [typeclasses eauto | | intros ? ]
    | apply respects_for_each; [typeclasses eauto | intros ? ]
    | apply respects_modify; intros ?; apply same_parsestatus_grows; reflexivity
    | match goal with
      | |- respects _ (match ?x with _ => _ end) => destruct x
      end
    | progress cbv beta zeta ].

Ltac grows := repeat grows_step.

Section Invariants.
Context {gdal : GDAL} {const : TilesConst} {grid : TileGrid} {platform : Platform}.
Context (settings : Settings).

Lemma log_log_grows msg st zoom : respects log_grows (log msg st zoom).
Proof.
  intros w. split.
  - unfold log_of. cbn. eexists. reflexivity.
  - intros z Hz. unfold levels_of in *. cbn. destruct zoom as [z0|]; [|exact Hz].
    destruct (existsb _ _); [exact Hz|].
    eapply Permutation_in; [apply sort_levels_perm|]. apply in_or_app. now left.
Qed.

#[local] Hint Resolve log_log_grows : grows.

Lemma open_first_grows source matches : respects log_grows (open_first source matches).
Proof. induction matches as [|m rest IH]; cbn [open_first]; grows. Qed.

#[local] Hint Resolve open_first_grows : grows.

Lemma save_bandmeta_grows layer i band :
  respects log_grows (modify (with_db (save_bandmeta layer i band))).
Proof.
  intros w. apply same_parsestatus_grows. unfold modify, save_bandmeta. cbn.
  destruct (first_bandmeta _ _ _); [reflexivity|].
  destruct (new_bandmeta_histogram _ _). reflexivity.
Qed.

#[local] Hint Resolve save_bandmeta_grows : grows.

Lemma open_raster_file_grows : respects log_grows (open_raster_file settings).
Proof.
  unfold open_raster_file, open_and_reproject, get_or_create_reprojected, open_source,
    extract_metadata, reproject, apply_nodata, assign_nodata, get_dataset, get_tmpdir,
    get_layer_id, temp_name.
  grows.
Qed.

Lemma process_quadrant_grows indexrange zoom :
  respects log_grows (process_quadrant indexrange zoom).
Proof.
  unfold process_quadrant, snap_to_quadrant, create_tile, push_histogram, get_dataset,
    get_tmpdir, get_layer_id, get_max_zoom, temp_name.
  grows.
Qed.

Lemma populate_tile_level_grows zoom : respects log_grows (populate_tile_level settings zoom).
Proof.
  unfold populate_tile_level, populate_quadrants.
  assert (Hgroup : forall quads,
    respects log_grows
      (group_apply settings (map (fun indexrange => process_quadrant indexrange zoom) quads))).
  { intros quads. apply respects_group_apply; [typeclasses eauto|].
    intros ir. apply process_quadrant_grows. }
  assert (Hstore : respects log_grows store_histogram_data).
  { intros w. apply same_parsestatus_grows. unfold store_histogram_data, bind, read. cbn.
    destruct (store_hist_values _ _ _) as [rows [e|]]; reflexivity. }
  unfold create_initial_histogram_buckets, nr_of_tiles, get_dataset, get_layer_id, get_max_zoom.
  grows.
Qed.

(** X2: no method of the parser rewrites the parse log.  Whether it returns
    or raises, the log it leaves starts with the log it found, and every
    tile level that was on record still is. *)
Theorem parse_log_append_only {zooms : ZoomLevels} (zoom_levels : Z + list Z) :
  respects log_grows (open_raster_file settings) /\
  respects log_grows compute_max_zoom /\
  respects log_grows (create_tiles settings zoom_levels) /\
  respects log_grows drop_all_tiles /\
  respects log_grows drop_empty_tiles /\
  respects log_grows send_success_signal.
Proof.
  split; [apply open_raster_file_grows|]. split; [|split; [|split; [|split]]].
  - unfold compute_max_zoom, get_dataset, get_max_zoom. grows.
  - destruct zoom_levels as [zoom|levels]; cbn [create_tiles].
    + apply populate_tile_level_grows.
    + apply respects_for_each; [typeclasses eauto|]. intros zoom.
      apply populate_tile_level_grows.
  - unfold drop_all_tiles, get_layer_id. grows.
  - unfold drop_empty_tiles, get_layer_id. grows.
  - unfold send_success_signal, get_layer_id. grows.
Qed.

(** *** The rows of other layers *)

Lemma foreign_rows_to (w w' : World) :
  foreign_to (layer_id (rasterlayer (self w))) w'
  = foreign_to (layer_id (rasterlayer (self w))) w ->
  foreign_rows w' = foreign_rows w.
Proof.
  intros H. unfold foreign_rows.
  assert (E : rasterlayer (self w') = rasterlayer (self w)).
  { unfold foreign_to in H. congruence. }
  now rewrite E.
Qed.

(** What follows [get_layer_id] works on the rows of the parser's own
    layer. *)
Lemma get_layer_id_foreign {A} (k : Z -> Py World A) :
  (forall layer, keeps (foreign_to layer) (k layer)) ->
  keeps foreign_rows (bind get_layer_id k).
Proof.
  intros H w. apply foreign_rows_to.
  unfold bind, get_layer_id, read, ret. cbn. apply H.
Qed.

Ltac foreign_step :=
  first [ apply get_layer_id_foreign; intros ? | frame_step ].

Ltac foreign := repeat foreign_step.

Lemma log_foreign_rows msg st zoom : keeps foreign_rows (log msg st zoom).
Proof. unfold log. frame. Qed.

Lemma log_foreign_to layer msg st zoom : keeps (foreign_to layer) (log msg st zoom).
Proof. unfold log. frame. Qed.

#[local] Hint Resolve log_foreign_rows log_foreign_to : frames.

Lemma filter_update_first (p q : RasterLayerBandMetadata -> bool)
    (f : RasterLayerBandMetadata -> RasterLayerBandMetadata) rows :
  (forall r, p r = true -> q r = false /\ q (f r) = false) ->
  List.filter q (update_first p f rows) = List.filter q rows.
Proof.
  intros H. induction rows as [|r rows IH]; cbn; [reflexivity|].
  destruct (p r) eqn:Hp; cbn.
  - destruct (H r Hp) as [-> ->]. reflexivity.
  - now rewrite IH.
Qed.

Lemma save_bandmeta_foreign layer i band :
  keeps (foreign_to layer) (modify (with_db (save_bandmeta layer i band))).
Proof.
  intros w. unfold same, modify, foreign_to, save_bandmeta. cbn.
  destruct (first_bandmeta _ _ _).
  - cbn. f_equal. apply filter_update_first. intros row Hr.
    unfold is_bandmeta in Hr. apply andb_true_iff in Hr as [Hl _].
    cbn. now rewrite Hl.
  - destruct (new_bandmeta_histogram _ _). cbn. f_equal.
    rewrite List.filter_app. cbn. rewrite Z.eqb_refl. cbn. apply app_nil_r.
Qed.

#[local] Hint Resolve save_bandmeta_foreign : frames.

Lemma extract_metadata_foreign : keeps foreign_rows extract_metadata.
Proof. unfold extract_metadata, get_dataset. foreign. Qed.

Lemma open_first_foreign source matches : keeps foreign_rows (open_first source matches).
Proof. induction matches as [|m rest IH]; cbn [open_first]; frame. Qed.

#[local] Hint Resolve extract_metadata_foreign open_first_foreign : frames.

Lemma open_raster_file_foreign : keeps foreign_rows (open_raster_file settings).
Proof.
  unfold open_raster_file, open_and_reproject, get_or_create_reprojected, open_source,
    reproject, apply_nodata, assign_nodata, get_dataset, get_tmpdir, temp_name.
  frame.
Qed.

Lemma filter_filter_weaker {X} (p q : X -> bool) (l : list X) :
  (forall x, p x = true -> q x = true) ->
  List.filter p (List.filter q l) = List.filter p l.
Proof.
  intros H. induction l as [|x l IH]; cbn; [reflexivity|].
  destruct (q x) eqn:Hq; cbn.
  - now rewrite IH.
  - destruct (p x) eqn:Hp; [|exact IH]. rewrite (H x Hp) in Hq. discriminate.
Qed.

Lemma store_tile_foreign layer dest tx ty zoom :
  keeps (foreign_to layer)
    (modify (with_db (fun d =>
       set_rastertiles (rastertiles d ++ [mkRasterTile dest layer tx ty zoom]) d))).
Proof.
  intros w. unfold same, modify, foreign_to. cbn. f_equal. f_equal.
  rewrite List.filter_app. cbn. rewrite Z.eqb_refl. cbn. apply app_nil_r.
Qed.

Lemma delete_tiles_foreign layer (deleted : RasterTile -> bool) :
  (forall t, deleted t = true -> rasterlayer_id t = layer) ->
  keeps (foreign_to layer)
    (modify (with_db (fun d =>
       set_rastertiles (List.filter (fun t => negb (deleted t)) (rastertiles d)) d))).
Proof.
  intros H w. unfold same, modify, foreign_to. cbn. f_equal. f_equal.
  apply filter_filter_weaker. intros t Ht.
  destruct (deleted t) eqn:Hd; [|reflexivity].
  apply H in Hd. apply negb_true_iff, Z.eqb_neq in Ht. contradiction.
Qed.

#[local] Hint Resolve store_tile_foreign : frames.

Lemma push_histogram_foreign bd : keeps foreign_rows (push_histogram bd).
Proof. unfold push_histogram. frame. Qed.

#[local] Hint Resolve push_histogram_foreign : frames.

Lemma process_quadrant_foreign indexrange zoom :
  keeps foreign_rows (process_quadrant indexrange zoom).
Proof.
  unfold process_quadrant, snap_to_quadrant, create_tile, get_dataset, get_tmpdir,
    get_max_zoom, temp_name.
  foreign.
Qed.

Lemma store_hist_values_foreign layer hv rows :
  List.filter (fun r => negb (bm_rasterlayer r =? layer)) (fst (store_hist_values layer hv rows))
  = List.filter (fun r => negb (bm_rasterlayer r =? layer)) rows.
Proof.
  induction rows as [|r rows IH]; cbn [store_hist_values]; [reflexivity|].
  destruct (bm_rasterlayer r =? layer) eqn:Hl.
  - destruct (py_index hv (bm_band r)); [|reflexivity].
    destruct (store_hist_values layer hv rows) as [rest e]. cbn in *.
    now rewrite Hl.
  - destruct (store_hist_values layer hv rows) as [rest e]. cbn in *.
    now rewrite Hl, IH.
Qed.

Lemma store_histogram_data_foreign : keeps foreign_rows store_histogram_data.
Proof.
  intros w. apply foreign_rows_to. unfold store_histogram_data, bind, read. cbn.
  pose proof (store_hist_values_foreign (layer_id (rasterlayer (self w)))
                (hist_values (self w)) (bandmetadata (db w))) as H.
  destruct (store_hist_values _ _ _) as [rows [e|]]; cbn in *;
    unfold foreign_to; cbn; now rewrite H.
Qed.

#[local] Hint Resolve store_histogram_data_foreign : frames.

Lemma populate_tile_level_foreign zoom : keeps foreign_rows (populate_tile_level settings zoom).
Proof.
  unfold populate_tile_level, populate_quadrants.
  assert (Hgroup : forall quads,
    keeps foreign_rows
      (group_apply settings (map (fun indexrange => process_quadrant indexrange zoom) quads))).
  { intros quads. apply keeps_group_apply. intros ir. apply process_quadrant_foreign. }
  unfold create_initial_histogram_buckets, nr_of_tiles, get_dataset, get_layer_id, get_max_zoom.
  frame.
Qed.

(** X3: no method of the parser touches another layer.  Whether it returns
    or raises, the tiles and the band metadata rows of the other layers are
    what and where they were, and the parser is still that of its own
    layer. *)
Theorem other_layers_untouched {zooms : ZoomLevels} (zoom_levels : Z + list Z) :
  keeps foreign_rows (open_raster_file settings) /\
  keeps foreign_rows compute_max_zoom /\
  keeps foreign_rows (create_tiles settings zoom_levels) /\
  keeps foreign_rows drop_all_tiles /\
  keeps foreign_rows drop_empty_tiles /\
  keeps foreign_rows send_success_signal.
Proof.
  split; [apply open_raster_file_foreign|]. split; [|split; [|split; [|split]]].
  - unfold compute_max_zoom, get_dataset, get_max_zoom. frame.
  - destruct zoom_levels as [zoom|levels]; cbn [create_tiles].
    + apply populate_tile_level_foreign.
    + apply keeps_for_each. intros zoom. apply populate_tile_level_foreign.
  - unfold drop_all_tiles.
    apply keeps_bind; [frame | intros _]. apply get_layer_id_foreign. intros layer.
    apply keeps_bind; [|intros _; frame].
    apply (delete_tiles_foreign layer (fun t => rasterlayer_id t =? layer)).
    intros t Ht. now apply Z.eqb_eq.
  - unfold drop_empty_tiles.
    apply keeps_bind; [frame | intros _]. apply get_layer_id_foreign. intros layer.
    apply keeps_bind; [|intros _; frame].
    apply (delete_tiles_foreign layer (is_dropped layer)).
    intros t Ht. unfold is_dropped in Ht. destruct (ST_Count _); [|discriminate].
    apply andb_true_iff in Ht as [_ Ht]. now apply Z.eqb_eq.
  - unfold send_success_signal, get_layer_id. frame.
Qed.

End Invariants.

(** ** Extracting the metadata *)

Lemma find_update_first (p : RasterLayerBandMetadata -> bool)
    (f : RasterLayerBandMetadata -> RasterLayerBandMetadata) rows r :
  List.find p rows = Some r -> p (f r) = true ->
  List.find p (update_first p f rows) = Some (f r).
Proof.
  intros Hfind Hp. induction rows as [|x rows IH]; cbn in *; [discriminate|].
  destruct (p x) eqn:Hx; cbn.
  - injection Hfind as ->. now rewrite Hp.
  - rewrite Hx. now apply IH.
Qed.

Lemma find_update_first_other (p q : RasterLayerBandMetadata -> bool)
    (f : RasterLayerBandMetadata -> RasterLayerBandMetadata) rows :
  (forall r, p r = true -> q r = false /\ q (f r) = false) ->
  List.find q (update_first p f rows) = List.find q rows.
Proof.
  intros H. induction rows as [|x rows IH]; cbn; [reflexivity|].
  destruct (p x) eqn:Hx; cbn.
  - destruct (H x Hx) as [-> ->]. reflexivity.
  - now rewrite IH.
Qed.

Lemma update_first_id (p : RasterLayerBandMetadata -> bool)
    (f : RasterLayerBandMetadata -> RasterLayerBandMetadata) rows r :
  List.find p rows = Some r -> f r = r -> update_first p f rows = rows.
Proof.
  intros Hfind Hf. induction rows as [|x rows IH]; cbn in *; [reflexivity|].
  destruct (p x); [injection Hfind as ->; now rewrite Hf | now rewrite IH].
Qed.

Lemma find_app_none {X} (p : X -> bool) (l : list X) (x : X) :
  List.find p l = None -> List.find p (l ++ [x]) = if p x then Some x else None.
Proof.
  induction l as [|y l IH]; cbn; [reflexivity|].
  destruct (p y); [discriminate | exact IH].
Qed.

Lemma find_app_other {X} (q : X -> bool) (l : list X) (x : X) :
  q x = false -> List.find q (l ++ [x]) = List.find q l.
Proof.
  intros Hq. induction l as [|y l IH]; cbn; [now rewrite Hq|].
  destruct (q y); [reflexivity | exact IH].
Qed.

Lemma is_bandmeta_fill layer i band r :
  is_bandmeta layer i (fill_bandmeta band r) = is_bandmeta layer i r.
Proof. reflexivity. Qed.

Lemma fill_bandmeta_twice band r :
  fill_bandmeta band (fill_bandmeta band r) = fill_bandmeta band r.
Proof.
  unfold fill_bandmeta. cbn. destruct (band_std band), (band_mean band); reflexivity.
Qed.

Lemma is_bandmeta_other layer i j r :
  i <> j -> is_bandmeta layer i r = true -> is_bandmeta layer j r = false.
Proof.
  unfold is_bandmeta. intros Hij H. apply andb_true_iff in H as [_ H].
  apply Z.eqb_eq in H. apply andb_false_iff. right. apply Z.eqb_neq. congruence.
Qed.

Section MetadataFacts.
Context {platform : Platform}.

Lemma save_bandmeta_rows layer i band d :
  save_bandmeta layer i band d
  = set_bandmetadata (bandmetadata (save_bandmeta layer i band d)) d.
Proof.
  unfold save_bandmeta. destruct (first_bandmeta _ _ _); [reflexivity|].
  destruct (new_bandmeta_histogram _ _). reflexivity.
Qed.

(** The row of the band after [save_bandmeta]. *)
Lemma save_bandmeta_first layer i band d :
  first_bandmeta layer i (bandmetadata (save_bandmeta layer i band d))
  = Some (fill_bandmeta band (row_or_new layer i band (bandmetadata d))).
Proof.
  unfold save_bandmeta, row_or_new, first_bandmeta.
  destruct (List.find (is_bandmeta layer i) (bandmetadata d)) as [r|] eqn:Hfind.
  - cbn. apply find_update_first; [exact Hfind|].
    rewrite is_bandmeta_fill. now apply find_some in Hfind.
  - destruct (new_bandmeta_histogram _ _) as [values bins]. cbn.
    rewrite (find_app_none _ _ _ Hfind). unfold is_bandmeta. cbn.
    now rewrite !Z.eqb_refl.
Qed.

(** The rows of the other bands stay the first of their band. *)
Lemma save_bandmeta_other layer i j band d :
  i <> j ->
  first_bandmeta layer j (bandmetadata (save_bandmeta layer i band d))
  = first_bandmeta layer j (bandmetadata d).
Proof.
  intros Hij. unfold save_bandmeta, first_bandmeta.
  destruct (List.find (is_bandmeta layer i) (bandmetadata d)) as [r|] eqn:Hfind.
  - cbn. apply find_update_first_other. intros x Hx.
    rewrite is_bandmeta_fill. split; eapply is_bandmeta_other; eassumption.
  - destruct (new_bandmeta_histogram _ _) as [values bins]. cbn.
    apply find_app_other. unfold is_bandmeta. cbn.
    apply andb_false_iff. right. apply Z.eqb_neq. congruence.
Qed.

Lemma save_bandmeta_again layer i band d r :
  first_bandmeta layer i (bandmetadata d) = Some r ->
  fill_bandmeta band r = r ->
  save_bandmeta layer i band d = d.
Proof.
  intros Hfind Hfill. unfold save_bandmeta. rewrite Hfind.
  unfold first_bandmeta in Hfind. rewrite (update_first_id _ _ _ _ Hfind Hfill).
  now destruct d.
Qed.

(** The loop of lines 189-202, over bands at distinct positions. *)
Lemma save_bandmeta_loop layer (l : list (nat * GDALBand)) :
  List.NoDup (map fst l) ->
  forall w, exists rows',
    for_each l (fun '(i, band) => modify (with_db (save_bandmeta layer (Z.of_nat i) band))) w
    = (Returned tt, with_db (set_bandmetadata rows') w) /\
    (forall i band, In (i, band) l ->
       first_bandmeta layer (Z.of_nat i) rows'
       = Some (fill_bandmeta band (row_or_new layer (Z.of_nat i) band (bandmetadata (db w))))) /\
    (forall j, (forall i, In i (map fst l) -> Z.of_nat i <> j) ->
       first_bandmeta layer j rows' = first_bandmeta layer j (bandmetadata (db w))).
Proof.
  induction l as [|[i band] l IH]; intros Hnodup w; cbn [for_each map fst].
  - exists (bandmetadata (db w)). split; [|split].
    + unfold ret. f_equal. now destruct w as [? [] ? ?].
    + intros i band [].
    + reflexivity.
  - cbn [map fst] in Hnodup. apply NoDup_cons_iff in Hnodup as [Hi Hnodup].
    set (w1 := with_db (save_bandmeta layer (Z.of_nat i) band) w).
    destruct (IH Hnodup w1) as (rows' & Hrun & Hin & Hout).
    exists rows'. split; [|split].
    + unfold bind at 1, modify at 1. fold w1. rewrite Hrun. f_equal.
      unfold w1, with_db. cbn. f_equal. rewrite save_bandmeta_rows. reflexivity.
    + intros j band' [[= <- <-]|Hj].
      * rewrite Hout.
        -- apply save_bandmeta_first.
        -- intros i' Hi' E. apply Nat2Z.inj in E. now subst.
      * rewrite (Hin j band' Hj). do 2 f_equal. unfold row_or_new.
        assert (Hij : Z.of_nat i <> Z.of_nat j).
        { intros E. apply Nat2Z.inj in E. subst. apply Hi.
          apply in_map_iff. now exists (j, band'). }
        unfold w1. cbn. now rewrite (save_bandmeta_other _ _ _ _ _ Hij).
    + intros j Hj. rewrite Hout; [|intros i' Hi'; apply Hj; now right].
      unfold w1. cbn. apply save_bandmeta_other. apply Hj. now left.
Qed.

Lemma save_bandmeta_loop_again layer (l : list (nat * GDALBand)) (w : World) :
  (forall i band, In (i, band) l ->
     exists r, first_bandmeta layer (Z.of_nat i) (bandmetadata (db w)) = Some r /\
               fill_bandmeta band r = r) ->
  for_each l (fun '(i, band) => modify (with_db (save_bandmeta layer (Z.of_nat i) band))) w
  = (Returned tt, w).
Proof.
  induction l as [|[i band] l IH]; intros H; cbn [for_each]; [reflexivity|].
  unfold bind at 1, modify at 1.
  destruct (H i band (or_introl eq_refl)) as (r & Hr & Hfill).
  assert (E : with_db (save_bandmeta layer (Z.of_nat i) band) w = w).
  { unfold with_db. rewrite (save_bandmeta_again _ _ _ _ _ Hr Hfill). now destruct w. }
  rewrite E. apply IH. intros j band' Hj. apply H. now right.
Qed.

Lemma get_dataset_run (w : World) (ds : GDALRaster) :
  dataset (self w) = Some ds -> get_dataset w = (Returned ds, w).
Proof. intros H. unfold get_dataset, bind, read, ret. cbn. now rewrite H. Qed.

Lemma enumerate_nodup {A} (l : list A) : List.NoDup (map fst (enumerate l)).
Proof. rewrite enumerate_indices. apply List.seq_NoDup. Qed.

Lemma enumerate_bound {A} (l : list A) (i : nat) :
  In i (map fst (enumerate l)) -> (i < length l)%nat.
Proof. rewrite enumerate_indices. intros H. apply in_seq in H. lia. Qed.

Lemma with_db_set_bandmetadata_id (w : World) :
  with_db (set_bandmetadata (bandmetadata (db w))) w = w.
Proof. now destruct w as [? [] ? ?]. Qed.

(** [extract_metadata], on a dataset that has a spatial reference: the
    first log entry, the metadata row, the loop over the bands, which
    leaves the band metadata rows [rows'], and the last log entry. *)
Lemma extract_metadata_run (w : World) (ds : GDALRaster) (s : SpatialReference) :
  dataset (self w) = Some ds ->
  srs ds = Some s ->
  let layer := layer_id (rasterlayer (self w)) in
  exists rows',
    extract_metadata w
    = log "Finished extracting metadata from raster." None None
        (with_db (set_bandmetadata rows')
           (with_db (fun d =>
              set_metadata (metadata_of ds s (meta_max_zoom (metadata d))) d)
              (snd (log "Extracting metadata from raster." None None w)))) /\
    (forall i band,
       In (i, band) (enumerate (bands ds)) ->
       first_bandmeta layer (Z.of_nat i) rows'
       = Some (fill_bandmeta band
                 (row_or_new layer (Z.of_nat i) band (bandmetadata (db w))))) /\
    (forall j,
       (forall i, In i (map fst (enumerate (bands ds))) -> Z.of_nat i <> j) ->
       first_bandmeta layer j rows' = first_bandmeta layer j (bandmetadata (db w))).
Proof.
  intros Hds Hsrs layer.
  set (w0 := snd (log "Extracting metadata from raster." None None w)).
  set (wm := with_db (fun d =>
                set_metadata (metadata_of ds s (meta_max_zoom (metadata d))) d) w0).
  destruct (save_bandmeta_loop layer (enumerate (bands ds)) (enumerate_nodup _) wm)
    as (rows' & Hloop & Hin & Hout).
  exists rows'. split; [|split; [exact Hin | exact Hout]].
  unfold extract_metadata.
  assert (Hlog : log "Extracting metadata from raster." None None w = (Returned tt, w0))
    by reflexivity.
  rewrite (bind_returned _ _ _ _ _ Hlog).
  rewrite (bind_returned _ _ _ _ _ (get_dataset_run w0 ds Hds)).
  rewrite Hsrs.
  assert (Hlift : lift (St := World) (Returned s) w0 = (Returned s, w0)) by reflexivity.
  rewrite (bind_returned _ _ _ _ _ Hlift).
  assert (Hmeta : modify (with_db (fun d =>
             set_metadata
               (mkMetadata (fst (origin ds)) (snd (origin ds)) (width ds) (height ds)
                  (fst (scale ds)) (snd (scale ds)) (fst (skew ds)) (snd (skew ds))
                  (Z.of_nat (length (bands ds))) (wkt s) (srid s)
                  (meta_max_zoom (metadata d))) d)) w0 = (Returned tt, wm)) by reflexivity.
  rewrite (bind_returned _ _ _ _ _ Hmeta).
  assert (Hid : get_layer_id wm = (Returned layer, wm)) by reflexivity.
  rewrite (bind_returned _ _ _ _ _ Hid).
  rewrite (bind_returned _ _ _ _ _ Hloop). reflexivity.
Qed.

Lemma extract_metadata_recorded (w : World) (ds : GDALRaster) (s : SpatialReference) :
  dataset (self w) = Some ds ->
  srs ds = Some s ->
  let layer := layer_id (rasterlayer (self w)) in
  exists w',
    extract_metadata w = (Returned tt, w') /\
    metadata (db w') = metadata_of ds s (meta_max_zoom (metadata (db w))) /\
    (forall i band,
       In (i, band) (enumerate (bands ds)) ->
       first_bandmeta layer (Z.of_nat i) (bandmetadata (db w'))
       = Some (fill_bandmeta band
                 (row_or_new layer (Z.of_nat i) band (bandmetadata (db w))))) /\
    (forall j,
       j < 0 \/ Z.of_nat (length (bands ds)) <= j ->
       first_bandmeta layer j (bandmetadata (db w'))
       = first_bandmeta layer j (bandmetadata (db w))).
Proof.
  intros Hds Hsrs layer.
  destruct (extract_metadata_run w ds s Hds Hsrs) as (rows' & Hrun & Hin & Hout).
  exists (snd (extract_metadata w)). rewrite Hrun.
  split; [reflexivity|]. split; [reflexivity|]. split.
  - exact Hin.
  - intros j Hj. apply Hout. intros i Hi E. apply enumerate_bound in Hi. lia.
Qed.

(** X4: on a dataset that has a spatial reference, [extract_metadata]
    returns; the metadata row then describes the dataset and keeps its max
    zoom, and the first band metadata row of every band holds the
    statistics of that band, written to the row that was there or to a new
    one; the rows of other band numbers are not touched. *)
Theorem extract_metadata_records (w : World) (ds : GDALRaster) (s : SpatialReference) :
  dataset (self w) = Some ds ->
  srs ds = Some s ->
  let layer := layer_id (rasterlayer (self w)) in
  exists w',
    extract_metadata w = (Returned tt, w') /\
    metadata (db w') = metadata_of ds s (meta_max_zoom (metadata (db w))) /\
    (forall i band,
       In (i, band) (enumerate (bands ds)) ->
       first_bandmeta layer (Z.of_nat i) (bandmetadata (db w'))
       = Some (fill_bandmeta band
                 (row_or_new layer (Z.of_nat i) band (bandmetadata (db w))))) /\
    (forall j,
       j < 0 \/ Z.of_nat (length (bands ds)) <= j ->
       first_bandmeta layer j (bandmetadata (db w'))
       = first_bandmeta layer j (bandmetadata (db w))).
Proof. exact (extract_metadata_recorded w ds s). Qed.

(** X5: extracting the metadata once more changes neither the metadata row
    nor the band metadata rows: no row is added for a band that has
    one. *)
Theorem extract_metadata_again (w : World) (ds : GDALRaster) (s : SpatialReference) :
  dataset (self w) = Some ds ->
  srs ds = Some s ->
  exists w' w'',
    extract_metadata w = (Returned tt, w') /\
    extract_metadata w' = (Returned tt, w'') /\
    metadata (db w'') = metadata (db w') /\
    bandmetadata (db w'') = bandmetadata (db w').
Proof.
  intros Hds Hsrs.
  destruct (extract_metadata_run w ds s Hds Hsrs) as (rows' & Hrun & Hin & _).
  set (w' := snd (extract_metadata w)).
  assert (Hw' : extract_metadata w = (Returned tt, w')) by (unfold w'; rewrite Hrun; reflexivity).
  assert (Hds' : dataset (self w') = Some ds) by (unfold w'; rewrite Hrun; exact Hds).
  assert (Hrows : bandmetadata (db w') = rows') by (unfold w'; rewrite Hrun; reflexivity).
  assert (Hlayer : rasterlayer (self w') = rasterlayer (self w))
    by (unfold w'; rewrite Hrun; reflexivity).
  assert (Hmeta : metadata (db w') = metadata_of ds s (meta_max_zoom (metadata (db w))))
    by (unfold w'; rewrite Hrun; reflexivity).
  exists w', (snd (extract_metadata w')). split; [exact Hw'|].
  unfold extract_metadata.
  set (w0 := snd (log "Extracting metadata from raster." None None w')).
  assert (Hlog : log "Extracting metadata from raster." None None w' = (Returned tt, w0))
    by reflexivity.
  rewrite (bind_returned _ _ _ _ _ Hlog).
  rewrite (bind_returned _ _ _ _ _ (get_dataset_run w0 ds Hds')).
  rewrite Hsrs.
  assert (Hlift : lift (St := World) (Returned s) w0 = (Returned s, w0)) by reflexivity.
  rewrite (bind_returned _ _ _ _ _ Hlift).
  set (wm := with_db (fun d =>
                set_metadata (metadata_of ds s (meta_max_zoom (metadata d))) d) w0).
  assert (Hm : modify (with_db (fun d =>
             set_metadata
               (mkMetadata (fst (origin ds)) (snd (origin ds)) (width ds) (height ds)
                  (fst (scale ds)) (snd (scale ds)) (fst (skew ds)) (snd (skew ds))
                  (Z.of_nat (length (bands ds))) (wkt s) (srid s)
                  (meta_max_zoom (metadata d))) d)) w0 = (Returned tt, wm)) by reflexivity.
  rewrite (bind_returned _ _ _ _ _ Hm).
  assert (Hid : get_layer_id wm = (Returned (layer_id (rasterlayer (self w))), wm)).
  { unfold get_layer_id, bind, read, ret. cbn. now rewrite Hlayer. }
  rewrite (bind_returned _ _ _ _ _ Hid).
  assert (Hloop : for_each (enumerate (bands ds))
            (fun '(i, band) =>
               modify (with_db (save_bandmeta (layer_id (rasterlayer (self w)))
                                  (Z.of_nat i) band))) wm = (Returned tt, wm)).
  { apply save_bandmeta_loop_again. intros i band Hi.
    change (bandmetadata (db wm)) with (bandmetadata (db w')). rewrite Hrows.
    eexists. split; [apply (Hin i band Hi) | apply fill_bandmeta_twice]. }
  rewrite (bind_returned _ _ _ _ _ Hloop).
  split; [reflexivity|]. split; [|reflexivity].
  cbn. rewrite Hmeta. reflexivity.
Qed.

End MetadataFacts.

(** ** A source that is no archive *)

Section PlainSource.
Context {gdal : GDAL} {const : TilesConst} {grid : TileGrid} {platform : Platform}.
Context (settings : Settings).

(** A source that is no archive: the local copy is the one path that is
    opened. *)
Lemma open_source_plain (source : File) (w : World) :
  let dir := mkdtemp (RASTER_WORKDIR settings) (ticks w) in
  let filepath := path_join dir (basename (file_name source)) in
  basename (file_name source) <> EmptyString ->
  lower (splitext_ext filepath) <> ".zip" ->
  open_source settings source w
  = match GDALRaster_open source filepath with
    | Some ds =>
        (Returned tt,
         with_self (set_dataset (Some ds))
           (with_call (CallOpen source filepath) (with_self (set_tmpdir dir) (with_tick w))))
    | None =>
        (Raised GDALException,
         with_call (CallOpen source filepath) (with_self (set_tmpdir dir) (with_tick w)))
    end.
Proof.
  intros dir filepath Hbase Hzip.
  apply String.eqb_neq in Hbase. apply String.eqb_neq in Hzip.
  unfold open_source, bind, read, modify, lift, ret, raise.
  cbn -[lower splitext_ext path_join basename String.eqb mkdtemp].
  fold dir. fold filepath. rewrite Hbase, Hzip.
  destruct (GDALRaster_open source filepath); reflexivity.
Qed.

(** X6: a source that is no zip archive is copied to the work directory
    and opened there, in one call.  When GDAL opens it, it is the dataset;
    when GDAL refuses it, [open_raster_file] ends in the [GDALException]
    of that call, with the dataset as it was and with nothing written to
    the database after the reprojected row was looked up. *)
Theorem open_raster_file_plain (w : World) :
  let source := working_source w in
  let dir := mkdtemp (RASTER_WORKDIR settings) (ticks w) in
  let filepath := path_join dir (basename (file_name source)) in
  basename (file_name source) <> EmptyString ->
  lower (splitext_ext filepath) <> ".zip" ->
  let opened := open_source settings source (entered w) in
  tmpdir (self (snd opened)) = Some dir /\
  calls (snd opened) = calls w ++ [CallOpen source filepath] /\
  db (snd opened) = db (entered w) /\
  (forall ds,
     GDALRaster_open source filepath = Some ds ->
     fst opened = Returned tt /\ dataset (self (snd opened)) = Some ds) /\
  (GDALRaster_open source filepath = None ->
   open_raster_file settings w = (Raised GDALException, snd opened) /\
   dataset (self (snd opened)) = dataset (self w)).
Proof.
  intros source dir filepath Hbase Hzip opened.
  assert (Hopened : opened
    = match GDALRaster_open source filepath with
      | Some ds =>
          (Returned tt,
           with_self (set_dataset (Some ds))
             (with_call (CallOpen source filepath)
                (with_self (set_tmpdir dir) (with_tick (entered w)))))
      | None =>
          (Raised GDALException,
           with_call (CallOpen source filepath)
             (with_self (set_tmpdir dir) (with_tick (entered w))))
      end).
  { pose proof (open_source_plain source (entered w)) as H. cbv zeta in H.
    rewrite (entered_ticks w) in H. exact (H Hbase Hzip). }
  assert (Hself : self (entered w) = self w).
  { unfold entered, get_or_create_reprojected, bind, read, ret, modify. cbn.
    destruct (reprojected (db w)); reflexivity. }
  split; [|split; [|split; [|split]]].
  - rewrite Hopened. destruct (GDALRaster_open source filepath); reflexivity.
  - rewrite Hopened, <- (entered_calls w).
    destruct (GDALRaster_open source filepath); reflexivity.
  - rewrite Hopened. destruct (GDALRaster_open source filepath); reflexivity.
  - intros ds Hds. rewrite Hopened, Hds. split; reflexivity.
  - intros Hnone. rewrite open_raster_file_phases. fold source. fold opened.
    rewrite Hopened, Hnone. split; [reflexivity|]. cbn. now rewrite Hself.
Qed.

End PlainSource.

(** ** The first parse *)

Section FirstParse.
Context {gdal : GDAL} {const : TilesConst} {grid : TileGrid} {platform : Platform}.
Context (settings : Settings).

Lemma reproject_rows : keeps rows_of reproject.
Proof. unfold reproject, log, get_dataset, get_tmpdir, temp_name. frame. Qed.

Lemma apply_nodata_rows : keeps rows_of apply_nodata.
Proof. unfold apply_nodata, assign_nodata, get_dataset. frame. Qed.

Lemma open_source_layer source : keeps layer_of (open_source settings source).
Proof.
  assert (H : forall matches, keeps layer_of (open_first source matches)).
  { intros matches. induction matches as [|m rest IH]; cbn [open_first]; frame. }
  unfold open_source. frame.
Qed.

Lemma entered_self (w : World) : self (entered w) = self w.
Proof.
  unfold entered, get_or_create_reprojected, bind, read, ret, modify. cbn.
  destruct (reprojected (db w)); reflexivity.
Qed.

Lemma entered_rows (w : World) : rows_of (entered w) = rows_of w.
Proof.
  unfold entered, get_or_create_reprojected, bind, read, ret, modify. cbn.
  destruct (reprojected (db w)); reflexivity.
Qed.

Lemma extract_metadata_needs_srs (w : World) (ds : GDALRaster) :
  dataset (self w) = Some ds -> srs ds = None ->
  fst (extract_metadata w) = Raised AttributeError.
Proof.
  intros Hds Hsrs. unfold extract_metadata.
  set (w0 := snd (log "Extracting metadata from raster." None None w)).
  assert (Hlog : log "Extracting metadata from raster." None None w = (Returned tt, w0))
    by reflexivity.
  rewrite (bind_returned _ _ _ _ _ Hlog).
  rewrite (bind_returned _ _ _ _ _ (get_dataset_run w0 ds Hds)).
  rewrite Hsrs. reflexivity.
Qed.

(** X7: the metadata is extracted on the parse that creates the
    reprojected row, and on no other.  With the row in place,
    [open_raster_file] leaves the metadata and the band metadata alone;
    without it, a run that returns has recorded the raster file of the
    layer as it was opened, before any reprojection. *)
Theorem open_raster_file_metadata_once (w : World) :
  (reprojected (db w) <> None ->
   rows_of (snd (open_raster_file settings w)) = rows_of w) /\
  (reprojected (db w) = None ->
   forall w',
     open_raster_file settings w = (Returned tt, w') ->
     let layer := rasterlayer (self w) in
     exists path ds s,
       GDALRaster_open (rasterfile layer) path = Some ds /\
       srs ds = Some s /\
       metadata (db w') = metadata_of ds s (meta_max_zoom (metadata (db w))) /\
       forall i band,
         In (i, band) (enumerate (bands ds)) ->
         first_bandmeta (layer_id layer) (Z.of_nat i) (bandmetadata (db w'))
         = Some (fill_bandmeta band
                   (row_or_new (layer_id layer) (Z.of_nat i) band (bandmetadata (db w))))).
Proof.
  split.
  - intros Hrow. rewrite open_raster_file_phases.
    destruct (open_source_effect settings (working_source w) (entered w)) as (Hdb & _ & _).
    destruct (open_source settings (working_source w) (entered w)) as [[[]|e] w1];
      cbn [fst snd] in *.
    + assert (Hcreated : created_now w = false).
      { unfold created_now. destruct (reprojected (db w)); [reflexivity | contradiction]. }
      rewrite Hcreated. cbn [when].
      assert (Hkeep : keeps rows_of ((ret tt ;;; reproject) ;;; apply_nodata)).
      { pose proof reproject_rows. pose proof apply_nodata_rows. frame. }
      rewrite (Hkeep w1). unfold rows_of. rewrite Hdb. apply entered_rows.
    + unfold rows_of. rewrite Hdb. apply entered_rows.
  - intros Hrow w' Hrun layer. rewrite open_raster_file_phases in Hrun.
    assert (Hsource : working_source w = rasterfile layer).
    { unfold working_source, current_reprojected, choose_source. now rewrite Hrow. }
    assert (Hcreated : created_now w = true) by (unfold created_now; now rewrite Hrow).
    rewrite Hsource, Hcreated in Hrun. cbn [when] in Hrun.
    destruct (open_source_effect settings (rasterfile layer) (entered w)) as (Hdb & _ & Hds).
    pose proof (open_source_layer (rasterfile layer) (entered w)) as Hlayer.
    destruct (open_source settings (rasterfile layer) (entered w)) as [[[]|e] w1];
      cbn [fst snd] in *; [|discriminate].
    destruct (Hds eq_refl) as (path & ds & Hopen & Hset). clear Hds.
    unfold same, layer_of in Hlayer. rewrite entered_self in Hlayer.
    apply bind_returned_inv in Hrun as ([] & w3 & Hrun & Hnodata).
    apply bind_returned_inv in Hrun as ([] & w2 & Hextract & Hreproject).
    destruct (srs ds) as [s|] eqn:Hsrs.
    2:{ pose proof (extract_metadata_needs_srs w1 ds Hset Hsrs) as Hraise.
        rewrite Hextract in Hraise. discriminate. }
    exists path, ds, s. split; [exact Hopen|]. split; [exact Hsrs|].
    destruct (extract_metadata_recorded w1 ds s Hset Hsrs) as (w2' & Hrun2 & Hmeta & Hbands & _).
    rewrite Hextract in Hrun2. injection Hrun2 as <-.
    pose proof (reproject_rows w2) as H23. rewrite Hreproject in H23.
    pose proof (apply_nodata_rows w3) as H3. rewrite Hnodata in H3.
    unfold same, rows_of in H23, H3. cbn [snd] in H23, H3.
    assert (Hm : metadata (db w') = metadata (db w2)) by congruence.
    assert (Hb : bandmetadata (db w') = bandmetadata (db w2)) by congruence.
    pose proof (entered_rows w) as Hentered. unfold rows_of in Hentered.
    assert (Hm1 : metadata (db w1) = metadata (db w)) by congruence.
    assert (Hb1 : bandmetadata (db w1) = bandmetadata (db w)) by congruence.
    rewrite Hm, Hb, Hmeta, Hm1. split; [reflexivity|].
    intros i band Hi. specialize (Hbands i band Hi). rewrite Hlayer, Hb1 in Hbands.
    exact Hbands.
Qed.

End FirstParse.

(** ** Reprojection and the nodata override *)

#[export] Instance nodata_only_preorder : PreOrder nodata_only.
Proof.
  split.
  - intros w ds H. exact H.
  - intros w1 w2 w3 H12 H23 ds H. apply H23, H12, H.
Qed.

Section Reprojection.
Context {gdal : GDAL} {const : TilesConst} {grid : TileGrid} {platform : Platform}.
Context (settings : Settings).

Lemma apply_nodata_dataset : respects nodata_only apply_nodata.
Proof.
  unfold apply_nodata.
  apply respects_bind; [typeclasses eauto | apply respects_read; typeclasses eauto |].
  intros w0. apply respects_when; [typeclasses eauto|].
  apply respects_bind; [typeclasses eauto | |].
  { unfold get_dataset. apply respects_bind; [typeclasses eauto | apply respects_read; typeclasses eauto |].
    intros w1. destruct (dataset (self w1)); [apply respects_ret | apply respects_raise];
      typeclasses eauto. }
  intros ds0. apply respects_for_each; [typeclasses eauto|]. intros i.
  apply respects_bind; [typeclasses eauto | apply respects_lift; typeclasses eauto |].
  intros x w ds (bs & Hds). unfold assign_nodata, get_dataset, bind, read, ret, modify. cbn.
  rewrite Hds. cbn. eexists. reflexivity.
Qed.

Lemma extract_metadata_opening_frame : keeps opening_frame extract_metadata.
Proof.
  assert (H : forall layer i band,
    keeps opening_frame (modify (with_db (save_bandmeta layer i band)))).
  { intros layer i band w. unfold same, modify, opening_frame, status_of, save_bandmeta. cbn.
    destruct (first_bandmeta _ _ _); [reflexivity|].
    destruct (new_bandmeta_histogram _ _). reflexivity. }
  assert (Hlog : forall msg zoom, keeps opening_frame (log msg None zoom)).
  { intros msg zoom w. reflexivity. }
  unfold extract_metadata, get_dataset, get_layer_id. frame.
Qed.

Lemma open_source_tmpdir source w :
  fst (open_source settings source w) = Returned tt ->
  tmpdir (self (snd (open_source settings source w)))
  = Some (mkdtemp (RASTER_WORKDIR settings) (ticks w)).
Proof.
  assert (H : forall matches, keeps (fun w => tmpdir (self w)) (open_first source matches)).
  { intros matches. induction matches as [|m rest IH]; cbn [open_first]; frame. }
  unfold open_source, bind, read, modify, lift, ret, raise.
  cbn -[open_first matched_files lower splitext_ext path_join basename String.eqb mkdtemp].
  destruct (String.eqb (basename (file_name source)) EmptyString); [discriminate|].
  destruct (String.eqb (lower (splitext_ext _)) ".zip").
  - destruct (extract_and_walk _ source) as [walk|]; cbn -[open_first matched_files];
      [|discriminate].
    match goal with
    | |- context [open_first source ?ms ?s] =>
        pose proof (H ms s) as Hk; destruct (open_first source ms s) as [[[]|e] s1]
    end; cbn in *; [|discriminate].
    destruct (dataset (self s1)); cbn; [|discriminate]. intros _. exact Hk.
  - destruct (GDALRaster_open source _); cbn; [reflexivity | discriminate].
Qed.

(** Lines 125-148, from a state in which the dataset is open. *)
Lemma reproject_run (w : World) (ds : GDALRaster) (s : SpatialReference) (dir : string) :
  dataset (self w) = Some ds ->
  srs ds = Some s ->
  tmpdir (self w) = Some dir ->
  let r := reproject w in
  if srid_is s WEB_MERCATOR_SRID then r = (Returned tt, w)
  else
    calls (snd r) = calls w ++ [CallTransform ds WEB_MERCATOR_SRID] /\
    status_of (snd r) = REPROJECTING_RASTER /\
    match transform ds WEB_MERCATOR_SRID with
    | Some ds' =>
        fst r = Returned tt /\
        dataset (self (snd r)) = Some ds' /\
        reprojected (db (snd r))
        = Some (mkReprojected
                  (store_zipped ds' (NamedTemporaryFile dir ".zip" (S (ticks w)))))
    | None =>
        fst r = Raised GDALException /\
        dataset (self (snd r)) = Some ds /\
        reprojected (db (snd r)) = reprojected (db w)
    end.
Proof.
  intros Hds Hsrs Hdir r. subst r.
  unfold reproject, log, get_dataset, get_tmpdir, temp_name.
  unfold bind, read, modify, lift, ret, raise, when.
  cbn -[str_of_int String.append]. rewrite Hds. cbn -[str_of_int String.append].
  rewrite Hsrs. cbn -[str_of_int String.append].
  destruct (srid_is s WEB_MERCATOR_SRID); cbn -[str_of_int String.append]; [reflexivity|].
  destruct (transform ds WEB_MERCATOR_SRID) as [ds'|]; cbn -[str_of_int String.append].
  - rewrite Hdir. cbn -[str_of_int String.append]. repeat split.
  - repeat split. exact Hds.
Qed.

(** X8: once the source is open, a dataset that is in web mercator
    already is not transformed and the reprojected row stays as it is;
    any other is transformed in one call.  When the transformation
    succeeds its result is the dataset, nodata values apart, and its zip
    archive is stored in the reprojected row; when it fails the method
    ends in a [GDALException] with the status left at reprojecting and the
    row unchanged. *)
Theorem open_raster_file_reprojection (w w1 : World) (ds : GDALRaster)
    (s : SpatialReference) :
  open_source settings (working_source w) (entered w) = (Returned tt, w1) ->
  dataset (self w1) = Some ds ->
  srs ds = Some s ->
  let r := open_raster_file settings w in
  if srid_is s WEB_MERCATOR_SRID then
    calls (snd r) = calls w1 /\
    reprojected (db (snd r)) = reprojected (db w1) /\
    dataset_from ds (snd r)
  else
    calls (snd r) = calls w1 ++ [CallTransform ds WEB_MERCATOR_SRID] /\
    match transform ds WEB_MERCATOR_SRID with
    | Some ds' =>
        (exists dest, reprojected (db (snd r)) = Some (mkReprojected (store_zipped ds' dest))) /\
        dataset_from ds' (snd r)
    | None =>
        fst r = Raised GDALException /\
        reprojected (db (snd r)) = reprojected (db w1) /\
        dataset (self (snd r)) = Some ds /\
        status_of (snd r) = REPROJECTING_RASTER
    end.
Proof.
  intros Hopen Hds Hsrs r. subst r. rewrite open_raster_file_phases, Hopen.
  pose proof (open_source_tmpdir (working_source w) (entered w)) as Hdir.
  rewrite Hopen in Hdir. specialize (Hdir eq_refl). cbn [snd] in Hdir.
  set (dir := mkdtemp (RASTER_WORKDIR settings) (ticks (entered w))) in *.
  (* the metadata, when the row was created *)
  assert (Hmeta : exists w2,
    when (created_now w) extract_metadata w1 = (Returned tt, w2) /\
    opening_frame w2 = opening_frame w1).
  { destruct (created_now w); cbn [when].
    - destruct (extract_metadata_recorded w1 ds s Hds Hsrs) as (w2 & Hrun & _).
      exists w2. split; [exact Hrun|].
      pose proof (extract_metadata_opening_frame w1) as H. now rewrite Hrun in H.
    - exists w1. split; reflexivity. }
  destruct Hmeta as (w2 & Hrun2 & Hframe). unfold opening_frame in Hframe.
  assert (Hds2 : dataset (self w2) = Some ds) by congruence.
  assert (Hdir2 : tmpdir (self w2) = Some dir) by congruence.
  assert (Hcalls2 : calls w2 = calls w1) by congruence.
  assert (Hrow2 : reprojected (db w2) = reprojected (db w1)) by congruence.
  pose proof (reproject_run w2 ds s dir Hds2 Hsrs Hdir2) as Hrep. cbv zeta in Hrep.
  assert (Hinner : (when (created_now w) extract_metadata ;;; reproject) w1 = reproject w2)
    by exact (bind_returned _ _ _ _ _ Hrun2).
  assert (Hwhole : ((when (created_now w) extract_metadata ;;; reproject) ;;; apply_nodata) w1
                   = match reproject w2 with
                     | (Returned _, s') => apply_nodata s'
                     | (Raised e, s') => (Raised e, s')
                     end).
  { unfold bind at 1. rewrite Hinner. reflexivity. }
  rewrite Hwhole. clear Hwhole Hinner.
  pose proof (apply_nodata_cache_and_calls) as Hkeep.
  pose proof apply_nodata_dataset as Hnodata.
  destruct (srid_is s WEB_MERCATOR_SRID).
  - rewrite Hrep. cbv beta iota. specialize (Hkeep w2). specialize (Hnodata w2 ds).
    unfold same, cache_and_calls in Hkeep.
    split; [congruence|]. split; [congruence|].
    apply Hnodata. exists (bands ds). now rewrite set_bands_id.
  - destruct Hrep as (Hcalls & Hstatus & Hrep).
    destruct (reproject w2) as [[[]|e] w3] eqn:Hrun3; cbn [fst snd] in *.
    + specialize (Hkeep w3). specialize (Hnodata w3).
      unfold same, cache_and_calls in Hkeep.
      split; [congruence|].
      destruct (transform ds WEB_MERCATOR_SRID) as [ds'|].
      * destruct Hrep as (_ & Hds3 & Hrow3). split.
        -- eexists. transitivity (reprojected (db w3)); [congruence | exact Hrow3].
        -- apply Hnodata. exists (bands ds'). now rewrite set_bands_id.
      * destruct Hrep as (Hraise & _). discriminate.
    + split; [congruence|].
      destruct (transform ds WEB_MERCATOR_SRID) as [ds'|].
      * destruct Hrep as (Hret & _). discriminate.
      * destruct Hrep as (Hraise & Hds3 & Hrow3).
        split; [exact Hraise|]. split; [congruence|]. split; [exact Hds3 | exact Hstatus].
Qed.

(** X9: a nodata override that is a text but no number is found out only
    when the first band is reached, after the raster was opened and
    reprojected: [open_raster_file] then ends in a [ValueError] in the
    state that opening and reprojecting left, and on a dataset without
    bands it returns. *)
Theorem open_raster_file_bad_nodata (w w1 : World) (ds : GDALRaster) (text : string) :
  open_and_reproject settings w = (Returned tt, w1) ->
  dataset (self w1) = Some ds ->
  nodata (rasterlayer (self w)) = PyStr text ->
  text <> EmptyString ->
  float_of_str text = None ->
  open_raster_file settings w
  = (match bands ds with [] => Returned tt | _ :: _ => Raised ValueError end, w1).
Proof.
  intros Hopen Hds Hnodata Htext Hfloat.
  assert (Hlayer : nodata (rasterlayer (self w1)) = PyStr text).
  { pose proof (open_and_reproject_layer settings w) as H. rewrite Hopen in H.
    unfold same, layer_of in H. cbn in H. now rewrite H. }
  unfold open_raster_file. rewrite (bind_returned _ _ _ _ _ Hopen).
  unfold apply_nodata. unfold bind at 1, read at 1. cbn [fst snd].
  rewrite Hlayer. cbn [nodata_is_unset]. apply String.eqb_neq in Htext. rewrite Htext.
  cbn [negb when]. rewrite (bind_returned _ _ _ _ _ (get_dataset_run w1 ds Hds)).
  destruct (bands ds) as [|b bs]; [reflexivity|].
  cbn [length seq for_each]. unfold bind at 1. unfold bind at 1, lift at 1.
  cbn [py_float]. rewrite Hfloat. reflexivity.
Qed.

End Reprojection.

(** ** The tile records of a quadrant *)

Section TileRecords.
Context {gdal : GDAL} {const : TilesConst} {grid : TileGrid} {platform : Platform}.
Context (settings : Settings).

Lemma create_tile_stored snapped xmin ymin zoom tx ty w w' :
  create_tile snapped xmin ymin (tile_scale zoom) zoom tx ty w = (Returned tt, w') ->
  tiler_frame w' = tiler_frame w /\
  exists t,
    tiles_of w' = tiles_of w ++ [t] /\
    tile_index t = (tx, ty) /\
    tile_header (layer_id (rasterlayer (self w))) (tilesize (self w)) zoom snapped t.
Proof.
  intros Hrun. split.
  { pose proof (create_tile_tiler_frame snapped xmin ymin (tile_scale zoom) zoom tx ty w) as H.
    now rewrite Hrun in H. }
  revert Hrun.
  unfold create_tile, get_max_zoom, get_layer_id, bind, read, lift, when, ret, raise, modify.
  unfold tile_header, tile_corner.
  destruct (tile_bounds tx ty zoom) as [[[bxmin ?] ?] bymax] eqn:Hbounds.
  cbn -[push_histogram].
  destruct (read_bands _ _ _) as [bd|e]; cbn -[push_histogram]; [|discriminate].
  destruct (max_zoom (self w)) as [mz|]; cbn -[push_histogram]; [|discriminate].
  assert (Hpush : forall w1 r, (if zoom =? mz then push_histogram bd else fun s => (Returned tt, s)) w
                               = (r, w1) ->
                  tiles_of w1 = tiles_of w /\ tiler_frame w1 = tiler_frame w).
  { intros w1 r E. destruct (zoom =? mz).
    - pose proof (push_histogram_tiles bd w) as Ht.
      pose proof (push_histogram_tiler_frame bd w) as Hf.
      rewrite E in Ht, Hf. now split.
    - injection E as <- <-. now split. }
  destruct ((if zoom =? mz then push_histogram bd else fun s => (Returned tt, s)) w)
    as [[[]|e] w1]; [|discriminate].
  destruct (Hpush _ _ eq_refl) as [Ht Hf]. clear Hpush.
  destruct (bands snapped) as [|b0 bs] eqn:Hbands; cbn; [discriminate|].
  intros [= <-]. eexists. split; [unfold tiles_of in *; cbn; rewrite Ht; reflexivity|].
  unfold tiler_frame in Hf. cbn. rewrite Hbounds.
  split; [reflexivity|]. split; [congruence|]. split; [reflexivity|].
  split; [congruence|]. split; [congruence|]. split; [reflexivity|].
  split; [reflexivity|]. split; [reflexivity|]. now exists b0, bs.
Qed.

(** The tiles a quadrant has added when its loops return. *)
Lemma quadrant_loops_stored snapped xmin ymin xmax ymax zoom w w' :
  for_each (py_range_incl xmin xmax) (fun tilex =>
    for_each (py_range_incl ymin ymax) (fun tiley =>
      create_tile snapped xmin ymin (tile_scale zoom) zoom tilex tiley)) w
  = (Returned tt, w') ->
  tiler_frame w' = tiler_frame w /\
  exists new_tiles,
    tiles_of w' = tiles_of w ++ new_tiles /\
    map tile_index new_tiles = quadrant_indices xmin ymin xmax ymax /\
    Forall (tile_header (layer_id (rasterlayer (self w))) (tilesize (self w)) zoom snapped)
      new_tiles.
Proof.
  set (header := tile_header (layer_id (rasterlayer (self w))) (tilesize (self w)) zoom snapped).
  pose (I := fun (done : list Z) (s : World) =>
    tiler_frame s = tiler_frame w /\
    exists new_tiles,
      tiles_of s = tiles_of w ++ new_tiles /\
      map tile_index new_tiles
      = flat_map (fun x => map (pair x) (py_range_incl ymin ymax)) done /\
      Forall header new_tiles).
  intros Hrun.
  refine (for_each_returned I _ _ (py_range_incl xmin xmax) [] w w' _ Hrun).
  - clear Hrun w'. intros done x s s' (Hf & new_tiles & Htiles & Hidx & Hall) Hcolumn.
    pose (J := fun (doney : list Z) (s1 : World) =>
      tiler_frame s1 = tiler_frame w /\
      exists column,
        tiles_of s1 = tiles_of s ++ column /\
        map tile_index column = map (pair x) doney /\
        Forall header column).
    assert (HJ : J (py_range_incl ymin ymax) s').
    { refine (for_each_returned J _ _ (py_range_incl ymin ymax) [] s s' _ Hcolumn).
      - clear Hcolumn s'. intros doney y s1 s2 (Hf1 & column & Hc & Hcidx & Hcall) Htile.
        apply create_tile_stored in Htile as (Hf2 & t & Ht & Hti & Hth).
        split; [congruence|]. exists (column ++ [t]). split; [|split].
        + rewrite Ht, Hc. now rewrite <- app_assoc.
        + rewrite !map_app, Hcidx. cbn. now rewrite Hti.
        + apply Forall_app. split; [exact Hcall|]. constructor; [|constructor].
          unfold header. unfold tiler_frame in Hf1.
          replace (layer_id (rasterlayer (self w))) with (layer_id (rasterlayer (self s1)))
            by congruence.
          replace (tilesize (self w)) with (tilesize (self s1)) by congruence.
          exact Hth.
      - split; [exact Hf|]. exists []. split; [now rewrite app_nil_r|]. split; constructor. }
    destruct HJ as (Hf' & column & Hc & Hcidx & Hcall).
    split; [exact Hf'|]. exists (new_tiles ++ column). split; [|split].
    + rewrite Hc, Htiles. now rewrite <- app_assoc.
    + rewrite map_app, flat_map_app, Hidx, Hcidx. cbn. now rewrite app_nil_r.
    + apply Forall_app. now split.
  - split; [reflexivity|]. exists []. split; [now rewrite app_nil_r|]. split; constructor.
Qed.

Lemma length_py_range_incl (lo hi : Z) :
  Z.of_nat (length (py_range_incl lo hi)) = Z.max 0 (hi - lo + 1).
Proof. unfold py_range_incl. rewrite length_map, length_seq. lia. Qed.

Lemma length_quadrant_indices (xmin ymin xmax ymax : Z) :
  Z.of_nat (length (quadrant_indices xmin ymin xmax ymax))
  = Z.max 0 (xmax - xmin + 1) * Z.max 0 (ymax - ymin + 1).
Proof.
  unfold quadrant_indices. rewrite <- !length_py_range_incl.
  induction (py_range_incl xmin xmax) as [|x xs IH]; cbn [flat_map length].
  - reflexivity.
  - rewrite length_app, length_map, Nat2Z.inj_add, IH. lia.
Qed.

(** X10: when [process_quadrant] returns it has added one tile record for
    every index of the quadrant, column by column, after the records that
    were there: as many as the product of the two extents, none for a
    range that is inverted.  Each record is of the parser's layer and of
    the level, and its raster has the tile size for width and height, the
    web mercator srid, the corner of its tile bounds for origin, the scale
    of the level and the data type of the first band of the warped
    dataset. *)
Theorem process_quadrant_tile_records (w w' : World) (xmin ymin xmax ymax zoom : Z) :
  process_quadrant (xmin, ymin, xmax, ymax) zoom w = (Returned tt, w') ->
  exists snapped new_tiles,
    fst (snap_to_quadrant (xmin, ymin, xmax, ymax) zoom w) = Returned snapped /\
    tiles_of w' = tiles_of w ++ new_tiles /\
    map tile_index new_tiles = quadrant_indices xmin ymin xmax ymax /\
    Z.of_nat (length new_tiles) = Z.max 0 (xmax - xmin + 1) * Z.max 0 (ymax - ymin + 1) /\
    Forall (tile_header (layer_id (rasterlayer (self w))) (tilesize (self w)) zoom snapped)
      new_tiles.
Proof.
  intros Hrun. unfold process_quadrant in Hrun.
  apply bind_returned_inv in Hrun as (snapped & w0 & Hsnap & Hloops).
  pose proof (snap_to_quadrant_tiler_frame (xmin, ymin, xmax, ymax) zoom w) as Hf.
  pose proof (snap_to_quadrant_tiles (xmin, ymin, xmax, ymax) zoom w) as Ht.
  rewrite Hsnap in Hf, Ht. unfold same in Hf, Ht. cbn [snd] in Hf, Ht.
  apply quadrant_loops_stored in Hloops as (_ & new_tiles & Htiles & Hidx & Hall).
  exists snapped, new_tiles. rewrite Hsnap. split; [reflexivity|].
  split; [congruence|]. split; [exact Hidx|]. split.
  - rewrite <- length_quadrant_indices, <- Hidx. now rewrite length_map.
  - unfold tiler_frame in Hf.
    replace (layer_id (rasterlayer (self w))) with (layer_id (rasterlayer (self w0)))
      by congruence.
    replace (tilesize (self w)) with (tilesize (self w0)) by congruence.
    exact Hall.
Qed.

End TileRecords.

(** ** Tiles are only added *)

#[export] Instance level_tiles_preorder zoom : PreOrder (level_tiles zoom).
Proof.
  split.
  - intros w. split; [reflexivity|]. split; [reflexivity|].
    exists []. split; [now rewrite app_nil_r | constructor].
  - intros w1 w2 w3 (L12 & M12 & n12 & T12 & F12) (L23 & M23 & n23 & T23 & F23).
    split; [congruence|]. split; [congruence|].
    exists (n12 ++ n23). split; [rewrite T23, T12; now rewrite <- app_assoc|].
    apply Forall_app. split; [exact F12|]. now rewrite <- L12.
Qed.

#[export] Instance tiles_added_preorder levels : PreOrder (tiles_added levels).
Proof.
  split.
  - intros w. split; [reflexivity|]. split; [reflexivity|].
    exists []. split; [now rewrite app_nil_r | constructor].
  - intros w1 w2 w3 (L12 & M12 & n12 & T12 & F12) (L23 & M23 & n23 & T23 & F23).
    split; [congruence|]. split; [congruence|].
    exists (n12 ++ n23). split; [rewrite T23, T12; now rewrite <- app_assoc|].
    apply Forall_app. split; [exact F12|]. now rewrite <- L12, <- M12.
Qed.

Section TilesAdded.
Context {gdal : GDAL} {const : TilesConst} {grid : TileGrid} {platform : Platform}.
Context (settings : Settings).

Lemma same_frame_level_tiles zoom (w w' : World) :
  tiling_frame w' = tiling_frame w -> level_tiles zoom w w'.
Proof.
  intros H. unfold tiling_frame in H.
  split; [congruence|]. split; [congruence|].
  exists []. split; [rewrite app_nil_r; congruence | constructor].
Qed.

Lemma keeps_level_tiles {A} zoom (m : Py World A) :
  keeps tiling_frame m -> respects (level_tiles zoom) m.
Proof. intros H w. apply same_frame_level_tiles, H. Qed.

Lemma push_histogram_tiling_frame bd : keeps tiling_frame (push_histogram bd).
Proof. unfold push_histogram. frame. Qed.

Lemma log_tiling_frame msg st zoom : keeps tiling_frame (log msg st zoom).
Proof. unfold log. frame. Qed.

Lemma create_tile_level_tiles snapped xmin ymin tilescale zoom tilex tiley :
  respects (level_tiles zoom) (create_tile snapped xmin ymin tilescale zoom tilex tiley).
Proof.
  intros w.
  unfold create_tile, get_max_zoom, get_layer_id, bind, read, lift, when, ret, raise, modify.
  destruct (tile_bounds tilex tiley zoom) as [[[bxmin ?] ?] bymax].
  cbn -[push_histogram].
  destruct (read_bands _ _ _) as [bd|e]; cbn -[push_histogram]; [|reflexivity].
  destruct (max_zoom (self w)) as [mz|] eqn:Hmz; cbn -[push_histogram]; [|reflexivity].
  assert (Hpush : forall w1 r, (if zoom =? mz then push_histogram bd else fun s => (Returned tt, s)) w
                               = (r, w1) -> tiling_frame w1 = tiling_frame w).
  { intros w1 r E. destruct (zoom =? mz).
    - pose proof (push_histogram_tiling_frame bd w) as Hf. now rewrite E in Hf.
    - now injection E as <- <-. }
  destruct ((if zoom =? mz then push_histogram bd else fun s => (Returned tt, s)) w)
    as [[[]|e] w1]; specialize (Hpush _ _ eq_refl).
  2:{ now apply same_frame_level_tiles. }
  destruct (bands snapped) as [|b0 bs]; cbn.
  { now apply same_frame_level_tiles. }
  unfold tiling_frame in Hpush.
  split; [cbn; congruence|]. split; [cbn; congruence|].
  eexists [_]. split.
  - unfold tiles_of in *. cbn. f_equal. congruence.
  - constructor; [|constructor]. cbn. split; [congruence | reflexivity].
Qed.

Lemma process_quadrant_level_tiles indexrange zoom :
  respects (level_tiles zoom) (process_quadrant indexrange zoom).
Proof.
  unfold process_quadrant. destruct indexrange as [[[xmin ymin] xmax] ymax].
  apply respects_bind; [typeclasses eauto | |].
  { apply keeps_level_tiles. pose proof log_tiling_frame.
    unfold snap_to_quadrant, get_tmpdir, get_dataset, temp_name. frame. }
  intros snapped. apply respects_for_each; [typeclasses eauto|]. intros tilex.
  apply respects_for_each; [typeclasses eauto|]. intros tiley.
  apply create_tile_level_tiles.
Qed.

Lemma populate_quadrants_level_tiles zoom :
  respects (level_tiles zoom) (populate_quadrants settings zoom).
Proof.
  assert (Hlog : forall msg st z, respects (level_tiles zoom) (log msg st z)).
  { intros msg st z. apply keeps_level_tiles, log_tiling_frame. }
  assert (Hstore : respects (level_tiles zoom) store_histogram_data).
  { apply keeps_level_tiles. intros w. unfold store_histogram_data, bind, read. cbn.
    destruct (store_hist_values _ _ _) as [rows [e|]]; reflexivity. }
  unfold populate_quadrants.
  apply respects_bind; [typeclasses eauto | apply respects_read; typeclasses eauto |].
  intros w0. apply respects_bind; [typeclasses eauto | |].
  { apply keeps_level_tiles. unfold nr_of_tiles. frame. }
  intros n. apply respects_bind; [typeclasses eauto | apply Hlog |]. intros _.
  apply respects_bind; [typeclasses eauto | |].
  { apply respects_group_apply; [typeclasses eauto|]. intros ir.
    apply process_quadrant_level_tiles. }
  intros _. apply respects_get_max_zoom; [typeclasses eauto|]. intros mz w Hmz.
  refine (respects_bind (level_tiles zoom) _ _ _ _ w).
  - apply respects_when; [typeclasses eauto | exact Hstore].
  - intros _. apply Hlog.
Qed.

Lemma level_tiles_added zoom mz levels (w w' : World) :
  max_zoom (self w) = Some mz -> zoom <= mz -> In zoom levels ->
  level_tiles zoom w w' -> tiles_added levels w w'.
Proof.
  intros Hmz Hle Hin (Hl & Hm & new_tiles & Ht & Hall).
  split; [exact Hl|]. split; [exact Hm|]. exists new_tiles. split; [exact Ht|].
  eapply Forall_impl; [exact Hall|]. cbn. intros t [Hid Hz]. subst zoom.
  split; [exact Hid|]. split; [exact Hin|]. now exists mz.
Qed.

Lemma populate_tile_level_tiles_added zoom levels :
  In zoom levels -> respects (tiles_added levels) (populate_tile_level settings zoom).
Proof.
  intros Hin. unfold populate_tile_level.
  apply respects_get_max_zoom; [typeclasses eauto|]. intros mz w Hmz.
  destruct (zoom >? mz) eqn:Hgt; [reflexivity|].
  rewrite Z.gtb_ltb in Hgt. apply Z.ltb_ge in Hgt.
  apply (level_tiles_added zoom mz levels w _ Hmz Hgt Hin).
  refine (respects_bind (level_tiles zoom) _ _ _ _ w).
  - apply respects_when; [typeclasses eauto|]. apply keeps_level_tiles.
    unfold create_initial_histogram_buckets, get_dataset, get_layer_id. frame.
  - intros _. apply populate_quadrants_level_tiles.
Qed.

(** X11: [create_tiles] only ever adds tiles.  Whether it returns or
    raises, the tiles that were there are still there, in their places,
    and the new ones belong to the parser's layer and to a requested
    level that does not exceed the max zoom. *)
Theorem create_tiles_only_adds (zoom_levels : Z + list Z) :
  respects (tiles_added (requested zoom_levels)) (create_tiles settings zoom_levels).
Proof.
  destruct zoom_levels as [zoom|zooms]; cbn [create_tiles requested].
  - apply populate_tile_level_tiles_added. now left.
  - assert (H : forall todo, incl todo zooms ->
              respects (tiles_added zooms) (for_each todo (populate_tile_level settings))).
    { induction todo as [|z todo IH]; intros Hincl; cbn [for_each].
      - apply respects_ret; typeclasses eauto.
      - apply respects_bind; [typeclasses eauto | |].
        + apply populate_tile_level_tiles_added. apply Hincl. now left.
        + intros _. apply IH. intros x Hx. apply Hincl. now right. }
    apply H. apply incl_refl.
Qed.

End TilesAdded.

(** ** Levels on record *)

Section Levels.
Context {gdal : GDAL} {const : TilesConst} {grid : TileGrid} {platform : Platform}.
Context (settings : Settings).

Lemma log_run msg st z w : log msg st z w = (Returned tt, snd (log msg st z w)).
Proof. reflexivity. Qed.

Lemma log_records_level msg st z w : In z (levels_of (snd (log msg st (Some z) w))).
Proof.
  rewrite log_levels. destruct (existsb _ _) eqn:E; [now apply existsb_eqb_In|].
  eapply Permutation_in; [apply sort_levels_perm|]. apply in_or_app. right. now left.
Qed.

(** A level that does not exceed the max zoom, from the index range on. *)
Lemma populate_tile_level_quadrants (w : World) (zoom mz : Z) :
  max_zoom (self w) = Some mz -> zoom <= mz ->
  populate_tile_level settings zoom w
  = (when (zoom =? mz) create_initial_histogram_buckets ;;; populate_quadrants settings zoom) w.
Proof.
  intros Hmz Hle. unfold populate_tile_level.
  rewrite (bind_returned _ _ _ _ _ (get_max_zoom_run w mz Hmz)).
  destruct (zoom >? mz) eqn:Hgt; [|reflexivity].
  rewrite Z.gtb_ltb in Hgt. apply Z.ltb_lt in Hgt. lia.
Qed.

Lemma populate_quadrants_records (w w' : World) (zoom : Z) :
  populate_quadrants settings zoom w = (Returned tt, w') -> In zoom (levels_of w').
Proof.
  unfold populate_quadrants. intros E.
  apply bind_returned_inv in E as (w0 & s0 & _ & E).
  apply bind_returned_inv in E as (n & s1 & _ & E).
  apply bind_returned_inv in E as ([] & s2 & _ & E).
  apply bind_returned_inv in E as ([] & s3 & _ & E).
  apply bind_returned_inv in E as (mz & s4 & _ & E).
  apply bind_returned_inv in E as ([] & s5 & _ & E).
  pose proof (log_records_level
                ("Finished parsing at zoom level " ++ str_of_int zoom ++ ".") None zoom s5) as H.
  now rewrite E in H.
Qed.

Lemma populate_tile_level_recorded (w w' : World) (zoom mz : Z) :
  max_zoom (self w) = Some mz ->
  zoom <= mz ->
  populate_tile_level settings zoom w = (Returned tt, w') ->
  In zoom (levels_of w').
Proof.
  intros Hmz Hle. rewrite (populate_tile_level_quadrants w zoom mz Hmz Hle). intros E.
  apply bind_returned_inv in E as ([] & s1 & _ & E).
  exact (populate_quadrants_records _ _ _ E).
Qed.

(** X12: a level that was tiled is on record.  When [populate_tile_level]
    returns for a level that does not exceed the max zoom, the level is
    among the tile levels of the parse status; a level above the max zoom
    is not put on record. *)
Theorem populate_tile_level_records_level (w w' : World) (zoom mz : Z) :
  max_zoom (self w) = Some mz ->
  populate_tile_level settings zoom w = (Returned tt, w') ->
  (zoom <= mz -> In zoom (levels_of w')) /\
  (zoom > mz -> levels_of w' = levels_of w).
Proof.
  intros Hmz Hrun. split.
  - intros Hle. exact (populate_tile_level_recorded w w' zoom mz Hmz Hle Hrun).
  - intros Hgt. unfold populate_tile_level in Hrun.
    rewrite (bind_returned _ _ _ _ _ (get_max_zoom_run w mz Hmz)) in Hrun.
    destruct (zoom >? mz) eqn:E.
    + now injection Hrun as <-.
    + rewrite Z.gtb_ltb in E. apply Z.ltb_ge in E. lia.
Qed.

Lemma group_apply_returns (tasks : list (Py World unit)) (w : World) :
  CELERY_EAGER_PROPAGATES_EXCEPTIONS settings = false ->
  fst (group_apply settings tasks w) = Returned tt.
Proof.
  intros Hquiet. unfold group_apply. revert w.
  induction tasks as [|task tasks IH]; intros w; cbn [for_each]; [reflexivity|].
  unfold bind at 1. unfold apply_task at 1. rewrite Hquiet.
  destruct (task w) as [[[]|e] w1]; apply IH.
Qed.

(** X13: with celery's default for eager tasks, a quadrant that fails does
    not stop its level.  Below the max zoom [populate_tile_level] returns
    whatever happens in the quadrants, and puts the level on record. *)
Theorem populate_tile_level_hides_failures (w : World) (zoom mz : Z) :
  CELERY_EAGER_PROPAGATES_EXCEPTIONS settings = false ->
  max_zoom (self w) = Some mz ->
  zoom < mz ->
  exists w',
    populate_tile_level settings zoom w = (Returned tt, w') /\
    In zoom (levels_of w').
Proof.
  intros Hquiet Hmz Hlt.
  assert (Hrun : exists w', populate_tile_level settings zoom w = (Returned tt, w')).
  { rewrite (populate_tile_level_quadrants w zoom mz Hmz) by lia.
    assert (Hne : (zoom =? mz) = false) by (apply Z.eqb_neq; lia).
    rewrite Hne. cbn [when].
    assert (Hret : ret (St := World) tt w = (Returned tt, w)) by reflexivity.
    rewrite (bind_returned _ _ _ _ _ Hret).
    unfold populate_quadrants.
    assert (Hread : read w = (Returned w, w)) by reflexivity.
    rewrite (bind_returned _ _ _ _ _ Hread).
    destruct (nr_of_tiles_run zoom w) as (n & Hn).
    rewrite (bind_returned _ _ _ _ _ Hn).
    match goal with
    | |- context [bind (log ?msg ?st ?z) _ w] =>
        set (s2 := snd (log msg st z w));
        assert (Hlog : log msg st z w = (Returned tt, s2)) by reflexivity;
        pose proof (log_level_frame msg st z w) as Hf2
    end.
    rewrite (bind_returned _ _ _ _ _ Hlog). rewrite Hlog in Hf2. cbn [snd] in Hf2.
    match goal with
    | |- context [bind (group_apply settings ?tasks) _ s2] =>
        pose proof (group_apply_returns tasks s2 Hquiet) as Hgroup;
        pose proof (group_apply_level_frame settings zoom
                      (quadrants (extent (rasterlayer (self w)) (db w)) zoom) s2) as Hf3;
        destruct (group_apply settings tasks s2) as [r s3] eqn:Hg
    end.
    cbn [fst snd] in Hgroup, Hf3. subst r.
    rewrite (bind_returned _ _ _ _ _ Hg).
    assert (Hmz3 : max_zoom (self s3) = Some mz).
    { unfold same, level_frame in Hf2, Hf3. congruence. }
    rewrite (bind_returned _ _ _ _ _ (get_max_zoom_run s3 mz Hmz3)).
    rewrite Hne. cbn [when].
    assert (Hret3 : ret (St := World) tt s3 = (Returned tt, s3)) by reflexivity.
    rewrite (bind_returned _ _ _ _ _ Hret3).
    rewrite log_run. eexists. reflexivity. }
  destruct Hrun as (w' & Hrun). exists w'. split; [exact Hrun|].
  apply (populate_tile_level_recorded w w' zoom mz Hmz); [lia | exact Hrun].
Qed.

End Levels.

(** ** The levels of [create_tiles] *)

Section LoopFacts.
Context {St : Type}.

Lemma bind_ret_tt (m : Py St unit) (s : St) : (m ;;; ret tt) s = m s.
Proof. unfold bind, ret. destruct (m s) as [[[]|e] s1]; reflexivity. Qed.

Lemma for_each_app {B} (l1 l2 : list B) (body : B -> Py St unit) (s : St) :
  for_each (l1 ++ l2) body s = (for_each l1 body ;;; for_each l2 body) s.
Proof.
  revert s. induction l1 as [|x l1 IH]; intros s; cbn [for_each app].
  - reflexivity.
  - unfold bind. destruct (body x s) as [[[]|e] s1]; [|reflexivity].
    rewrite IH. reflexivity.
Qed.

End LoopFacts.

Section CreateTiles.
Context {gdal : GDAL} {const : TilesConst} {grid : TileGrid} {platform : Platform}.
Context (settings : Settings).

Lemma populate_tile_level_skips (w : World) (zoom mz : Z) :
  max_zoom (self w) = Some mz -> (zoom <=? mz) = false ->
  populate_tile_level settings zoom w = (Returned tt, w).
Proof.
  intros Hmz Hzoom. unfold populate_tile_level.
  rewrite (bind_returned _ _ _ _ _ (get_max_zoom_run w mz Hmz)).
  rewrite Z.gtb_ltb. apply Z.leb_gt in Hzoom. apply Z.ltb_lt in Hzoom. now rewrite Hzoom.
Qed.

Lemma for_each_levels_filter (mz : Z) (zooms : list Z) (w : World) :
  max_zoom (self w) = Some mz ->
  for_each zooms (populate_tile_level settings) w
  = for_each (List.filter (fun z => z <=? mz) zooms) (populate_tile_level settings) w.
Proof.
  revert w. induction zooms as [|z zooms IH]; intros w Hmz; cbn [for_each List.filter].
  - reflexivity.
  - destruct (z <=? mz) eqn:Hz; cbn [for_each].
    + unfold bind.
      pose proof (populate_tile_level_level_frame settings z w) as Hf.
      destruct (populate_tile_level settings z w) as [[[]|e] w1]; [|reflexivity].
      apply IH. unfold same, level_frame in Hf. cbn [snd] in Hf. congruence.
    + rewrite (bind_returned _ _ _ _ _ (populate_tile_level_skips w z mz Hmz Hz)).
      now apply IH.
Qed.

(** X14: the levels of [create_tiles].  An integer is the list of that one
    level; a list is worked through in its order, one list after the other
    when it is made of two; and the levels above the max zoom might as
    well not be in it. *)
Theorem create_tiles_levels (w : World) :
  (forall zoom,
     create_tiles settings (inl zoom) w = create_tiles settings (inr [zoom]) w) /\
  (forall zooms more,
     create_tiles settings (inr (zooms ++ more)) w
     = (create_tiles settings (inr zooms) ;;; create_tiles settings (inr more)) w) /\
  (forall mz zooms,
     max_zoom (self w) = Some mz ->
     create_tiles settings (inr zooms) w
     = create_tiles settings (inr (List.filter (fun z => z <=? mz) zooms)) w).
Proof.
  split; [|split].
  - intros zoom. cbn [create_tiles for_each]. now rewrite bind_ret_tt.
  - intros zooms more. cbn [create_tiles]. apply for_each_app.
  - intros mz zooms Hmz. cbn [create_tiles]. now apply for_each_levels_filter.
Qed.

(** X15: [nr_of_tiles] reads the state without changing it, and its
    product is the number of tile records that tiling the index range of
    the layer as one quadrant adds, as long as the range is not
    inverted. *)
Theorem nr_of_tiles_counts (w w' : World) (xmin ymin xmax ymax zoom : Z) :
  tile_index_range (extent (rasterlayer (self w)) (db w)) zoom = (xmin, ymin, xmax, ymax) ->
  xmin <= xmax + 1 ->
  ymin <= ymax + 1 ->
  process_quadrant (xmin, ymin, xmax, ymax) zoom w = (Returned tt, w') ->
  exists n,
    nr_of_tiles zoom w = (Returned n, w) /\
    n = (xmax - xmin + 1) * (ymax - ymin + 1) /\
    Z.of_nat (length (tiles_of w')) = Z.of_nat (length (tiles_of w)) + n.
Proof.
  intros Hrange Hx Hy Hrun.
  exists ((xmax - xmin + 1) * (ymax - ymin + 1)). split; [|split; [reflexivity|]].
  - unfold nr_of_tiles, bind, read, ret. cbn. now rewrite Hrange.
  - unfold process_quadrant in Hrun.
    apply bind_returned_inv in Hrun as (snapped & w0 & Hsnap & Hloops).
    pose proof (snap_to_quadrant_tiles (xmin, ymin, xmax, ymax) zoom w) as Ht.
    rewrite Hsnap in Ht. unfold same in Ht. cbn [snd] in Ht.
    apply quadrant_loops_stored in Hloops as (_ & new_tiles & Htiles & Hidx & _).
    rewrite Htiles, Ht, length_app, Nat2Z.inj_add. f_equal.
    rewrite <- (length_map tile_index), Hidx, length_quadrant_indices.
    rewrite !Z.max_r by lia. reflexivity.
Qed.

End CreateTiles.

(** ** Setting up the histogram *)

Section Buckets.
Context {gdal : GDAL} {const : TilesConst} {grid : TileGrid} {platform : Platform}.

Lemma create_initial_histogram_buckets_loop (w : World) (ds : GDALRaster) :
  dataset (self w) = Some ds ->
  create_initial_histogram_buckets w
  = for_each (enumerate (bands ds)) (fun '(i, _) =>
      s <- read ;;
      match first_bandmeta (layer_id (rasterlayer (self w))) (Z.of_nat i)
              (bandmetadata (db s)) with
      | None => raise AttributeError
      | Some bandmeta =>
          modify (with_self (fun p =>
            set_hist_values (hist_values p ++ [bm_hist_values bandmeta]) p)) ;;;
          modify (with_self (fun p =>
            set_hist_bins (hist_bins p ++ [bm_hist_bins bandmeta]) p))
      end)
      (with_self (set_hist_bins []) (with_self (set_hist_values []) w)).
Proof.
  intros Hds. unfold create_initial_histogram_buckets, get_dataset, get_layer_id.
  unfold bind at 1, modify at 1. unfold bind at 1, modify at 1.
  unfold bind at 1. unfold bind at 1, read at 1. cbn [fst snd with_self self dataset
    set_hist_values set_hist_bins]. rewrite Hds. unfold ret at 1.
  unfold bind at 1. unfold bind at 1, read at 1, ret at 1.
  cbn [fst snd with_self self rasterlayer set_hist_values set_hist_bins].
  reflexivity.
Qed.

(** X16: [create_initial_histogram_buckets] returns exactly when every
    band of the dataset has a band metadata row, and ends in an
    [AttributeError] otherwise.  The running counts it sets up are those
    stored in the rows, band by band: a parse continues the histogram of
    the rows, it does not start from zero. *)
Theorem create_initial_histogram_buckets_start (w : World) (ds : GDALRaster) :
  dataset (self w) = Some ds ->
  let layer := layer_id (rasterlayer (self w)) in
  let rows := bandmetadata (db w) in
  let r := create_initial_histogram_buckets w in
  (fst r = Returned tt <->
   forall i, (i < length (bands ds))%nat -> first_bandmeta layer (Z.of_nat i) rows <> None) /\
  (fst r = Returned tt ->
   Forall2 (counts_in layer rows) (seq 0 (length (bands ds))) (hist_values (self (snd r)))) /\
  (forall e, fst r = Raised e -> e = AttributeError).
Proof.
  intros Hds layer rows r. subst r.
  rewrite (create_initial_histogram_buckets_loop w ds Hds).
  set (w0 := with_self (set_hist_bins []) (with_self (set_hist_values []) w)).
  set (body := fun '(i, _) => _).
  assert (Hreturned : forall w', for_each (enumerate (bands ds)) body w0 = (Returned tt, w') ->
            Forall2 (counts_in layer rows) (seq 0 (length (bands ds))) (hist_values (self w'))).
  { intros w' Hloop. rewrite <- enumerate_indices.
    pose (I := fun (done : list (nat * GDALBand)) (s : World) =>
      bandmetadata (db s) = rows /\
      Forall2 (counts_in layer rows) (map fst done) (hist_values (self s))).
    refine (proj2 (for_each_returned I _ _ _ [] _ w' _ Hloop)).
    - intros done [i band] s s' [Hrows Hdone]. unfold body, bind, read, modify. cbn.
      rewrite Hrows. fold layer.
      destruct (first_bandmeta _ _ _) as [bandmeta|] eqn:Hfirst; cbn; [|discriminate].
      intros [= <-]. cbn. split; [exact Hrows|].
      rewrite map_app. apply Forall2_app; [exact Hdone|].
      constructor; [|constructor]. now exists bandmeta.
    - split; [reflexivity | constructor]. }
  split; [split|split].
  - intros Hret i Hi.
    destruct (for_each (enumerate (bands ds)) body w0) as [[[]|e] w'] eqn:Hloop;
      [|discriminate].
    specialize (Hreturned w' eq_refl).
    destruct (Forall2_lookup_l _ _ _ i i Hreturned) as (v & _ & bandmeta & Hfirst & _).
    { apply lookup_seq. lia. }
    cbn in Hfirst. congruence.
  - intros Hall.
    destruct (for_each_returns (fun s => bandmetadata (db s) = rows)
                body (enumerate (bands ds))) with (s := w0) as (w' & Hloop & _).
    + intros [i band] s Hin Hrows. unfold body, bind, read, modify. cbn.
      rewrite Hrows. fold layer.
      destruct (first_bandmeta layer (Z.of_nat i) rows) as [bandmeta|] eqn:Hfirst.
      * eexists. split; [reflexivity|]. exact Hrows.
      * exfalso. apply (Hall i); [|exact Hfirst].
        apply enumerate_bound. apply in_map_iff. now exists (i, band).
    + reflexivity.
    + now rewrite Hloop.
  - intros Hret.
    destruct (for_each (enumerate (bands ds)) body w0) as [[[]|e] w'] eqn:Hloop;
      [|discriminate].
    now apply Hreturned.
  - apply (raises_only_for_each (fun e => e = AttributeError)).
    intros [i band]. unfold body.
    apply raises_only_bind; [apply raises_only_read|]. intros s.
    destruct (first_bandmeta _ _ _).
    + apply raises_only_bind; [apply raises_only_modify|]. intros _. apply raises_only_modify.
    + now apply raises_only_raise.
Qed.

End Buckets.

(** ** Pushing tiles to the histogram *)

Lemma iadd_length (v h v' : list Z) : iadd v h = Returned v' -> length v' = length v.
Proof.
  unfold iadd. destruct (Nat.eqb (length h) (length v)) eqn:Hlen.
  - intros [= <-]. apply Nat.eqb_eq in Hlen. rewrite length_zip_with. lia.
  - destruct h as [|c [|]]; try discriminate. intros [= <-]. apply length_map.
Qed.

Lemma zip_with_add_swap (v a b : list Z) :
  zip_with Z.add (zip_with Z.add v a) b = zip_with Z.add (zip_with Z.add v b) a.
Proof.
  revert a b. induction v as [|x v IH]; intros [|y a] [|z b]; cbn; try reflexivity.
  f_equal; [lia | apply IH].
Qed.

Lemma zip_with_add_map (v a : list Z) (c : Z) :
  map (fun x => x + c) (zip_with Z.add v a) = zip_with Z.add (map (fun x => x + c) v) a.
Proof.
  revert a. induction v as [|x v IH]; intros [|y a]; cbn; try reflexivity.
  f_equal; [lia | apply IH].
Qed.

Lemma map_add_swap (v : list Z) (c d : Z) :
  map (fun x => x + d) (map (fun x => x + c) v) = map (fun x => x + c) (map (fun x => x + d) v).
Proof. rewrite !map_map. apply map_ext. intros x. lia. Qed.

(** Adding two histograms to the counts of a band does not depend on the
    order. *)
Lemma iadd_swap (v a b va vab : list Z) :
  iadd v a = Returned va -> iadd va b = Returned vab ->
  exists vb, iadd v b = Returned vb /\ iadd vb a = Returned vab.
Proof.
  intros Ha Hb. pose proof (iadd_length _ _ _ Ha) as Hla.
  unfold iadd in *. rewrite Hla in Hb.
  destruct (Nat.eqb (length b) (length v)) eqn:Eb.
  - injection Hb as <-. eexists. split; [reflexivity|].
    apply Nat.eqb_eq in Eb. rewrite length_zip_with.
    replace (length v `min` length b)%nat with (length v) by lia.
    destruct (Nat.eqb (length a) (length v)) eqn:Ea.
    + injection Ha as <-. f_equal. apply zip_with_add_swap.
    + destruct a as [|c [|]]; try discriminate. injection Ha as <-.
      f_equal. first [apply zip_with_add_map | symmetry; apply zip_with_add_map].
  - destruct b as [|d [|]]; try discriminate. injection Hb as <-.
    eexists. split; [reflexivity|]. rewrite length_map.
    destruct (Nat.eqb (length a) (length v)) eqn:Ea.
    + injection Ha as <-. f_equal.
      first [apply zip_with_add_map | symmetry; apply zip_with_add_map].
    + destruct a as [|c [|]]; try discriminate. injection Ha as <-.
      f_equal. apply map_add_swap.
Qed.

Section Pushing.
Context {gdal : GDAL} {const : TilesConst} {grid : TileGrid} {platform : Platform}.

Lemma push_histogram_loop (band_data : list BandData) :
  push_histogram band_data
  = for_each (enumerate band_data) (fun '(i, dat) => push_band i dat).
Proof. reflexivity. Qed.

Lemma push_band_returned i dat w w' :
  push_band i dat w = (Returned tt, w') ->
  exists bins v v',
    hist_bins (self w) !! i = Some bins /\
    hist_values (self w) !! i = Some v /\
    pushed bins dat v v' /\
    w' = with_self (set_hist_values (<[i := v']> (hist_values (self w)))) w.
Proof.
  unfold push_band, bind, read, lift, modify. cbn.
  destruct (hist_bins (self w) !! i) as [bins|]; cbn; [|discriminate].
  destruct (histogram (data dat) bins) as [h|] eqn:Hh; cbn; [|discriminate].
  destruct (hist_values (self w) !! i) as [v|]; cbn; [|discriminate].
  destruct (iadd v h) as [v'|] eqn:Hadd; cbn; [|discriminate].
  intros [= <-]. exists bins, v, v'. repeat split. now exists h.
Qed.

Lemma pushed_functional bins d v v1 v2 :
  pushed bins d v v1 -> pushed bins d v v2 -> v1 = v2.
Proof. intros (h1 & Hh1 & Ha1) (h2 & Hh2 & Ha2). congruence. Qed.

Lemma push_band_returns i dat w bins v v' :
  hist_bins (self w) !! i = Some bins ->
  hist_values (self w) !! i = Some v ->
  pushed bins dat v v' ->
  push_band i dat w
  = (Returned tt, with_self (set_hist_values (<[i := v']> (hist_values (self w)))) w).
Proof.
  intros Hbins Hv (h & Hh & Hadd).
  unfold push_band, bind, read, lift, modify. cbn.
  rewrite Hbins. cbn. rewrite Hh. cbn. rewrite Hv. cbn. rewrite Hadd. reflexivity.
Qed.

(** The loop over the bands from position [k] on. *)
Lemma push_loop_returned (bd : list BandData) (k : nat) (w w' : World) :
  for_each (combine (seq k (length bd)) bd) (fun '(i, dat) => push_band i dat) w
  = (Returned tt, w') ->
  w' = with_self (set_hist_values (hist_values (self w'))) w /\
  length (hist_values (self w')) = length (hist_values (self w)) /\
  (forall j d, bd !! j = Some d ->
     exists bins v v',
       hist_bins (self w) !! (k + j)%nat = Some bins /\
       hist_values (self w) !! (k + j)%nat = Some v /\
       pushed bins d v v' /\
       hist_values (self w') !! (k + j)%nat = Some v') /\
  (forall i, (i < k \/ k + length bd <= i)%nat ->
     hist_values (self w') !! i = hist_values (self w) !! i).
Proof.
  revert k w. induction bd as [|d bd IH]; intros k w; cbn [length seq combine for_each].
  - intros [= <-]. split; [now rewrite set_hist_values_id|]. split; [reflexivity|].
    split; [intros j d' Hj; discriminate | reflexivity].
  - intros E. apply bind_returned_inv in E as ([] & w1 & Hband & Hrest).
    apply push_band_returned in Hband as (bins & v & v' & Hbins & Hv & Hpushed & Hw1).
    apply IH in Hrest as (Hw' & Hlen & Hin & Hout).
    assert (Hk : (k < length (hist_values (self w)))%nat) by (eapply lookup_lt_Some; eauto).
    assert (Hv1 : hist_values (self w1) = <[k := v']> (hist_values (self w)))
      by (rewrite Hw1; reflexivity).
    assert (Hb1 : hist_bins (self w1) = hist_bins (self w)) by (rewrite Hw1; reflexivity).
    split; [|split; [|split]].
    + rewrite Hw', Hw1. reflexivity.
    + rewrite Hlen, Hv1. apply length_insert.
    + intros [|j] d' Hj.
      * injection Hj as <-. rewrite Nat.add_0_r. exists bins, v, v'.
        split; [exact Hbins|]. split; [exact Hv|]. split; [exact Hpushed|].
        rewrite Hout by lia. rewrite Hv1. now apply list_lookup_insert_eq.
      * cbn in Hj. destruct (Hin j d' Hj) as (bins' & u & u' & Hbins' & Hu & Hp & Hu').
        replace (k + S j)%nat with (S k + j)%nat by lia.
        exists bins', u, u'. split; [congruence|]. split; [|split; [exact Hp | exact Hu']].
        rewrite Hv1 in Hu. rewrite list_lookup_insert_ne in Hu by lia. exact Hu.
    + intros i Hi. rewrite Hout by lia. rewrite Hv1.
      apply list_lookup_insert_ne. lia.
Qed.

Lemma push_loop_returns (bd : list BandData) (k : nat) (w : World) :
  (forall j d, bd !! j = Some d ->
     exists bins v v',
       hist_bins (self w) !! (k + j)%nat = Some bins /\
       hist_values (self w) !! (k + j)%nat = Some v /\
       pushed bins d v v') ->
  exists w',
    for_each (combine (seq k (length bd)) bd) (fun '(i, dat) => push_band i dat) w
    = (Returned tt, w').
Proof.
  revert k w. induction bd as [|d bd IH]; intros k w H; cbn [length seq combine for_each].
  - now exists w.
  - destruct (H 0%nat d eq_refl) as (bins & v & v' & Hbins & Hv & Hp).
    rewrite Nat.add_0_r in Hbins, Hv.
    rewrite (bind_returned _ _ _ _ _ (push_band_returns k d w bins v v' Hbins Hv Hp)).
    apply IH. intros j d' Hj.
    destruct (H (S j) d' Hj) as (bins' & u & u' & Hbins' & Hu & Hp').
    replace (k + S j)%nat with (S k + j)%nat in Hbins', Hu by lia.
    exists bins', u, u'. split; [exact Hbins'|]. split; [|exact Hp'].
    cbn. rewrite list_lookup_insert_ne by lia. exact Hu.
Qed.

(** X17: [push_histogram] adds, band by band, the histogram of the block
    over the edges of the band to the running counts of the band.  It
    changes nothing but the counts, and the counts of the bands that the
    tile does not have stay as they are. *)
Theorem push_histogram_adds (band_data : list BandData) (w w' : World) :
  push_histogram band_data w = (Returned tt, w') ->
  w' = with_self (set_hist_values (hist_values (self w'))) w /\
  length (hist_values (self w')) = length (hist_values (self w)) /\
  (forall i d, band_data !! i = Some d ->
     exists bins v v',
       hist_bins (self w) !! i = Some bins /\
       hist_values (self w) !! i = Some v /\
       pushed bins d v v' /\
       hist_values (self w') !! i = Some v') /\
  (forall i, (length band_data <= i)%nat ->
     hist_values (self w') !! i = hist_values (self w) !! i).
Proof.
  rewrite push_histogram_loop. unfold enumerate. intros Hrun.
  apply push_loop_returned in Hrun as (Hw' & Hlen & Hin & Hout).
  split; [exact Hw'|]. split; [exact Hlen|]. split; [exact Hin|].
  intros i Hi. apply Hout. right. exact Hi.
Qed.

(** X18: the counts do not depend on the order in which two tiles are
    pushed.  When pushing the bands of one tile and then those of another
    returns, so does pushing them the other way round, and the state
    reached is the same. *)
Theorem push_histogram_commutes (a b : list BandData) (w wa wab : World) :
  push_histogram a w = (Returned tt, wa) ->
  push_histogram b wa = (Returned tt, wab) ->
  exists wb,
    push_histogram b w = (Returned tt, wb) /\
    push_histogram a wb = (Returned tt, wab).
Proof.
  rewrite !push_histogram_loop. unfold enumerate. intros Ha Hb.
  pose proof (push_loop_returned a 0 w wa Ha) as (Hwa & Hla & Ain & Aout).
  pose proof (push_loop_returned b 0 wa wab Hb) as (Hwab & Hlb & Bin & Bout).
  assert (Hbins_a : hist_bins (self wa) = hist_bins (self w)) by (rewrite Hwa; reflexivity).
  (* the counts of a band after the first tile, whether the tile has the band or not *)
  assert (Hafter : forall i d bins v v',
            b !! i = Some d -> hist_bins (self w) !! i = Some bins ->
            hist_values (self wa) !! i = Some v -> pushed bins d v v' ->
            exists u u', hist_values (self w) !! i = Some u /\ pushed bins d u u').
  { intros i d bins v v' Hd Hbins Hv (h & Hh & Hadd).
    destruct (a !! i) as [da|] eqn:Hda.
    - destruct (Ain i da Hda) as (bins' & u & ua & Hbins' & Hu & (ha & Hha & Hadda) & Hua).
      cbn in Hbins', Hu, Hua.
      assert (ua = v) by congruence. subst ua.
      destruct (iadd_swap u ha h v v' Hadda Hadd) as (ub & Hub & _).
      exists u, ub. split; [exact Hu|]. now exists h.
    - rewrite Aout in Hv by (right; cbn; apply lookup_ge_None; exact Hda).
      exists v, v'. split; [exact Hv|]. now exists h. }
  destruct (push_loop_returns b 0 w) as (wb & Hrunb).
  { intros j d Hd. destruct (Bin j d Hd) as (bins & v & v' & Hbins & Hv & Hp & _).
    cbn in *. rewrite Hbins_a in Hbins.
    destruct (Hafter j d bins v v' Hd Hbins Hv Hp) as (u & u' & Hu & Hp').
    now exists bins, u, u'. }
  pose proof (push_loop_returned b 0 w wb Hrunb) as (Hwb & Hlb' & Bin' & Bout').
  assert (Hbins_b : hist_bins (self wb) = hist_bins (self w)) by (rewrite Hwb; reflexivity).
  (* the counts of a band of the first tile, once the second tile was pushed *)
  assert (Hswap : forall i da, a !! i = Some da ->
            exists bins v v',
              hist_bins (self wb) !! i = Some bins /\
              hist_values (self wb) !! i = Some v /\
              pushed bins da v v' /\
              hist_values (self wab) !! i = Some v').
  { intros i da Hda.
    destruct (Ain i da Hda) as (bins & u & ua & Hbins & Hu & (ha & Hha & Hadda) & Hua).
    cbn in Hbins, Hu, Hua. rewrite Hbins_b.
    destruct (b !! i) as [db|] eqn:Hdb.
    - destruct (Bin i db Hdb) as (bins1 & v1 & vab & Hbins1 & Hv1 & (hb & Hhb & Haddb) & Hvab).
      destruct (Bin' i db Hdb) as (bins2 & v2 & vb & Hbins2 & Hv2 & (hb' & Hhb' & Haddb') & Hvb).
      cbn in *. rewrite Hbins_a in Hbins1.
      assert (bins1 = bins) by congruence. assert (bins2 = bins) by congruence.
      assert (v1 = ua) by congruence. assert (v2 = u) by congruence. subst.
      assert (hb' = hb) by congruence. subst hb'.
      destruct (iadd_swap u ha hb ua vab Hadda Haddb) as (vb' & Hvb' & Hfinal).
      assert (vb' = vb) by congruence. subst vb'.
      exists bins, vb, vab. split; [exact Hbins|]. split; [exact Hvb|].
      split; [now exists ha | exact Hvab].
    - assert (Hge : (length b <= i)%nat) by (apply lookup_ge_None; exact Hdb).
      exists bins, u, ua. split; [exact Hbins|]. split; [|split].
      + rewrite Bout' by (right; cbn; exact Hge). exact Hu.
      + now exists ha.
      + rewrite Bout by (right; cbn; exact Hge). exact Hua. }
  destruct (push_loop_returns a 0 wb) as (wba & Hruna).
  { intros j da Hda. destruct (Hswap j da Hda) as (bins & v & v' & Hbins & Hv & Hp & _).
    now exists bins, v, v'. }
  exists wb. split; [exact Hrunb|]. rewrite Hruna. f_equal.
  pose proof (push_loop_returned a 0 wb wba Hruna) as (Hwba & Hla' & Ain' & Aout').
  assert (Hcounts : hist_values (self wba) = hist_values (self wab)).
  { apply list_eq. intros i. destruct (a !! i) as [da|] eqn:Hda.
    - destruct (Ain' i da Hda) as (bins & v & v' & Hbins & Hv & Hp & Hv').
      destruct (Hswap i da Hda) as (bins2 & v2 & v2' & Hbins2 & Hv2 & Hp2 & Hv2').
      cbn in *. assert (bins2 = bins) by congruence. assert (v2 = v) by congruence. subst.
      rewrite Hv', Hv2'. f_equal. exact (pushed_functional _ _ _ _ _ Hp Hp2).
    - assert (Hge : (length a <= i)%nat) by (apply lookup_ge_None; exact Hda).
      rewrite Aout' by (right; cbn; exact Hge).
      destruct (b !! i) as [db|] eqn:Hdb.
      + destruct (Bin i db Hdb) as (bins1 & v1 & vab & Hbins1 & Hv1 & Hp1 & Hvab).
        destruct (Bin' i db Hdb) as (bins2 & v2 & vb & Hbins2 & Hv2 & Hp2 & Hvb).
        cbn in *. rewrite Hbins_a in Hbins1. rewrite Aout in Hv1 by (right; cbn; exact Hge).
        assert (bins2 = bins1) by congruence. assert (v2 = v1) by congruence. subst.
        rewrite Hvb, Hvab. f_equal. exact (pushed_functional _ _ _ _ _ Hp2 Hp1).
      + assert (Hgeb : (length b <= i)%nat) by (apply lookup_ge_None; exact Hdb).
        rewrite Bout' by (right; cbn; exact Hgeb).
        rewrite Bout by (right; cbn; exact Hgeb).
        rewrite Aout by (right; cbn; exact Hge). reflexivity. }
  rewrite Hwba, Hwab, Hwb, Hwa, Hcounts. reflexivity.
Qed.

End Pushing.

(** ** The histogram of the finest level *)

Section Accumulation.
Context {gdal : GDAL} {const : TilesConst} {grid : TileGrid} {platform : Platform}.
Context (settings : Settings).

(** [push_histogram] reads the edges and the counts, and nothing else of
    the state. *)
Lemma push_histogram_same_counts (bd : list BandData) (w1 w2 w1' : World) :
  hist_bins (self w2) = hist_bins (self w1) ->
  hist_values (self w2) = hist_values (self w1) ->
  push_histogram bd w1 = (Returned tt, w1') ->
  exists w2',
    push_histogram bd w2 = (Returned tt, w2') /\
    hist_bins (self w2') = hist_bins (self w2) /\
    hist_values (self w2') = hist_values (self w1').
Proof.
  intros Hb Hv Hrun. rewrite push_histogram_loop in *. unfold enumerate in *.
  destruct (push_loop_returned bd 0 w1 w1' Hrun) as (_ & _ & Hin1 & Hout1).
  destruct (push_loop_returns bd 0 w2) as (w2' & Hrun2).
  { intros j d Hj. destruct (Hin1 j d Hj) as (bins & v & v' & Hbins & Hval & Hp & _).
    exists bins, v, v'. rewrite Hb, Hv. auto. }
  exists w2'. split; [exact Hrun2|].
  destruct (push_loop_returned bd 0 w2 w2' Hrun2) as (Hw2 & _ & Hin2 & Hout2).
  split; [rewrite Hw2; reflexivity|].
  apply list_eq. intros i.
  destruct (bd !! i) as [d|] eqn:Hd.
  - destruct (Hin1 i d Hd) as (b1 & v1 & v1' & Hb1 & Hv1 & Hp1 & Hr1).
    destruct (Hin2 i d Hd) as (b2 & v2 & v2' & Hb2 & Hv2 & Hp2 & Hr2).
    cbn [Nat.add] in *. rewrite Hr1, Hr2. f_equal.
    rewrite Hb in Hb2. rewrite Hv in Hv2.
    assert (b2 = b1) by congruence. assert (v2 = v1) by congruence. subst.
    exact (pushed_functional _ _ _ _ _ Hp2 Hp1).
  - apply lookup_ge_None in Hd.
    rewrite Hout1, Hout2 by (right; cbn [Nat.add]; lia). now rewrite Hv.
Qed.

Lemma pushes_tiler_frame (l : list (list BandData)) :
  keeps tiler_frame (for_each l push_histogram).
Proof. apply keeps_for_each. intros bd. apply push_histogram_tiler_frame. Qed.

(** The same for the tiles of a list, pushed one after the other. *)
Lemma counts_after_same (ts : list RasterTile) (w1 w2 : World) (hv : list (list Z)) :
  hist_bins (self w2) = hist_bins (self w1) ->
  hist_values (self w2) = hist_values (self w1) ->
  counts_after ts w1 hv -> counts_after ts w2 hv.
Proof.
  unfold counts_after. revert w1 w2.
  induction ts as [|t ts IH]; intros w1 w2 Hb Hv (wh & Hrun & Hhv); cbn [map for_each] in *.
  - injection Hrun as <-. exists w2. split; [reflexivity | congruence].
  - apply bind_returned_inv in Hrun as ([] & w1' & Hpush & Hrest).
    destruct (push_histogram_same_counts _ w1 w2 w1' Hb Hv Hpush) as (w2' & Hpush2 & Hb2 & Hv2).
    assert (Hb1 : hist_bins (self w1') = hist_bins (self w1)).
    { pose proof (push_histogram_tiler_frame (tile_bands (rast t)) w1) as Hf.
      rewrite Hpush in Hf. unfold same, tiler_frame in Hf. cbn [snd] in Hf. congruence. }
    destruct (IH w1' w2') as (wh2 & Hrun2 & Hhv2); [congruence | exact Hv2 | eauto |].
    exists wh2. split; [|exact Hhv2].
    rewrite (bind_returned _ _ _ _ _ Hpush2). exact Hrun2.
Qed.

(** One more tile. *)
Lemma counts_after_snoc (ts : list RasterTile) (t : RasterTile) (w wh wp : World) :
  for_each (map (fun t => tile_bands (rast t)) ts) push_histogram w = (Returned tt, wh) ->
  push_histogram (tile_bands (rast t)) wh = (Returned tt, wp) ->
  counts_after (ts ++ [t]) w (hist_values (self wp)).
Proof.
  intros Hts Ht. exists wp. split; [|reflexivity].
  rewrite map_app, for_each_app. rewrite (bind_returned _ _ _ _ _ Hts).
  cbn [map for_each]. rewrite (bind_returned _ _ _ _ _ Ht). reflexivity.
Qed.

(** At the max zoom the blocks of a tile are pushed before the tile is
    stored. *)
Lemma create_tile_pushed snapped xmin ymin tilescale zoom tx ty w w' :
  max_zoom (self w) = Some zoom ->
  create_tile snapped xmin ymin tilescale zoom tx ty w = (Returned tt, w') ->
  exists t wp,
    tiles_of w' = tiles_of w ++ [t] /\
    push_histogram (tile_bands (rast t)) w = (Returned tt, wp) /\
    hist_values (self w') = hist_values (self wp).
Proof.
  intros Hmz.
  unfold create_tile, get_max_zoom, get_layer_id, bind, read, lift, when, ret, raise, modify.
  destruct (tile_bounds tx ty zoom) as [[[bxmin ?] ?] bymax].
  cbn -[push_histogram].
  destruct (read_bands _ _ _) as [bd|e]; cbn -[push_histogram]; [|discriminate].
  rewrite Hmz. cbn -[push_histogram]. rewrite Z.eqb_refl.
  destruct (push_histogram bd w) as [[[]|e] w1] eqn:Hpush; [|discriminate].
  pose proof (push_histogram_tiles bd w) as Ht. rewrite Hpush in Ht.
  unfold same in Ht. cbn [snd] in Ht.
  destruct (bands snapped) as [|b0 bs]; cbn; [discriminate|].
  intros [= <-]. eexists. exists w1. cbn.
  split; [unfold tiles_of in *; cbn; rewrite Ht; reflexivity|].
  split; [exact Hpush | reflexivity].
Qed.

(** The counts when the loops of a quadrant at the max zoom return: those
    at the start with the blocks of every new tile pushed, in the order of
    the loops. *)
Lemma quadrant_loops_pushed snapped xmin ymin xmax ymax zoom w w' :
  max_zoom (self w) = Some zoom ->
  for_each (py_range_incl xmin xmax) (fun tilex =>
    for_each (py_range_incl ymin ymax) (fun tiley =>
      create_tile snapped xmin ymin (tile_scale zoom) zoom tilex tiley)) w
  = (Returned tt, w') ->
  exists new_tiles,
    tiles_of w' = tiles_of w ++ new_tiles /\
    counts_after new_tiles w (hist_values (self w')).
Proof.
  intros Hmz Hrun.
  pose (Inv := fun (s : World) =>
    tiler_frame s = tiler_frame w /\
    exists new_tiles,
      tiles_of s = tiles_of w ++ new_tiles /\
      counts_after new_tiles w (hist_values (self s))).
  assert (Hstep : forall x y s s',
            Inv s ->
            create_tile snapped xmin ymin (tile_scale zoom) zoom x y s = (Returned tt, s') ->
            Inv s').
  { intros x y s s' (Hf & new_tiles & Htiles & wh & Hwh & Hhv) Htile.
    pose proof (create_tile_tiler_frame snapped xmin ymin (tile_scale zoom) zoom x y s) as Hf'.
    rewrite Htile in Hf'. unfold same in Hf'. cbn [snd] in Hf'.
    assert (Hmzs : max_zoom (self s) = Some zoom)
      by (unfold tiler_frame in Hf; congruence).
    destruct (create_tile_pushed _ _ _ _ _ _ _ _ _ Hmzs Htile) as (t & sp & Ht & Hpush & Hsp).
    assert (Hbw : hist_bins (self wh) = hist_bins (self w)).
    { pose proof (pushes_tiler_frame (map (fun t => tile_bands (rast t)) new_tiles) w) as Hfw.
      rewrite Hwh in Hfw. unfold same, tiler_frame in Hfw. cbn [snd] in Hfw. congruence. }
    destruct (push_histogram_same_counts (tile_bands (rast t)) s wh sp)
      as (wh' & Hpush' & _ & Hv');
      [unfold tiler_frame in Hf; congruence | exact Hhv | exact Hpush |].
    split; [congruence|]. exists (new_tiles ++ [t]).
    split; [rewrite Ht, Htiles; now rewrite app_assoc|].
    rewrite Hsp, <- Hv'. exact (counts_after_snoc _ _ _ _ _ Hwh Hpush'). }
  assert (Hstart : Inv w).
  { split; [reflexivity|]. exists []. split; [now rewrite app_nil_r|].
    exists w. split; reflexivity. }
  assert (Hend : Inv w').
  { refine (for_each_returned (fun _ s => Inv s) _ _ (py_range_incl xmin xmax) [] w w'
              Hstart Hrun).
    intros _ x s s' Hs Hcolumn.
    refine (for_each_returned (fun _ s => Inv s) _ _ (py_range_incl ymin ymax) [] s s'
              Hs Hcolumn).
    intros _ y s1 s2 Hs1 Htile. exact (Hstep x y s1 s2 Hs1 Htile). }
  destruct Hend as (_ & new_tiles & Htiles & Hcounts). eauto.
Qed.

Lemma process_quadrant_pushed xmin ymin xmax ymax zoom w w' :
  max_zoom (self w) = Some zoom ->
  process_quadrant (xmin, ymin, xmax, ymax) zoom w = (Returned tt, w') ->
  exists new_tiles,
    tiles_of w' = tiles_of w ++ new_tiles /\
    counts_after new_tiles w (hist_values (self w')).
Proof.
  intros Hmz Hrun. unfold process_quadrant in Hrun.
  apply bind_returned_inv in Hrun as (snapped & w0 & Hsnap & Hloops).
  pose proof (snap_to_quadrant_tiler_frame (xmin, ymin, xmax, ymax) zoom w) as Hf.
  pose proof (snap_to_quadrant_tiles (xmin, ymin, xmax, ymax) zoom w) as Ht.
  pose proof (snap_to_quadrant_counts (xmin, ymin, xmax, ymax) zoom w) as Hc.
  rewrite Hsnap in Hf, Ht, Hc. unfold same, counts_of in Hf, Ht, Hc. cbn [snd] in Hf, Ht, Hc.
  unfold tiler_frame in Hf.
  apply quadrant_loops_pushed in Hloops as (new_tiles & Htiles & Hcounts); [|congruence].
  exists new_tiles. split; [congruence|].
  apply (counts_after_same new_tiles w0 w); [congruence | congruence | exact Hcounts].
Qed.

(** C3: the bin edges of every band are those set up before the finest
    level is tiled and stay as they are while it is tiled;
    [push_histogram] changes nothing but the running counts and lowers no
    count, and when it returns it has added, band by band, the histogram
    of the tile's block over the edges of the band to the counts of the
    band; tiling a quadrant touches the counts at the max zoom only, and
    there the counts it leaves when it returns are those it found with
    the blocks of every tile it stored pushed; a level other than the max
    zoom leaves the counts, the edges and the band metadata rows alone; and
    at the max zoom the rows are written once, after the last quadrant,
    with the counts accumulated by then. *)
Theorem histogram_accumulation :
  (forall band_data w,
     let w' := snd (push_histogram band_data w) in
     w' = with_self (set_hist_values (hist_values (self w'))) w /\
     hist_bins (self w') = hist_bins (self w) /\
     hist_le (hist_values (self w)) (hist_values (self w'))) /\
  (forall band_data w w',
     push_histogram band_data w = (Returned tt, w') ->
     length (hist_values (self w')) = length (hist_values (self w)) /\
     (forall i d, band_data !! i = Some d ->
        exists bins v v',
          hist_bins (self w) !! i = Some bins /\
          hist_values (self w) !! i = Some v /\
          pushed bins d v v' /\
          hist_values (self w') !! i = Some v') /\
     (forall i, (length band_data <= i)%nat ->
        hist_values (self w') !! i = hist_values (self w) !! i)) /\
  (forall indexrange zoom w,
     let w' := snd (process_quadrant indexrange zoom w) in
     hist_bins (self w') = hist_bins (self w) /\
     bandmetadata (db w') = bandmetadata (db w) /\
     hist_le (hist_values (self w)) (hist_values (self w')) /\
     (max_zoom (self w) <> Some zoom -> hist_values (self w') = hist_values (self w))) /\
  (forall xmin ymin xmax ymax zoom w w',
     max_zoom (self w) = Some zoom ->
     process_quadrant (xmin, ymin, xmax, ymax) zoom w = (Returned tt, w') ->
     exists new_tiles,
       tiles_of w' = tiles_of w ++ new_tiles /\
       counts_after new_tiles w (hist_values (self w'))) /\
  (forall zoom w,
     max_zoom (self w) <> Some zoom ->
     let w' := snd (populate_tile_level settings zoom w) in
     hist_values (self w') = hist_values (self w) /\
     hist_bins (self w') = hist_bins (self w) /\
     bandmetadata (db w') = bandmetadata (db w)) /\
  (forall w w' mz,
     max_zoom (self w) = Some mz ->
     populate_tile_level settings mz w = (Returned tt, w') ->
     exists w0 w1,
       create_initial_histogram_buckets w = (Returned tt, w0) /\
       (forall ds,
          dataset (self w) = Some ds ->
          Forall2 (edges_of (layer_id (rasterlayer (self w))) (bandmetadata (db w)))
            (seq 0 (length (bands ds))) (hist_bins (self w0))) /\
       hist_bins (self w1) = hist_bins (self w0) /\
       hist_le (hist_values (self w0)) (hist_values (self w1)) /\
       bandmetadata (db w1) = bandmetadata (db w) /\
       hist_bins (self w') = hist_bins (self w0) /\
       hist_values (self w') = hist_values (self w1) /\
       Forall2 (stored (layer_id (rasterlayer (self w))) (hist_values (self w1)))
         (bandmetadata (db w)) (bandmetadata (db w'))).
Proof.
  split; [|split; [|split; [|split; [|split]]]].
  - intros band_data w w'. subst w'.
    destruct (push_histogram_only_counts band_data w) as (hv' & Hw' & Hle).
    rewrite Hw'. cbn. repeat split. exact Hle.
  - intros band_data w w'. rewrite push_histogram_loop. unfold enumerate. intros Hrun.
    apply push_loop_returned in Hrun as (_ & Hlen & Hin & Hout).
    split; [exact Hlen|]. split; [exact Hin|].
    intros i Hi. apply Hout. right. exact Hi.
  - intros indexrange zoom w w'. subst w'.
    destruct (process_quadrant_tiling indexrange zoom w) as (Hf & Hle & Hk).
    unfold tiler_frame in Hf. repeat split; [congruence | congruence | exact Hle | exact Hk].
  - intros xmin ymin xmax ymax zoom w w' Hmz Hrun.
    exact (process_quadrant_pushed xmin ymin xmax ymax zoom w w' Hmz Hrun).
  - intros zoom w Hmz w'. subst w'.
    destruct (populate_tile_level_quiet settings zoom w) as [_ Hq].
    specialize (Hq Hmz). unfold histogram_state in Hq. repeat split; congruence.
  - intros w w' mz Hmz Hret.
    destruct (populate_tile_level_at_max_zoom settings w w' mz Hmz Hret)
      as (w0 & w1 & Hc & (Hf & Hle & _) & Hrows & Hbins & Hvals & Hstored).
    exists w0, w1. unfold tiler_frame in Hf.
    split; [exact Hc|]. split.
    { intros ds Hds. exact (create_initial_histogram_buckets_edges w w0 ds Hds Hc). }
    repeat split; [congruence | exact Hle | exact Hrows | exact Hbins
                   | exact Hvals | exact Hstored].
Qed.

End Accumulation.

(** ** Deleting tiles, and the max zoom *)

Section Dropping.
Context {platform : Platform}.

Lemma filter_twice {X} (p : X -> bool) (l : list X) :
  List.filter p (List.filter p l) = List.filter p l.
Proof.
  induction l as [|x l IH]; cbn; [reflexivity|].
  destruct (p x) eqn:Hp; cbn; [rewrite Hp; now f_equal | exact IH].
Qed.

Lemma filter_all {X} (p : X -> bool) (l : list X) :
  (forall x, In x l -> p x = true) -> List.filter p l = l.
Proof.
  induction l as [|x l IH]; intros H; cbn; [reflexivity|].
  rewrite (H x (or_introl eq_refl)). f_equal. apply IH. intros y Hy. apply H. now right.
Qed.

Lemma drop_all_tiles_rows (w : World) :
  fst (drop_all_tiles w) = Returned tt /\
  rasterlayer (self (snd (drop_all_tiles w))) = rasterlayer (self w) /\
  tiles_of (snd (drop_all_tiles w))
  = List.filter (fun t => negb (rasterlayer_id t =? layer_id (rasterlayer (self w))))
      (tiles_of w).
Proof. repeat split. Qed.

Lemma drop_empty_tiles_layer (w : World) :
  rasterlayer (self (snd (drop_empty_tiles w))) = rasterlayer (self w).
Proof. reflexivity. Qed.

(** X19: [drop_all_tiles] deletes the tiles of the parser's layer, all of
    them and no others.  A second run finds nothing to delete, dropping
    the empty tiles first makes no difference, and nothing is left for
    [drop_empty_tiles] to drop. *)
Theorem drop_all_tiles_clears (w : World) :
  let layer := layer_id (rasterlayer (self w)) in
  let w' := snd (drop_all_tiles w) in
  fst (drop_all_tiles w) = Returned tt /\
  (forall t, In t (tiles_of w') <-> In t (tiles_of w) /\ rasterlayer_id t <> layer) /\
  tiles_of (snd (drop_all_tiles w')) = tiles_of w' /\
  tiles_of (snd (drop_all_tiles (snd (drop_empty_tiles w)))) = tiles_of w' /\
  tiles_of (snd (drop_empty_tiles w')) = tiles_of w'.
Proof.
  intros layer w'. subst w'.
  destruct (drop_all_tiles_rows w) as (Hret & Hlayer & Htiles).
  split; [exact Hret|]. split; [|split; [|split]].
  - intros t. rewrite Htiles, filter_In, negb_true_iff, Z.eqb_neq. reflexivity.
  - destruct (drop_all_tiles_rows (snd (drop_all_tiles w))) as (_ & _ & Htiles').
    rewrite Htiles', Hlayer, Htiles. apply filter_twice.
  - destruct (drop_all_tiles_rows (snd (drop_empty_tiles w))) as (_ & _ & Htiles').
    rewrite Htiles', drop_empty_tiles_layer, Htiles.
    destruct (drop_empty_tiles_rows w) as (_ & Hempty).
    unfold tiles_of. rewrite Hempty. apply filter_filter_weaker.
    intros t Ht. apply negb_true_iff. apply negb_true_iff, Z.eqb_neq in Ht.
    unfold is_dropped. destruct (ST_Count (rast t)); [|reflexivity].
    apply andb_false_iff. right. now apply Z.eqb_neq.
  - destruct (drop_empty_tiles_rows (snd (drop_all_tiles w))) as (_ & Hempty).
    unfold tiles_of in *. rewrite Hempty, Hlayer, Htiles.
    apply filter_all. intros t Ht. apply filter_In in Ht as [_ Ht].
    apply negb_true_iff. apply negb_true_iff, Z.eqb_neq in Ht.
    unfold is_dropped. destruct (ST_Count (rast t)); [|reflexivity].
    apply andb_false_iff. right. now apply Z.eqb_neq.
Qed.

(** X20: what [drop_empty_tiles] deletes, as the query has it: the tiles of
    the parser's layer whose first band holds nothing but its nodata
    value.  Of the tiles with a single band these are the ones without
    data; a tile whose first band has pixels and no nodata value is kept;
    and a second run finds nothing to delete. *)
Theorem drop_empty_tiles_deletes (w : World) :
  let layer := layer_id (rasterlayer (self w)) in
  let w' := snd (drop_empty_tiles w) in
  (forall t, In t (tiles_of w') <-> In t (tiles_of w) /\ ~ first_band_empty layer t) /\
  (forall t b,
     tile_bands (rast t) = [b] ->
     (In t (tiles_of w') <->
      In t (tiles_of w) /\ ~ (rasterlayer_id t = layer /\ entirely_nodata t))) /\
  (forall t b rest v,
     In t (tiles_of w) -> tile_bands (rast t) = b :: rest ->
     data_nodata_value b = None -> In v (concat (data b)) ->
     In t (tiles_of w')) /\
  tiles_of (snd (drop_empty_tiles w')) = tiles_of w'.
Proof.
  intros layer w'. subst w'.
  destruct (drop_empty_tiles_rows w) as (_ & Htiles). fold layer in Htiles.
  assert (Hkept : forall t, In t (tiles_of (snd (drop_empty_tiles w)))
                            <-> In t (tiles_of w) /\ ~ first_band_empty layer t).
  { intros t. unfold tiles_of. rewrite Htiles, filter_In, negb_true_iff.
    rewrite <- not_true_iff_false. unfold first_band_empty.
    now rewrite (is_dropped_first_band layer t). }
  split; [exact Hkept|]. split; [|split].
  - intros t b Hb. rewrite Hkept. unfold first_band_empty.
    pose proof (is_dropped_first_band layer t) as H1.
    pose proof (is_dropped_single_band layer t b Hb) as H2.
    rewrite <- H1, H2. reflexivity.
  - intros t b rest v Hin Hb Hnone Hv. apply Hkept. split; [exact Hin|].
    intros (_ & b' & rest' & Hb' & Hempty). rewrite Hb in Hb'. injection Hb' as <- <-.
    unfold band_is_nodata in Hempty. rewrite Hnone in Hempty.
    rewrite List.Forall_forall in Hempty. exact (Hempty v Hv).
  - destruct (drop_empty_tiles_rows (snd (drop_empty_tiles w))) as (_ & Htiles').
    unfold tiles_of. rewrite Htiles', drop_empty_tiles_layer, Htiles. apply filter_twice.
Qed.

End Dropping.

Section MaxZoom.
Context {gdal : GDAL} {const : TilesConst} {grid : TileGrid} {platform : Platform}.
Context {zooms : ZoomLevels} (settings : Settings).

(** X21: the metadata row keeps the level that [closest_zoomlevel] gave,
    whatever the flag says.  With the flag disabled the parser tiles one
    level less than the row records, and tiling the recorded level does
    nothing.  Without a dataset the method raises before anything is
    written. *)
Theorem compute_max_zoom_metadata (w : World) :
  match dataset (self w) with
  | Some ds =>
      exists w' z mz,
        compute_max_zoom w = (Returned tt, w') /\
        z = closest_zoomlevel (Qabs (fst (scale ds))) /\
        meta_max_zoom (metadata (db w')) = Some z /\
        max_zoom (self w') = Some mz /\
        z - mz = (if zoomdown (self w) then 0 else 1) /\
        tiles_of w' = tiles_of w /\
        (zoomdown (self w) = false ->
         populate_tile_level settings z w' = (Returned tt, w'))
  | None => compute_max_zoom w = (Raised AttributeError, w)
  end.
Proof.
  destruct (dataset (self w)) as [ds|] eqn:Hds.
  - rewrite (compute_max_zoom_run w ds Hds). cbv zeta.
    set (z := closest_zoomlevel (Qabs (fst (scale ds)))).
    eexists _, z, (if zoomdown (self w) then z else z - 1).
    split; [reflexivity|]. split; [reflexivity|]. split; [reflexivity|].
    split; [reflexivity|]. split; [destruct (zoomdown (self w)); lia|].
    split; [reflexivity|].
    intros Hflag. rewrite Hflag. unfold populate_tile_level.
    match goal with
    | |- bind get_max_zoom _ ?s = _ =>
        rewrite (bind_returned _ _ _ _ _ (get_max_zoom_run s (z - 1) eq_refl))
    end.
    replace (z >? z - 1) with true; [reflexivity|].
    symmetry. rewrite Z.gtb_ltb. apply Z.ltb_lt. lia.
  - unfold compute_max_zoom, get_dataset, bind, read, raise. cbn. now rewrite Hds.
Qed.

End MaxZoom.

(** ** The inline colormap *)

Lemma key_eqb_eq (a b : ColorKey) : key_eqb a b = true <-> a = b.
Proof.
  destruct a as [i|s], b as [j|t]; cbn; split; try discriminate.
  - intros H. apply Z.eqb_eq in H. now subst.
  - intros [= ->]. apply Z.eqb_refl.
  - intros H. apply String.eqb_eq in H. now subst.
  - intros [= ->]. apply String.eqb_refl.
Qed.

Lemma key_eqb_refl (a : ColorKey) : key_eqb a a = true.
Proof. now apply key_eqb_eq. Qed.

Lemma key_eqb_neq (a b : ColorKey) : key_eqb a b = false <-> a <> b.
Proof. rewrite <- key_eqb_eq. now destruct (key_eqb a b). Qed.

(** A dict after [d[k] = v]. *)
Lemma dict_get_set (k k' : ColorKey) (v : Json) (d : Colormap) :
  dict_get k' (dict_set k v d) = if key_eqb k k' then Some v else dict_get k' d.
Proof.
  induction d as [|[k0 v0] d IH]; cbn.
  - reflexivity.
  - destruct (key_eqb k0 k) eqn:H0; cbn.
    + apply key_eqb_eq in H0 as ->. destruct (key_eqb k k'); reflexivity.
    + destruct (key_eqb k0 k') eqn:H1; [|exact IH].
      apply key_eqb_eq in H1 as ->.
      destruct (key_eqb k k') eqn:E; [|reflexivity].
      apply key_eqb_eq in E as ->. rewrite key_eqb_refl in H0. discriminate.
Qed.

Lemma dict_set_keys (k : ColorKey) (v : Json) (d : Colormap) :
  forall k', In k' (map fst (dict_set k v d)) <-> k' = k \/ In k' (map fst d).
Proof.
  intros k'. induction d as [|[k0 v0] d IH]; cbn.
  - intuition congruence.
  - destruct (key_eqb k0 k) eqn:H0; cbn.
    + apply key_eqb_eq in H0 as ->. intuition congruence.
    + rewrite IH. intuition congruence.
Qed.

Lemma dict_set_nodup (k : ColorKey) (v : Json) (d : Colormap) :
  List.NoDup (map fst d) -> List.NoDup (map fst (dict_set k v d)).
Proof.
  induction d as [|[k0 v0] d IH]; cbn; intros H.
  - constructor; [intros [] | constructor].
  - apply NoDup_cons_iff in H as [Hk0 Hd].
    destruct (key_eqb k0 k) eqn:H0; cbn.
    + constructor; assumption.
    + constructor; [|now apply IH].
      rewrite dict_set_keys. intros [->|Hin]; [|contradiction].
      now rewrite key_eqb_refl in H0.
Qed.

Section ColormapFacts.
Context {web : Web}.

Lemma int_keys_lookup (items : list (string * Json)) (acc c : Colormap) (i : Z) :
  TmsView.int_keys items acc = Returned c ->
  dict_get (KeyInt i) c
  = match last_for_int i items with
    | Some v => Some v
    | None => dict_get (KeyInt i) acc
    end.
Proof.
  revert acc. induction items as [|[k v] items IH]; intros acc; cbn.
  - now intros [= <-].
  - destruct (int_of_str k) as [j|]; [|discriminate].
    intros H. rewrite (IH _ H). destruct (last_for_int i items); [reflexivity|].
    rewrite dict_get_set. cbn. now destruct (j =? i).
Qed.

Lemma int_keys_nodup (items : list (string * Json)) (acc c : Colormap) :
  List.NoDup (map fst acc) -> TmsView.int_keys items acc = Returned c ->
  List.NoDup (map fst c).
Proof.
  revert acc. induction items as [|[k v] items IH]; intros acc Hacc; cbn.
  - now intros [= <-].
  - destruct (int_of_str k) as [j|]; [|discriminate].
    apply IH. now apply dict_set_nodup.
Qed.

Lemma int_keys_returns (items : list (string * Json)) (acc : Colormap) :
  (exists c, TmsView.int_keys items acc = Returned c)
  <-> Forall (fun item => int_of_str (fst item) <> None) items.
Proof.
  revert acc. induction items as [|[k v] items IH]; intros acc; cbn.
  - split; [constructor | eauto].
  - destruct (int_of_str k) as [j|] eqn:Hk.
    + rewrite IH. split.
      * intros H. constructor; [cbn; congruence | exact H].
      * now inversion 1.
    + split; [intros (c & [=]) | inversion 1; cbn in *; congruence].
Qed.

Lemma int_keys_raises (items : list (string * Json)) (acc : Colormap) (e : exn) :
  TmsView.int_keys items acc = Raised e -> e = ValueError.
Proof.
  revert acc. induction items as [|[k v] items IH]; intros acc; cbn; [discriminate|].
  destruct (int_of_str k); [apply IH | now intros [= <-]].
Qed.

(** X22: the inline colormap.  The parameter has to be a JSON object all
    of whose keys read as integers: text that is no JSON and a key that
    is no integer end in a [ValueError], JSON that is no object in an
    [AttributeError].  The dict that comes out has every integer once,
    with the value of the last key that reads as it. *)
Theorem parse_colormap_dict (clmp : string) :
  ((exists c, TmsView.parse_colormap clmp = Returned c) <->
   exists members,
     json_loads clmp = Some (JObject members) /\
     Forall (fun item => int_of_str (fst item) <> None) members) /\
  (forall c members,
     TmsView.parse_colormap clmp = Returned c ->
     json_loads clmp = Some (JObject members) ->
     List.NoDup (map fst c) /\
     forall i, dict_get (KeyInt i) c = last_for_int i members) /\
  (json_loads clmp = None -> TmsView.parse_colormap clmp = Raised ValueError) /\
  (forall members,
     json_loads clmp = Some (JObject members) ->
     Exists (fun item => int_of_str (fst item) = None) members ->
     TmsView.parse_colormap clmp = Raised ValueError) /\
  (forall j, json_loads clmp = Some j -> (forall members, j <> JObject members) ->
     TmsView.parse_colormap clmp = Raised AttributeError).
Proof.
  unfold TmsView.parse_colormap. split; [|split; [|split; [|split]]].
  - destruct (json_loads clmp) as [j|]; cbn.
    2:{ split; [intros (c & [=]) | intros (m & [=] & _)]. }
    destruct j as [| | | | |members]; cbn;
      try (split; [intros (c & E); discriminate E | intros (m & E & _); discriminate E]).
    rewrite int_keys_returns. split.
    + intros H. now exists members.
    + now intros (m & [= <-] & H).
  - intros c members Hparse Hjson. rewrite Hjson in Hparse. cbn in Hparse. split.
    + apply (int_keys_nodup members [] c); [constructor | exact Hparse].
    + intros i. rewrite (int_keys_lookup members [] c i Hparse).
      now destruct (last_for_int i members).
  - now intros ->.
  - intros members -> Hbad. cbn.
    destruct (TmsView.int_keys members []) as [c|e] eqn:Hrun.
    + exfalso. assert (Hall : Forall (fun item => int_of_str (fst item) <> None) members)
        by (apply (int_keys_returns members []); eauto).
      apply List.Exists_exists in Hbad as (item & Hin & Hnone).
      rewrite List.Forall_forall in Hall. exact (Hall item Hin Hnone).
    + now rewrite (int_keys_raises members [] e Hrun).
  - intros j -> Hj. destruct j; cbn; try reflexivity. now destruct (Hj members).
Qed.

End ColormapFacts.

(** ** The legend view and the tile view *)

Lemma filter_nil_iff {X} (p : X -> bool) (l : list X) :
  List.filter p l = [] <-> forall x, In x l -> p x = false.
Proof.
  induction l as [|x l IH]; cbn.
  - split; [intros _ y [] | reflexivity].
  - destruct (p x) eqn:Hp.
    + split; [discriminate|]. intros H. specialize (H x (or_introl eq_refl)). congruence.
    + rewrite IH. split.
      * intros H y [<-|Hy]; [exact Hp | now apply H].
      * intros H y Hy. apply H. now right.
Qed.

Section LegendFacts.
Context {model : LegendModel}.

(** X23: the legend view looks for a layer first, and for a legend by its
    title only when no layer matches.  The legend of the one layer that
    matches is the answer whatever legends there are; a layer without a
    legend ends the view in an [UnboundLocalError], not in a 404; the 404
    is raised exactly when neither a layer nor a legend matches, and
    [MultipleObjectsReturned] exactly when two layers match, or no layer
    and two legends. *)
Theorem legend_lookup (site : Site) (name : string) :
  let layers := LegendView.layers_named site name in
  let legends := LegendView.legends_titled site name in
  (forall lyr, layers = [lyr] ->
     LegendView.legend site name
     = match layer_legend lyr with
       | Some l => Responded (mkTextResponse 200 "application/json" (legend_json l))
       | None => UnboundLocalError
       end) /\
  (layers = [] -> forall l, legends = [l] ->
     LegendView.legend site name
     = Responded (mkTextResponse 200 "application/json" (legend_json l)) /\
     In l (legend_table site) /\ upper (title l) = upper name) /\
  (LegendView.legend site name = ViewRaised Http404 <->
   (forall lyr, In lyr (rasterlayer_table site) ->
      contains (file_name (rasterfile lyr)) ("rasters/" ++ name) = false) /\
   (forall l, In l (legend_table site) -> upper (title l) <> upper name)) /\
  (LegendView.legend site name = ViewRaised MultipleObjectsReturned <->
   (2 <= length layers)%nat \/ (layers = [] /\ (2 <= length legends)%nat)).
Proof.
  intros layers legends. unfold LegendView.legend. fold layers. fold legends.
  split; [|split; [|split]].
  - intros lyr ->. reflexivity.
  - intros -> l Hl. rewrite Hl. split; [reflexivity|].
    assert (Hin : In l legends) by (rewrite Hl; now left).
    apply filter_In in Hin as [Hin Htitle]. split; [exact Hin|].
    now apply String.eqb_eq in Htitle.
  - assert (Hlayers : layers = [] <->
              forall lyr, In lyr (rasterlayer_table site) ->
                contains (file_name (rasterfile lyr)) ("rasters/" ++ name) = false)
      by apply filter_nil_iff.
    assert (Hlegends : legends = [] <->
              forall l, In l (legend_table site) -> upper (title l) <> upper name).
    { unfold legends, LegendView.legends_titled. rewrite filter_nil_iff.
      split; intros H l Hl; specialize (H l Hl); unfold iexact in *.
      - now apply String.eqb_neq.
      - now apply String.eqb_neq. }
    rewrite <- Hlayers, <- Hlegends.
    destruct layers as [|lyr [|lyr' more]].
    + destruct legends as [|l [|l' more]].
      * split; [now split | reflexivity].
      * split; [discriminate | intros [_ [=]]].
      * split; [discriminate | intros [_ [=]]].
    + destruct (layer_legend lyr); (split; [discriminate | intros [[=] _]]).
    + split; [discriminate | intros [[=] _]].
  - destruct layers as [|lyr [|lyr' more]]; cbn [length].
    + destruct legends as [|l [|l' more]]; cbn [length].
      * split; [discriminate | intros [H|[_ H]]; lia].
      * split; [discriminate | intros [H|[_ H]]; lia].
      * split; [intros _; right; split; [reflexivity | lia] | reflexivity].
    + destruct (layer_legend lyr);
        (split; [discriminate | intros [H|[[=] _]]; lia]).
    + split; [intros _; left; lia | reflexivity].
Qed.

End LegendFacts.

Section TmsFacts.
Context {web : Web}.

Lemma get_colormap_raises (site : Site) (request : Request) (lyr : RasterLayer) (e : exn) :
  TmsView.get_colormap site request lyr = Raised e -> e = ValueError \/ e = AttributeError.
Proof.
  unfold TmsView.get_colormap, TmsView.parse_colormap.
  destruct (truthy_param "colormap" (GET request)) as [clmp|].
  - destruct (json_loads clmp) as [j|]; cbn; [|intros [= <-]; now left].
    destruct j as [| | | | |members]; cbn; try (intros [= <-]; now right).
    assert (H : forall acc, (c <-! TmsView.int_keys members acc ;; Returned (Some c)) = Raised e ->
                            e = ValueError).
    { induction members as [|[k v] members IH]; intros acc; cbn; [discriminate|].
      destruct (int_of_str k); [apply IH | now intros [= <-]]. }
    intros E. left. exact (H _ E).
  - destruct (match truthy_param "legend" (GET request) with
              | Some q => TmsView.legend_by_title site q
              | None => layer_legend lyr
              end); [|discriminate].
    destruct (truthy_param "entries" (GET request)); discriminate.
Qed.

(** X24: the layer of a tile request is found by its file name.  The view
    raises the 404 exactly when the name of no raster file contains the
    requested name after "rasters/", and [MultipleObjectsReturned] exactly
    when the names of two or more do, whatever the rest of the request
    is. *)
Theorem tms_get_layer_lookup (site : Site) (request : Request) :
  let wanted := fun l : RasterLayer =>
    contains (file_name (rasterfile l)) ("rasters/" ++ kw_layer request) in
  (TmsView.get site request = Raised Http404 <->
   forall l, In l (rasterlayer_table site) -> wanted l = false) /\
  (TmsView.get site request = Raised MultipleObjectsReturned <->
   (2 <= length (List.filter wanted (rasterlayer_table site)))%nat) /\
  (forall lyr, TmsView.get_layer site request = Returned lyr <->
     List.filter wanted (rasterlayer_table site) = [lyr]).
Proof.
  intros wanted.
  assert (Hlater : forall lyr e,
            (colormap <-! TmsView.get_colormap site request lyr ;;
             img <-! match TmsView.find_tiles site request lyr, colormap with
                     | t :: _, Some c =>
                         if TmsView.colormap_bool colormap
                         then or_raise ValueError (rast_img (rast t) c)
                         else Returned (Image_new "RGBA" (256, 256) (0, 0, 0, 0))
                     | _, _ => Returned (Image_new "RGBA" (256, 256) (0, 0, 0, 0))
                     end ;;
             content_type <-! TmsView.get_format request ;;
             format <-! TmsView.get_format request ;;
             written <-! or_raise IOError (Image_save img format) ;;
             Returned (mkHttpResponse 200 content_type written)) = Raised e ->
            e <> Http404 /\ e <> MultipleObjectsReturned).
  { intros lyr e.
    destruct (TmsView.get_colormap site request lyr) as [c|e'] eqn:Hc; cbn.
    2:{ intros [= <-]. destruct (get_colormap_raises _ _ _ _ Hc) as [->| ->]; now split. }
    assert (Hformat : forall img : Image,
              (content_type <-! TmsView.get_format request ;;
               format <-! TmsView.get_format request ;;
               written <-! or_raise IOError (Image_save img format) ;;
               Returned (mkHttpResponse 200 content_type written)) = Raised e ->
              e <> Http404 /\ e <> MultipleObjectsReturned).
    { intros img. unfold TmsView.get_format.
      destruct (IMG_FORMATS (kw_format request)) as [format|]; cbn.
      - destruct (Image_save img format); cbn; [discriminate|].
        intros [= <-]. now split.
      - intros [= <-]. now split. }
    destruct (TmsView.find_tiles site request lyr) as [|t more]; cbn; [apply Hformat|].
    destruct c as [c|]; cbn; [|apply Hformat].
    destruct c as [|entry c]; cbn; [apply Hformat|].
    destruct (rast_img (rast t) (entry :: c)); cbn; [apply Hformat|].
    intros [= <-]. now split. }
  unfold TmsView.get, TmsView.get_layer. fold wanted.
  rewrite <- filter_nil_iff.
  destruct (List.filter wanted (rasterlayer_table site)) as [|lyr [|lyr' more]];
    cbn [outcome_bind length].
  - split; [tauto|]. split; [split; [discriminate | lia]|].
    intros lyr. split; discriminate.
  - split; [|split].
    + split; [|discriminate]. intros E. now destruct (Hlater lyr _ E).
    + split; [|lia]. intros E. now destruct (Hlater lyr _ E).
    + intros l. split; [now intros [= ->] | now intros [= ->]].
  - split; [split; discriminate|]. split; [split; [lia | reflexivity]|].
    intros l. split; discriminate.
Qed.

(** X25: when exactly one tile record has the requested index and layer,
    the image that the view saves is that record's raster rendered with the
    colormap that the request resolves to.  When PIL writes the image in
    the requested format, the view answers with status 200 and with what
    PIL wrote; when PIL refuses the image in that format, the view ends in
    the [IOError] of PIL. *)
Theorem tms_get_renders (site : Site) (request : Request) (lyr : RasterLayer)
    (t : RasterTile) (c : Colormap) (img : Image) (format : string) :
  TmsView.get_layer site request = Returned lyr ->
  TmsView.find_tiles site request lyr = [t] ->
  TmsView.get_colormap site request lyr = Returned (Some c) ->
  c <> [] ->
  rast_img (rast t) c = Some img ->
  IMG_FORMATS (kw_format request) = Some format ->
  ((forall written,
      Image_save img format = Some written ->
      TmsView.get site request = Returned (mkHttpResponse 200 format written)) /\
   (Image_save img format = None -> TmsView.get site request = Raised IOError)) /\
  In t (rastertile_table site) /\
  tile_index t = (kw_x request, kw_y request) /\ tilez t = kw_z request /\
  rasterlayer_id t = layer_id lyr.
Proof.
  intros Hlayer Htiles Hcolormap Hc Himg Hformat. split.
  - assert (Hget : TmsView.get site request
                   = (written <-! or_raise IOError (Image_save img format) ;;
                      Returned (mkHttpResponse 200 format written))).
    { unfold TmsView.get, TmsView.get_format. rewrite Hlayer. cbn [outcome_bind].
      rewrite Hcolormap, Htiles, Hformat. cbn [outcome_bind or_raise].
      destruct c as [|entry c]; [contradiction|]. cbn. rewrite Himg. reflexivity. }
    split.
    + intros written Hsave. rewrite Hget. now apply save_image_written.
    + intros Hsave. rewrite Hget. now apply save_image_refused.
  - assert (Hin : In t (TmsView.find_tiles site request lyr)) by (rewrite Htiles; now left).
    apply filter_In in Hin as [Hin Hmatch]. split; [exact Hin|].
    apply andb_true_iff in Hmatch as [Hmatch Hid].
    apply andb_true_iff in Hmatch as [Hmatch Hz].
    apply andb_true_iff in Hmatch as [Hx Hy].
    apply Z.eqb_eq in Hx, Hy, Hz, Hid. unfold tile_index.
    split; [congruence|]. now split.
Qed.

(** X26: a colormap that comes out absent or empty.  A legend that the
    request names but the table does not have is not made up for by the
    legend of the layer, and entries that are no key of the legend leave
    an empty colormap.  For both requests the image that the view saves is
    the transparent one: the view answers with status 200 and with what
    PIL wrote of it in the requested format, or ends in the [IOError] of
    PIL when PIL refuses the image in that format. *)
Theorem tms_get_no_colormap (site : Site) (request : Request) (lyr : RasterLayer)
    (format : string) :
  TmsView.get_layer site request = Returned lyr ->
  truthy_param "colormap" (GET request) = None ->
  IMG_FORMATS (kw_format request) = Some format ->
  let blank := exists img,
    transparent img /\
    (forall written,
       Image_save img format = Some written ->
       TmsView.get site request = Returned (mkHttpResponse 200 format written)) /\
    (Image_save img format = None -> TmsView.get site request = Raised IOError) in
  (forall q,
     truthy_param "legend" (GET request) = Some q ->
     (forall l, In l (legend_table site) -> upper (title l) <> upper q) ->
     TmsView.get_colormap site request lyr = Returned None /\ blank) /\
  (forall l entries,
     truthy_param "legend" (GET request) = None ->
     layer_legend lyr = Some l ->
     truthy_param "entries" (GET request) = Some entries ->
     (forall k v, In (k, v) (colormap l) -> ~ In (str_of_key k) (split_comma entries)) ->
     TmsView.get_colormap site request lyr = Returned (Some []) /\ blank).
Proof.
  intros Hlayer Hinline Hformat blank.
  assert (Hblank : forall c, TmsView.get_colormap site request lyr = Returned c ->
                             TmsView.colormap_bool c = false -> blank).
  { intros c Hc Hfalsy.
    pose proof (tms_get_empty_image site request lyr c format
                  Hlayer Hc Hformat (or_intror Hfalsy)) as Hget.
    exists (Image_new "RGBA" (256, 256) (0, 0, 0, 0)).
    split; [now repeat split|]. split.
    - intros written Hsave. rewrite Hget. now apply save_image_written.
    - intros Hsave. rewrite Hget. now apply save_image_refused. }
  split.
  - intros q Hq Hnone.
    assert (Hc : TmsView.get_colormap site request lyr = Returned None).
    { unfold TmsView.get_colormap. rewrite Hinline, Hq.
      unfold TmsView.legend_by_title.
      destruct (List.find _ _) as [l|] eqn:Hfind; [|reflexivity].
      apply find_some in Hfind as [Hin Hmatch]. apply String.eqb_eq in Hmatch.
      now destruct (Hnone l Hin). }
    split; [exact Hc | now apply (Hblank None)].
  - intros l entries Hq Hl Hentries Hnokey.
    assert (Hc : TmsView.get_colormap site request lyr = Returned (Some [])).
    { unfold TmsView.get_colormap. rewrite Hinline, Hq, Hl, Hentries. do 2 f_equal.
      unfold TmsView.filter_entries. apply filter_nil_iff. intros [k v] Hin.
      apply not_true_iff_false. intros Hyes. apply str_in_In in Hyes.
      exact (Hnokey k v Hin Hyes). }
    split; [exact Hc | now apply (Hblank (Some []))].
Qed.

End TmsFacts.

(** ** The signal and the stored histogram *)

Lemma py_index_some {A} (l : list A) (i : Z) :
  py_index l i <> None <-> - Z.of_nat (length l) <= i < Z.of_nat (length l).
Proof.
  unfold py_index.
  destruct ((0 <=? i) && (i <? Z.of_nat (length l))) eqn:Hpos.
  - apply andb_true_iff in Hpos as [H0 H1]. apply Z.leb_le in H0. apply Z.ltb_lt in H1.
    split; [lia|]. intros _ Hnone. apply lookup_ge_None in Hnone. lia.
  - destruct ((- Z.of_nat (length l) <=? i) && (i <? 0)) eqn:Hneg.
    + apply andb_true_iff in Hneg as [H0 H1]. apply Z.leb_le in H0. apply Z.ltb_lt in H1.
      split; [lia|]. intros _ Hnone. apply lookup_ge_None in Hnone. lia.
    + split; [congruence|]. intros H. exfalso.
      apply andb_false_iff in Hpos. apply andb_false_iff in Hneg.
      rewrite !Z.leb_gt, !Z.ltb_ge in *. lia.
Qed.

Lemma store_hist_values_length layer hv rows :
  length (fst (store_hist_values layer hv rows)) = length rows.
Proof.
  induction rows as [|r rows IH]; cbn [store_hist_values]; [reflexivity|].
  destruct (bm_rasterlayer r =? layer).
  - destruct (py_index hv (bm_band r)); [|reflexivity].
    destruct (store_hist_values layer hv rows) as [rest e]. cbn in *. now rewrite IH.
  - destruct (store_hist_values layer hv rows) as [rest e]. cbn in *. now rewrite IH.
Qed.

Lemma store_hist_values_error layer hv rows :
  match snd (store_hist_values layer hv rows) with
  | None =>
      Forall (fun row => bm_rasterlayer row = layer -> py_index hv (bm_band row) <> None) rows
  | Some e =>
      e = IndexError /\
      Exists (fun row => bm_rasterlayer row = layer /\ py_index hv (bm_band row) = None) rows
  end.
Proof.
  induction rows as [|r rows IH]; cbn [store_hist_values]; [constructor|].
  destruct (bm_rasterlayer r =? layer) eqn:Hl.
  - apply Z.eqb_eq in Hl. destruct (py_index hv (bm_band r)) eqn:Hi.
    + destruct (store_hist_values layer hv rows) as [rest [e|]]; cbn in *.
      * destruct IH as [-> IH]. split; [reflexivity | now apply Exists_cons_tl].
      * constructor; [intros _; congruence | exact IH].
    + cbn. split; [reflexivity|]. apply Exists_cons_hd. now split.
  - apply Z.eqb_neq in Hl.
    destruct (store_hist_values layer hv rows) as [rest [e|]]; cbn in *.
    + destruct IH as [-> IH]. split; [reflexivity | now apply Exists_cons_tl].
    + constructor; [intros H; contradiction | exact IH].
Qed.

Section Signals.
Context {gdal : GDAL} {const : TilesConst} {grid : TileGrid} {platform : Platform}.
Context (settings : Settings).

Lemma open_call_signals source path : keeps signals (modify (with_call (CallOpen source path))).
Proof.
  intros w. unfold same, signals, modify, with_call. cbn.
  rewrite flat_map_app. cbn. apply app_nil_r.
Qed.

Lemma transform_call_signals ds target :
  keeps signals (modify (with_call (CallTransform ds target))).
Proof.
  intros w. unfold same, signals, modify, with_call. cbn.
  rewrite flat_map_app. cbn. apply app_nil_r.
Qed.

Lemma warp_call_signals ds options : keeps signals (modify (with_call (CallWarp ds options))).
Proof.
  intros w. unfold same, signals, modify, with_call. cbn.
  rewrite flat_map_app. cbn. apply app_nil_r.
Qed.

Lemma log_signals msg st zoom : keeps signals (log msg st zoom).
Proof. unfold log. frame. Qed.

#[local] Hint Resolve open_call_signals transform_call_signals warp_call_signals log_signals
  : frames.

Lemma save_bandmeta_signals layer i band :
  keeps signals (modify (with_db (save_bandmeta layer i band))).
Proof.
  intros w. reflexivity.
Qed.

Lemma open_first_signals source matches : keeps signals (open_first source matches).
Proof. induction matches as [|m rest IH]; cbn [open_first]; frame. Qed.

Lemma store_histogram_data_signals : keeps signals store_histogram_data.
Proof.
  intros w. unfold store_histogram_data, bind, read. cbn.
  destruct (store_hist_values _ _ _) as [rows [e|]]; reflexivity.
Qed.

#[local] Hint Resolve save_bandmeta_signals open_first_signals store_histogram_data_signals
  : frames.

Lemma populate_tile_level_signals zoom : keeps signals (populate_tile_level settings zoom).
Proof.
  assert (Hquadrant : forall ir, keeps signals (process_quadrant ir zoom)).
  { intros ir. unfold process_quadrant, snap_to_quadrant, create_tile, push_histogram,
      get_dataset, get_tmpdir, get_max_zoom, get_layer_id, temp_name. frame. }
  assert (Hgroup : forall quads,
    keeps signals
      (group_apply settings (map (fun indexrange => process_quadrant indexrange zoom) quads))).
  { intros quads. apply keeps_group_apply. exact Hquadrant. }
  unfold populate_tile_level, populate_quadrants, create_initial_histogram_buckets,
    nr_of_tiles, get_dataset, get_layer_id, get_max_zoom.
  frame.
Qed.

(** X27: the end-of-parse signal is sent by [send_success_signal] and by
    no other method: once, for the parser's layer, as the last call, with
    the status set to finished and the tiles as they were. *)
Theorem success_signal_sent_once {zooms : ZoomLevels} (zoom_levels : Z + list Z) :
  keeps signals (open_raster_file settings) /\
  keeps signals compute_max_zoom /\
  keeps signals (create_tiles settings zoom_levels) /\
  keeps signals drop_all_tiles /\
  keeps signals drop_empty_tiles /\
  forall w,
    let w' := snd (send_success_signal w) in
    fst (send_success_signal w) = Returned tt /\
    calls w' = calls w ++ [CallSignal (layer_id (rasterlayer (self w)))] /\
    signals w' = signals w ++ [layer_id (rasterlayer (self w))] /\
    status_of w' = FINISHED /\
    tiles_of w' = tiles_of w.
Proof.
  split; [|split; [|split; [|split; [|split]]]].
  - unfold open_raster_file, open_and_reproject, get_or_create_reprojected, open_source,
      extract_metadata, reproject, apply_nodata, assign_nodata, get_dataset, get_tmpdir,
      get_layer_id, temp_name.
    frame.
  - unfold compute_max_zoom, get_dataset, get_max_zoom. frame.
  - destruct zoom_levels as [zoom|levels]; cbn [create_tiles].
    + apply populate_tile_level_signals.
    + apply keeps_for_each. intros zoom. apply populate_tile_level_signals.
  - unfold drop_all_tiles, get_layer_id. frame.
  - unfold drop_empty_tiles, get_layer_id. frame.
  - intros w w'. subst w'. split; [reflexivity|]. split; [reflexivity|].
    split; [|split; reflexivity].
    unfold signals. cbn. rewrite flat_map_app. reflexivity.
Qed.

(** X28: lines 240-244.  The counts are written to every band metadata row
    of the layer, which fails with an [IndexError] exactly when the
    running counts have no entry for the band of one of these rows; rows
    are neither added nor removed, and nothing but the band metadata
    changes. *)
Theorem store_histogram_data_rows (w : World) :
  let layer := layer_id (rasterlayer (self w)) in
  let hv := hist_values (self w) in
  let rows := bandmetadata (db w) in
  let r := store_histogram_data w in
  (fst r = Returned tt <->
   Forall (fun row => bm_rasterlayer row = layer ->
                      - Z.of_nat (length hv) <= bm_band row < Z.of_nat (length hv)) rows) /\
  (fst r = Returned tt -> Forall2 (stored layer hv) rows (bandmetadata (db (snd r)))) /\
  (forall e, fst r = Raised e -> e = IndexError) /\
  length (bandmetadata (db (snd r))) = length rows /\
  snd r = with_db (set_bandmetadata (bandmetadata (db (snd r)))) w.
Proof.
  intros layer hv rows r. subst r. unfold store_histogram_data, bind, read.
  cbn [fst snd]. fold layer hv rows.
  pose proof (store_hist_values_error layer hv rows) as Herr.
  pose proof (store_hist_values_length layer hv rows) as Hlen.
  pose proof (store_hist_values_stored layer hv rows) as Hstored.
  destruct (store_hist_values layer hv rows) as [rows' [e|]]; cbn in *.
  - destruct Herr as [-> Hbad]. split; [|split; [|split; [|split]]].
    + split; [discriminate|]. intros Hall. exfalso.
      apply List.Exists_exists in Hbad as (row & Hin & Hl & Hnone).
      rewrite List.Forall_forall in Hall. specialize (Hall row Hin Hl).
      apply py_index_some in Hall. contradiction.
    + discriminate.
    + now intros e [= <-].
    + exact Hlen.
    + reflexivity.
  - split; [|split; [|split; [|split]]].
    + split; [|reflexivity]. intros _.
      eapply Forall_impl; [exact Herr|]. cbn. intros row H Hl.
      apply py_index_some. now apply H.
    + intros _. now apply Hstored.
    + discriminate.
    + exact Hlen.
    + reflexivity.
Qed.

End Signals.

(** ** The candidates of an archive *)

Lemma has_dot_spec (name : string) :
  has_dot name = true <-> exists before after, name = (before ++ "." ++ after)%string.
Proof.
  induction name as [|c name IH]; cbn.
  - split; [discriminate|]. intros ([|? ?] & after & H); discriminate.
  - unfold ascii_is. destruct (Ascii.eqb c ".") eqn:Hc; cbn.
    + apply Ascii.eqb_eq in Hc. subst c. split; [|reflexivity].
      intros _. now exists EmptyString, name.
    + rewrite IH. split.
      * intros (before & after & ->). now exists (String c before), after.
      * intros ([|c' before] & after & H); cbn in H.
        -- injection H as -> _. now rewrite Ascii.eqb_refl in Hc.
        -- injection H as -> ->. now exists before, after.
Qed.

Lemma matched_files_spec (walk : list (string * list string)) (path : string) :
  In path (matched_files walk) <->
  exists root filenames filename,
    In (root, filenames) walk /\ In filename filenames /\
    has_dot filename = true /\ path = path_join root filename.
Proof.
  unfold matched_files. rewrite in_flat_map. split.
  - intros ([root filenames] & Hwalk & Hin). apply in_map_iff in Hin as (filename & <- & Hin).
    apply filter_In in Hin as [Hin Hdot]. now exists root, filenames, filename.
  - intros (root & filenames & filename & Hwalk & Hin & Hdot & ->).
    exists (root, filenames). split; [exact Hwalk|].
    apply in_map_iff. exists filename. split; [reflexivity|]. now apply filter_In.
Qed.

Section Archives.
Context {gdal : GDAL} {const : TilesConst} {grid : TileGrid} {platform : Platform}.
Context (settings : Settings).

(** X29: the candidates of an archive are the extracted files whose name
    holds a dot, under the directory they were found in.  An archive
    without such a file ends [open_raster_file] in its [RasterException]
    before GDAL is called at all. *)
Theorem open_raster_file_archive_candidates (w : World) (walk : list (string * list string)) :
  let source := working_source w in
  let dir := mkdtemp (RASTER_WORKDIR settings) (ticks w) in
  lower (splitext_ext (path_join dir (basename (file_name source)))) = ".zip" ->
  extract_and_walk dir source = Some walk ->
  (forall path,
     In path (matched_files walk) <->
     exists root filenames before after,
       In (root, filenames) walk /\ In (before ++ "." ++ after)%string filenames /\
       path = path_join root (before ++ "." ++ after)) /\
  (matched_files walk = [] ->
   fst (open_raster_file settings w) = Raised (RasterException "Could not open rasterfile.") /\
   calls (snd (open_raster_file settings w)) = calls w /\
   dataset (self (snd (open_raster_file settings w))) = None).
Proof.
  intros source dir Hzip Hwalk. split.
  - intros path. rewrite matched_files_spec. split.
    + intros (root & filenames & filename & Hin & Hname & Hdot & ->).
      apply has_dot_spec in Hdot as (before & after & ->).
      now exists root, filenames, before, after.
    + intros (root & filenames & before & after & Hin & Hname & ->).
      exists root, filenames, (before ++ "." ++ after)%string.
      split; [exact Hin|]. split; [exact Hname|]. split; [|reflexivity].
      apply has_dot_spec. now exists before, after.
  - intros Hnone.
    pose proof (archive_has_name dir source Hzip) as Hbase.
    pose proof (open_source_archive_none settings source (entered w) walk) as Hopen.
    cbv zeta in Hopen. rewrite (entered_ticks w) in Hopen. fold dir in Hopen.
    specialize (Hopen Hbase Hzip Hwalk). rewrite Hnone in Hopen.
    specialize (Hopen (List.Forall_nil _)).
    rewrite open_raster_file_phases. fold source. rewrite Hopen. cbn [fst snd map].
    split; [reflexivity|]. split; [|reflexivity].
    rewrite with_calls_nil. cbn. apply entered_calls.
Qed.

End Archives.

(** ** The deployment at work *)

Lemma process_quadrant_tiles_witness :
  fst (process_quadrant (gdal := Demo.gdal) (const := Demo.const) (grid := Demo.grid)
         (platform := Demo.platform) (0, 0, 1, 0) 0 Demo.opened) = Returned tt /\
  exists options,
    warp_width options = 4 /\
    warp_height options = 2 /\
    calls (snd (process_quadrant (gdal := Demo.gdal) (const := Demo.const)
                  (grid := Demo.grid) (platform := Demo.platform) (0, 0, 1, 0) 0 Demo.opened))
    = calls Demo.opened ++ [CallWarp Demo.opened_dataset options].
Proof.
  split; [vm_compute; reflexivity|].
  destruct (process_quadrant_tiles (gdal := Demo.gdal) (const := Demo.const)
              (grid := Demo.grid) (platform := Demo.platform)
              Demo.opened Demo.opened_dataset "/tmp/raster" 0 0 1 0 0 eq_refl eq_refl)
    as (options & Hw & Hh & Hcalls & _ & _).
  exists options. split; [exact Hw|]. split; [exact Hh | exact Hcalls].
Defined.

Lemma histogram_accumulation_witness :
  (exists w0 w1,
     create_initial_histogram_buckets Demo.opened = (Returned tt, w0) /\
     hist_bins (self w1) = hist_bins (self w0) /\
     hist_le (hist_values (self w0)) (hist_values (self w1)) /\
     bandmetadata (db w1) = bandmetadata (db Demo.opened)) /\
  (let start := snd (create_initial_histogram_buckets Demo.opened) in
   hist_values (self start) = [[0; 0]] /\
   exists new_tiles,
     map (fun t => map data (tile_bands (rast t))) new_tiles
     = [[[[1%Q; 4%Q]; [4%Q; 1%Q]]]; [[[1%Q; 4%Q]; [4%Q; 1%Q]]]] /\
     counts_after new_tiles start [[4; 4]]).
Proof.
  split.
  - destruct (proj2 (proj2 (proj2 (proj2 (proj2 (histogram_accumulation (gdal := Demo.gdal)
                (const := Demo.const) (grid := Demo.grid) (platform := Demo.platform)
                Demo.settings)))))
                Demo.opened
                (snd (populate_tile_level (gdal := Demo.gdal) (const := Demo.const)
                        (grid := Demo.grid) (platform := Demo.platform)
                        Demo.settings 1 Demo.opened))
                1 eq_refl)
      as (w0 & w1 & Hc & _ & Hb & Hle & Hrows & _).
    + vm_compute. reflexivity.
    + exists w0, w1. split; [exact Hc|]. split; [exact Hb|]. split; [exact Hle | exact Hrows].
  - intros start. split; [vm_compute; reflexivity|].
    destruct (proj1 (proj2 (proj2 (proj2 (histogram_accumulation (gdal := Demo.gdal)
                (const := Demo.const) (grid := Demo.grid) (platform := Demo.platform)
                Demo.settings))))
                0 0 1 0 1 start
                (snd (process_quadrant (gdal := Demo.gdal) (const := Demo.const)
                        (grid := Demo.grid) (platform := Demo.platform) (0, 0, 1, 0) 1 start))
                eq_refl)
      as (new_tiles & Htiles & Hcounts).
    + vm_compute. reflexivity.
    + exists new_tiles. split; [|exact Hcounts].
      apply (f_equal (map (fun t => map data (tile_bands (rast t))))) in Htiles.
      rewrite map_app in Htiles. vm_compute in Htiles. symmetry. exact Htiles.
Defined.

Lemma open_raster_file_reuses_cache_witness :
  reprojected (db (snd (open_raster_file (gdal := Demo.gdal) (const := Demo.const)
                          (platform := Demo.platform) Demo.settings Demo.cached)))
  = Some (mkReprojected (mkFile "reprojected.zip" "mercator")) /\
  exists paths,
    calls (snd (open_raster_file (gdal := Demo.gdal) (const := Demo.const)
                  (platform := Demo.platform) Demo.settings Demo.cached))
    = calls Demo.cached ++ map (CallOpen (mkFile "reprojected.zip" "mercator")) paths.
Proof.
  refine (proj2 (open_raster_file_reuses_cache (gdal := Demo.gdal) (const := Demo.const)
                   (platform := Demo.platform) Demo.settings Demo.cached
                   (mkReprojected (mkFile "reprojected.zip" "mercator")) eq_refl eq_refl _)).
  intros path ds. cbn.
  destruct (String.eqb (lower (splitext_ext path)) ".tif"); [|discriminate].
  intros [= <-]. eexists. split; reflexivity.
Defined.

Lemma open_raster_file_archive_witness :
  fst (open_source (gdal := Demo.gdal) (platform := Demo.platform) Demo.settings
         (mkFile "rasters/demo.zip" "wgs84") (entered Demo.zipped)) = Returned tt /\
  dataset (self (snd (open_source (gdal := Demo.gdal) (platform := Demo.platform)
                        Demo.settings (mkFile "rasters/demo.zip" "wgs84")
                        (entered Demo.zipped))))
  = Some (Demo.raster "/tmp/raster/demo.tif" 4326) /\
  calls (snd (open_source (gdal := Demo.gdal) (platform := Demo.platform) Demo.settings
                (mkFile "rasters/demo.zip" "wgs84") (entered Demo.zipped)))
  = calls Demo.zipped
    ++ map (CallOpen (mkFile "rasters/demo.zip" "wgs84"))
         (["/tmp/raster/notes.txt"] ++ ["/tmp/raster/demo.tif"]).
Proof.
  refine (proj1 (open_raster_file_archive (gdal := Demo.gdal) (const := Demo.const)
                   (platform := Demo.platform) Demo.settings Demo.zipped
                   [("/tmp/raster", ["README"; "notes.txt"; "demo.tif"; "other.tif"])]
                   eq_refl eq_refl)
            ["/tmp/raster/notes.txt"] "/tmp/raster/demo.tif" ["/tmp/raster/other.tif"]
            (Demo.raster "/tmp/raster/demo.tif" 4326) eq_refl _ eq_refl).
  constructor; [reflexivity | constructor].
Defined.

Lemma populate_tile_level_above_max_zoom_witness :
  populate_tile_level (gdal := Demo.gdal) (const := Demo.const) (grid := Demo.grid)
    (platform := Demo.platform) Demo.settings 2 Demo.opened
  = (Returned tt, Demo.opened).
Proof.
  apply (populate_tile_level_above_max_zoom (gdal := Demo.gdal) (const := Demo.const)
           (grid := Demo.grid) (platform := Demo.platform) Demo.settings Demo.opened 2 1).
  - reflexivity.
  - reflexivity.
Defined.

Lemma nodata_override_witness :
  open_raster_file (gdal := Demo.gdal) (const := Demo.const) (platform := Demo.platform)
    Demo.settings Demo.zero_nodata
  = (Returned tt,
     with_self (set_dataset (Some Demo.opened_dataset))
       (snd (open_and_reproject (gdal := Demo.gdal) (const := Demo.const)
               (platform := Demo.platform) Demo.settings Demo.zero_nodata))).
Proof.
  refine (proj1 (proj2 (proj2 (nodata_override (gdal := Demo.gdal) (const := Demo.const)
                   (platform := Demo.platform) Demo.settings Demo.zero_nodata
                   (snd (open_and_reproject (gdal := Demo.gdal) (const := Demo.const)
                           (platform := Demo.platform) Demo.settings Demo.zero_nodata))
                   _)))
            eq_refl (Demo.raster "/tmp/raster/demo.tif" 3857) 0%Q eq_refl eq_refl).
  vm_compute. reflexivity.
Defined.

Lemma colormap_precedence_witness :
  layer_legend (Demo.layer (mkFile "rasters/demo.tif" "mercator") PyNone) = Some Demo.legend /\
  TmsView.get_colormap (web := Demo.web) Demo.site
    (Demo.request [("colormap", Demo.inline_colormap)] 1 ".png")
    (Demo.layer (mkFile "rasters/demo.tif" "mercator") PyNone)
  = Returned (Some [(KeyInt 1, JString "#ff0000")]).
Proof.
  split; [reflexivity|].
  exact (proj1 (proj1 (colormap_precedence (web := Demo.web) Demo.site
                         (Demo.request [("colormap", Demo.inline_colormap)] 1 ".png")
                         (Demo.layer (mkFile "rasters/demo.tif" "mercator") PyNone))
                  Demo.inline_colormap eq_refl)).
Defined.

(** C8, as stated, fails: on the existing layer, for an index that has no
    tile record, a request whose colormap parameter is no JSON makes the
    view raise, and so does a request for a format that is not
    registered. *)
Lemma tms_get_raises :
  TmsView.get_layer Demo.site (Demo.request [("colormap", "x")] 5 ".png")
  = Returned (Demo.layer (mkFile "rasters/demo.tif" "mercator") PyNone) /\
  TmsView.find_tiles Demo.site (Demo.request [("colormap", "x")] 5 ".png")
    (Demo.layer (mkFile "rasters/demo.tif" "mercator") PyNone) = [] /\
  TmsView.get (web := Demo.web) Demo.site (Demo.request [("colormap", "x")] 5 ".png")
  = Raised ValueError /\
  TmsView.find_tiles Demo.site (Demo.request [] 5 ".gif")
    (Demo.layer (mkFile "rasters/demo.tif" "mercator") PyNone) = [] /\
  TmsView.get (web := Demo.web) Demo.site (Demo.request [] 5 ".gif") = Raised KeyError.
Proof. repeat split. Qed.

Lemma tms_get_transparent_witness :
  (exists img,
     transparent img /\
     TmsView.get (web := Demo.web) Demo.site (Demo.request [] 5 ".png")
     = Returned (mkHttpResponse 200 "PNG" (Demo.written_as "PNG" img))) /\
  TmsView.get (web := Demo.web) Demo.site (Demo.request [] 5 ".jpg") = Raised IOError.
Proof.
  split.
  - destruct (tms_get_transparent (web := Demo.web) Demo.site (Demo.request [] 5 ".png")
                (Demo.layer (mkFile "rasters/demo.tif" "mercator") PyNone)
                (Some (colormap Demo.legend)) "PNG"
                eq_refl eq_refl eq_refl (or_introl eq_refl))
      as (img & Himg & Hwritten & _).
    exists img. split; [exact Himg|]. apply Hwritten. reflexivity.
  - destruct (tms_get_transparent (web := Demo.web) Demo.site (Demo.request [] 5 ".jpg")
                (Demo.layer (mkFile "rasters/demo.tif" "mercator") PyNone)
                (Some (colormap Demo.legend)) "JPEG"
                eq_refl eq_refl eq_refl (or_introl eq_refl))
      as (img & (Hmode & _) & _ & Hrefused).
    apply Hrefused. cbn. rewrite Hmode. reflexivity.
Defined.

Lemma extract_metadata_records_witness :
  exists w',
    extract_metadata (platform := Demo.platform) Demo.opened = (Returned tt, w') /\
    meta_numbands (metadata (db w')) = 1 /\
    meta_srid (metadata (db w')) = Some 3857.
Proof.
  destruct (extract_metadata_records (platform := Demo.platform) Demo.opened
              Demo.opened_dataset (mkSpatialReference (Some 3857) "WKT") eq_refl eq_refl)
    as (w' & Hrun & Hmeta & _).
  exists w'. split; [exact Hrun|]. rewrite Hmeta. split; reflexivity.
Defined.

Lemma extract_metadata_again_witness :
  exists w' w'',
    extract_metadata (platform := Demo.platform) Demo.opened = (Returned tt, w') /\
    extract_metadata (platform := Demo.platform) w' = (Returned tt, w'') /\
    bandmetadata (db w'') = bandmetadata (db w').
Proof.
  destruct (extract_metadata_again (platform := Demo.platform) Demo.opened
              Demo.opened_dataset (mkSpatialReference (Some 3857) "WKT") eq_refl eq_refl)
    as (w' & w'' & Hrun & Hagain & _ & Hrows).
  exists w', w''. split; [exact Hrun|]. split; [exact Hagain | exact Hrows].
Defined.

Lemma open_raster_file_reprojection_witness :
  calls (snd (open_raster_file (gdal := Demo.gdal) (const := Demo.const)
                (platform := Demo.platform) Demo.settings Demo.zipped))
  = calls (snd (open_source (gdal := Demo.gdal) (platform := Demo.platform) Demo.settings
                  (working_source Demo.zipped) (entered Demo.zipped)))
    ++ [CallTransform (Demo.raster "/tmp/raster/demo.tif" 4326) 3857] /\
  exists dest,
    reprojected (db (snd (open_raster_file (gdal := Demo.gdal) (const := Demo.const)
                            (platform := Demo.platform) Demo.settings Demo.zipped)))
    = Some (mkReprojected (mkFile "reprojected.zip" dest)).
Proof.
  pose proof (open_raster_file_reprojection (gdal := Demo.gdal) (const := Demo.const)
                (platform := Demo.platform) Demo.settings Demo.zipped
                (snd (open_source (gdal := Demo.gdal) (platform := Demo.platform) Demo.settings
                        (working_source Demo.zipped) (entered Demo.zipped)))
                (Demo.raster "/tmp/raster/demo.tif" 4326)
                (mkSpatialReference (Some 4326) "WKT") eq_refl eq_refl eq_refl) as H.
  cbv zeta in H. destruct H as (Hcalls & (dest & Hrow) & _).
  split; [exact Hcalls|]. exists "mercator". rewrite Hrow. reflexivity.
Defined.

Lemma open_raster_file_bad_nodata_witness :
  fst (open_raster_file (gdal := Demo.gdal) (const := Demo.const) (platform := Demo.platform)
         Demo.settings (Demo.fresh (mkFile "rasters/demo.tif" "mercator") (PyStr "none")))
  = Raised ValueError.
Proof.
  rewrite (open_raster_file_bad_nodata (gdal := Demo.gdal) (const := Demo.const)
             (platform := Demo.platform) Demo.settings
             (Demo.fresh (mkFile "rasters/demo.tif" "mercator") (PyStr "none"))
             (snd (open_and_reproject (gdal := Demo.gdal) (const := Demo.const)
                     (platform := Demo.platform) Demo.settings
                     (Demo.fresh (mkFile "rasters/demo.tif" "mercator") (PyStr "none"))))
             (Demo.raster "/tmp/raster/demo.tif" 3857) "none").
  - reflexivity.
  - vm_compute. reflexivity.
  - reflexivity.
  - reflexivity.
  - discriminate.
  - reflexivity.
Defined.

Lemma process_quadrant_tile_records_witness :
  exists new_tiles,
    tiles_of (snd (process_quadrant (gdal := Demo.gdal) (const := Demo.const)
                     (grid := Demo.grid) (platform := Demo.platform) (0, 0, 1, 0) 0
                     Demo.opened))
    = tiles_of Demo.opened ++ new_tiles /\
    map tile_index new_tiles = [(0, 0); (1, 0)].
Proof.
  destruct (process_quadrant_tile_records (gdal := Demo.gdal) (const := Demo.const)
              (grid := Demo.grid) (platform := Demo.platform) Demo.opened
              (snd (process_quadrant (gdal := Demo.gdal) (const := Demo.const)
                      (grid := Demo.grid) (platform := Demo.platform) (0, 0, 1, 0) 0
                      Demo.opened))
              0 0 1 0 0)
    as (snapped & new_tiles & _ & Htiles & Hidx & _).
  - vm_compute. reflexivity.
  - exists new_tiles. split; [exact Htiles | exact Hidx].
Defined.

Lemma populate_tile_level_records_level_witness :
  In 0 (levels_of (snd (populate_tile_level (gdal := Demo.gdal) (const := Demo.const)
                          (grid := Demo.grid) (platform := Demo.platform)
                          Demo.settings 0 Demo.opened))).
Proof.
  refine (proj1 (populate_tile_level_records_level (gdal := Demo.gdal) (const := Demo.const)
                   (grid := Demo.grid) (platform := Demo.platform) Demo.settings
                   Demo.opened _ 0 1 eq_refl _) _).
  - vm_compute. reflexivity.
  - lia.
Defined.

(** A parser that has a max zoom but no dataset: every quadrant fails, and
    the level is put on record all the same. *)
Lemma populate_tile_level_hides_failures_witness :
  fst (process_quadrant (gdal := Demo.gdal) (const := Demo.const) (grid := Demo.grid)
         (platform := Demo.platform) (0, 0, 0, 0) 0
         (with_self (set_max_zoom 1) (Demo.fresh (mkFile "rasters/demo.tif" "mercator") PyNone)))
  = Raised AttributeError /\
  exists w',
    populate_tile_level (gdal := Demo.gdal) (const := Demo.const) (grid := Demo.grid)
      (platform := Demo.platform) Demo.settings 0
      (with_self (set_max_zoom 1) (Demo.fresh (mkFile "rasters/demo.tif" "mercator") PyNone))
    = (Returned tt, w') /\
    In 0 (levels_of w').
Proof.
  split; [reflexivity|].
  apply (populate_tile_level_hides_failures (gdal := Demo.gdal) (const := Demo.const)
           (grid := Demo.grid) (platform := Demo.platform) Demo.settings
           (with_self (set_max_zoom 1) (Demo.fresh (mkFile "rasters/demo.tif" "mercator") PyNone))
           0 1).
  - reflexivity.
  - reflexivity.
  - lia.
Defined.

Lemma nr_of_tiles_counts_witness :
  exists n,
    nr_of_tiles (grid := Demo.grid) (platform := Demo.platform) 0 Demo.opened
    = (Returned n, Demo.opened) /\
    n = 2.
Proof.
  destruct (nr_of_tiles_counts (gdal := Demo.gdal) (const := Demo.const) (grid := Demo.grid)
              (platform := Demo.platform) Demo.opened
              (snd (process_quadrant (gdal := Demo.gdal) (const := Demo.const)
                      (grid := Demo.grid) (platform := Demo.platform) (0, 0, 1, 0) 0
                      Demo.opened))
              0 0 1 0 0)
    as (n & Hrun & Hn & _).
  - reflexivity.
  - lia.
  - lia.
  - vm_compute. reflexivity.
  - exists n. split; [exact Hrun | exact Hn].
Defined.

Lemma create_initial_histogram_buckets_start_witness :
  fst (create_initial_histogram_buckets Demo.opened) = Returned tt.
Proof.
  apply (proj1 (create_initial_histogram_buckets_start Demo.opened Demo.opened_dataset
                  eq_refl)).
  intros i Hi. assert (i = 0%nat) as -> by (cbn in Hi; lia). discriminate.
Defined.

(** The buckets of the deployment, as [create_initial_histogram_buckets]
    leaves them, and the block of a tile of its one band. *)
Lemma push_histogram_adds_witness :
  exists bins v v',
    hist_bins (self (snd (create_initial_histogram_buckets Demo.opened))) !! 0%nat = Some bins /\
    hist_values (self (snd (create_initial_histogram_buckets Demo.opened))) !! 0%nat = Some v /\
    pushed bins (mkBandData [[1%Q; 2%Q]; [3%Q; 4%Q]] (Some 0%Q)) v v' /\
    hist_values (self (snd (push_histogram [mkBandData [[1%Q; 2%Q]; [3%Q; 4%Q]] (Some 0%Q)]
                              (snd (create_initial_histogram_buckets Demo.opened)))))
      !! 0%nat
    = Some v'.
Proof.
  refine (proj1 (proj2 (proj2
    (push_histogram_adds [mkBandData [[1%Q; 2%Q]; [3%Q; 4%Q]] (Some 0%Q)]
       (snd (create_initial_histogram_buckets Demo.opened))
       (snd (push_histogram [mkBandData [[1%Q; 2%Q]; [3%Q; 4%Q]] (Some 0%Q)]
               (snd (create_initial_histogram_buckets Demo.opened))))
       _))) 0%nat (mkBandData [[1%Q; 2%Q]; [3%Q; 4%Q]] (Some 0%Q)) eq_refl).
  vm_compute. reflexivity.
Defined.

Lemma push_histogram_commutes_witness :
  exists wb,
    push_histogram [mkBandData [[4%Q; 4%Q]; [4%Q; 1%Q]] (Some 0%Q)]
      (snd (create_initial_histogram_buckets Demo.opened))
    = (Returned tt, wb) /\
    hist_values (self (snd (push_histogram [mkBandData [[1%Q; 2%Q]; [3%Q; 4%Q]] (Some 0%Q)] wb)))
    = [[3; 5]].
Proof.
  destruct (push_histogram_commutes
              [mkBandData [[1%Q; 2%Q]; [3%Q; 4%Q]] (Some 0%Q)]
              [mkBandData [[4%Q; 4%Q]; [4%Q; 1%Q]] (Some 0%Q)]
              (snd (create_initial_histogram_buckets Demo.opened))
              (snd (push_histogram [mkBandData [[1%Q; 2%Q]; [3%Q; 4%Q]] (Some 0%Q)]
                      (snd (create_initial_histogram_buckets Demo.opened))))
              (snd (push_histogram [mkBandData [[4%Q; 4%Q]; [4%Q; 1%Q]] (Some 0%Q)]
                      (snd (push_histogram [mkBandData [[1%Q; 2%Q]; [3%Q; 4%Q]] (Some 0%Q)]
                              (snd (create_initial_histogram_buckets Demo.opened)))))))
    as (wb & Hb & Ha).
  - vm_compute. reflexivity.
  - vm_compute. reflexivity.
  - exists wb. split; [exact Hb|]. rewrite Ha. vm_compute. reflexivity.
Defined.

Lemma tms_get_renders_witness :
  TmsView.get (web := Demo.web) Demo.site (Demo.request [] 1 ".png")
  = Returned (mkHttpResponse 200 "PNG"
                (Demo.written_as "PNG" (Image_new "RGBA" (256, 256) (255, 0, 0, 255)))) /\
  TmsView.get (web := Demo.web) Demo.site (Demo.request [] 1 ".jpg") = Raised IOError.
Proof.
  split.
  - refine (proj1 (proj1 (tms_get_renders (web := Demo.web) Demo.site
                            (Demo.request [] 1 ".png")
                            (Demo.layer (mkFile "rasters/demo.tif" "mercator") PyNone)
                            Demo.valid_tile (colormap Demo.legend)
                            (Image_new "RGBA" (256, 256) (255, 0, 0, 255)) "PNG"
                            eq_refl eq_refl eq_refl _ eq_refl eq_refl)) _ eq_refl).
    discriminate.
  - refine (proj2 (proj1 (tms_get_renders (web := Demo.web) Demo.site
                            (Demo.request [] 1 ".jpg")
                            (Demo.layer (mkFile "rasters/demo.tif" "mercator") PyNone)
                            Demo.valid_tile (colormap Demo.legend)
                            (Image_new "RGBA" (256, 256) (255, 0, 0, 255)) "JPEG"
                            eq_refl eq_refl eq_refl _ eq_refl eq_refl)) eq_refl).
    discriminate.
Defined.

Lemma tms_get_no_colormap_witness :
  TmsView.get_colormap (web := Demo.web) Demo.site
    (Demo.request [("legend", "Soil")] 1 ".png")
    (Demo.layer (mkFile "rasters/demo.tif" "mercator") PyNone) = Returned None /\
  exists img,
    transparent img /\
    TmsView.get (web := Demo.web) Demo.site (Demo.request [("legend", "Soil")] 1 ".png")
    = Returned (mkHttpResponse 200 "PNG" (Demo.written_as "PNG" img)).
Proof.
  destruct (proj1 (tms_get_no_colormap (web := Demo.web) Demo.site
                     (Demo.request [("legend", "Soil")] 1 ".png")
                     (Demo.layer (mkFile "rasters/demo.tif" "mercator") PyNone) "PNG"
                     eq_refl eq_refl eq_refl)
              "Soil" eq_refl)
    as (Hnone & img & Himg & Hwritten & _).
  - intros l [<-|[]]. discriminate.
  - split; [exact Hnone|]. exists img. split; [exact Himg|]. apply Hwritten. reflexivity.
Defined.

Lemma open_raster_file_archive_candidates_witness :
  In "/tmp/raster/notes.txt"
    (matched_files [("/tmp/raster", ["README"; "notes.txt"; "demo.tif"; "other.tif"])]) <->
  exists root filenames before after,
    In (root, filenames) [("/tmp/raster", ["README"; "notes.txt"; "demo.tif"; "other.tif"])] /\
    In (before ++ "." ++ after)%string filenames /\
    "/tmp/raster/notes.txt" = path_join root (before ++ "." ++ after).
Proof.
  exact (proj1 (open_raster_file_archive_candidates (gdal := Demo.gdal) (const := Demo.const)
                  (platform := Demo.platform) Demo.settings Demo.zipped
                  [("/tmp/raster", ["README"; "notes.txt"; "demo.tif"; "other.tif"])]
                  eq_refl eq_refl)
           "/tmp/raster/notes.txt").
Defined.

Lemma open_raster_file_plain_witness :
  open_raster_file (gdal := Demo.gdal) (const := Demo.const) (platform := Demo.platform)
    Demo.settings (Demo.fresh (mkFile "rasters/demo.txt" "wgs84") PyNone)
  = (Raised GDALException,
     snd (open_source (gdal := Demo.gdal) (platform := Demo.platform) Demo.settings
            (mkFile "rasters/demo.txt" "wgs84")
            (entered (Demo.fresh (mkFile "rasters/demo.txt" "wgs84") PyNone)))).
Proof.
  refine (proj1 (proj2 (proj2 (proj2 (proj2
    (open_raster_file_plain (gdal := Demo.gdal) (const := Demo.const)
       (platform := Demo.platform) Demo.settings
       (Demo.fresh (mkFile "rasters/demo.txt" "wgs84") PyNone) _ _)))) eq_refl)).
  - discriminate.
  - discriminate.
Defined.
